(** * Test-plan generation pipeline: a shallow embedding

    The development follows the backend services of the test-plan generator:
    the error classes of [middleware/errorHandler.ts], the SQLite tables of
    [database/schema.sql], the ticket cache ([jira-ticket-service.ts]), the
    template store ([template-service.ts]), the settings reader
    ([settings-service.ts]), the two LLM providers ([llm/groq-provider.ts],
    [llm/ollama-provider.ts]) and the orchestrator ([testplan-service.ts]).

    Conventions.
    - JavaScript strings are [string]; [String.length] stands for [.length].
    - JavaScript numbers that are integers (ids, HTTP statuses, sizes, row
      counts, timestamps) are [Z]; the fractional ones (progress, temperature)
      are [Q], and where the source computes one ([progress_estimate]) the
      arithmetic is done in binary64 and the result read as the rational it
      denotes.
    - A thrown value is an [exn]; a computation is a function of the [world]
      (database, disk, clock, fault oracle, event trace) that returns an
      [outcome] and the new world.  Effects performed before a throw stay
      in the world, as in the source.
    - An async generator is run against its consumer: [yield_] appends the
      event to the trace and then asks the consumer whether it keeps
      iterating; a consumer that leaves its [for await] loop makes the
      generator finish at that [yield] ([Stopped]), which no [catch] sees. *)

From Stdlib Require Import ZArith QArith Qminmax List String Ascii Bool Lia.
From Stdlib Require Floats Uint63.
Import ListNotations.

Local Open Scope string_scope.
Local Open Scope Z_scope.

(** ** Strings *)

Module Str.

(** [s.includes(sub)] *)
Fixpoint includes (sub s : string) : bool :=
  if String.prefix sub s then true
  else match s with
       | EmptyString => false
       | String _ s' => includes sub s'
       end.

(** ASCII white space, the part of what [String.prototype.trim] strips that
    an ASCII string can hold. *)
Definition is_space (c : ascii) : bool :=
  match nat_of_ascii c with
  | 9%nat | 10%nat | 11%nat | 12%nat | 13%nat | 32%nat => true
  | _ => false
  end.

(** [!s.trim()] : the string is empty once trimmed. *)
Fixpoint blank (s : string) : bool :=
  match s with
  | EmptyString => true
  | String c s' => is_space c && blank s'
  end.

(** JavaScript truthiness of a string. *)
Definition truthy (s : string) : bool :=
  match s with EmptyString => false | _ => true end.

(** [a || b] on strings. *)
Definition or_else (a b : string) : string :=
  if truthy a then a else b.

Definition newline : ascii := ascii_of_nat 10.

(** [s.split('\n')] seen as the pair of its complete lines (all segments
    but the last) and the last segment. *)
Fixpoint split_lines (s : string) : list string * string :=
  match s with
  | EmptyString => ([], EmptyString)
  | String c s' =>
      let '(ls, rest) := split_lines s' in
      if Ascii.eqb c newline then (EmptyString :: ls, rest)
      else match ls with
           | [] => ([], String c rest)
           | l :: ls' => (String c l :: ls', rest)
           end
  end.

Definition concat (l : list string) : string :=
  fold_right String.append EmptyString l.

End Str.

(** ** Thrown values *)

(** What a [catch] clause of these services can receive.  [ApiError] is the
    class of [errorHandler.ts]; [GroqAPIError] is [Groq.APIError] of the SDK;
    [AxiosError] carries its [code] and, when the server answered, the
    [response.status]; [JsError] is any other [Error] instance (a
    [SqliteError], a [TypeError], ...); [NonError] is a thrown value that is
    not an [Error]. *)
Inductive exn : Type :=
| ApiError (message : string) (status : Z) (code : string)
| GroqAPIError (status : option Z) (message : string)
| AxiosError (code : option string) (response_status : option Z) (message : string)
| JsError (message : string)
| NonError.

(** [error instanceof Error] *)
Definition instanceof_Error (e : exn) : bool :=
  match e with NonError => false | _ => true end.

(** [error.message], for an [Error] instance. *)
Definition message_of (e : exn) : string :=
  match e with
  | ApiError m _ _ => m
  | GroqAPIError _ m => m
  | AxiosError _ _ m => m
  | JsError m => m
  | NonError => EmptyString
  end.

(** ['status' in error].  [ApiError] and [Groq.APIError] declare the
    property; an [AxiosError] has it only together with a response. *)
Definition has_status (e : exn) : bool :=
  match e with
  | ApiError _ _ _ => true
  | GroqAPIError _ _ => true
  | AxiosError _ (Some _) _ => true
  | _ => false
  end.

Module Errors.
Definition BadRequest (m : string) : exn := ApiError m 400 "BAD_REQUEST".
Definition Unauthorized (m : string) : exn := ApiError m 401 "UNAUTHORIZED".
Definition NotFound (resource : string) : exn :=
  ApiError (resource ++ " not found") 404 "NOT_FOUND".
Definition TooManyRequests (m : string) : exn := ApiError m 429 "TOO_MANY_REQUESTS".
Definition Internal (m : string) : exn := ApiError m 500 "INTERNAL_ERROR".
Definition BadGateway (m : string) : exn := ApiError m 502 "BAD_GATEWAY".
End Errors.

(** ** Stream events *)

Inductive event_type : Type := progress | content | complete | error.

Definition event_type_eqb (a b : event_type) : bool :=
  match a, b with
  | progress, progress | content, content
  | complete, complete | error, error => true
  | _, _ => false
  end.

(** [GenerationStreamEvent] of [types/index.ts]. *)
Record GenerationStreamEvent : Type := mkEvent {
  ev_type : event_type;
  ev_data : string;
  ev_progress : option Q
}.

Definition is_terminal (e : GenerationStreamEvent) : bool :=
  match ev_type e with complete | error => true | _ => false end.

Definition is_content (e : GenerationStreamEvent) : bool :=
  event_type_eqb (ev_type e) content.

Definition is_complete (e : GenerationStreamEvent) : bool :=
  event_type_eqb (ev_type e) complete.

Definition is_error (e : GenerationStreamEvent) : bool :=
  event_type_eqb (ev_type e) error.

(** The text carried by the [content] events of a trace, in order. *)
Definition content_text (l : list GenerationStreamEvent) : string :=
  Str.concat (map ev_data (filter is_content l)).

Definition count_terminal (l : list GenerationStreamEvent) : nat :=
  List.length (filter is_terminal l).

(** ** Data model *)

(** [Attachment] and [JiraTicketResponse] of [types/index.ts]. *)
Record Attachment : Type := {
  filename : string;
  contentType : string;
  size : Z;
  url : string
}.

Record JiraTicketResponse : Type := {
  key : string;
  summary : string;
  description : string;
  priority : string;
  status : string;
  assignee : string;
  labels : list string;
  acceptanceCriteria : string;
  attachments : list Attachment
}.

(** A row of table [jira_tickets]; [labels], [attachments] and [raw_data]
    hold JSON text. *)
Record JiraTicketRow : Type := {
  jt_id : Z;
  jt_ticket_key : string;
  jt_summary : string;
  jt_description : string;
  jt_priority : string;
  jt_status : string;
  jt_assignee : string;
  jt_labels : string;
  jt_acceptance_criteria : string;
  jt_attachments : string;
  jt_raw_data : string;
  jt_fetched_at : Z
}.

(** A row of table [templates]; [is_default] is the 0/1 column. *)
Record TemplateRow : Type := {
  tr_id : Z;
  tr_name : string;
  tr_filename : string;
  tr_filepath : string;
  tr_content : string;
  tr_is_default : bool;
  tr_created_at : Z;
  tr_updated_at : Z
}.

(** The [Template] object the template service hands out ([rowToTemplate]). *)
Record Template : Type := {
  t_id : Z;
  t_name : string;
  t_filename : string;
  t_filepath : string;
  t_content : string;
  t_isDefault : bool;
  t_createdAt : Z
}.

(** A row of table [test_plan_history]; the two foreign keys are nullable. *)
Record HistoryRow : Type := {
  h_id : Z;
  h_ticket_key : string;
  h_ticket_id : option Z;
  h_template_id : option Z;
  h_llm_provider : string;
  h_generated_content : string;
  h_created_at : Z
}.

(** The single row of table [settings]; every column is nullable. *)
Record SettingsRow : Type := {
  s_jira_base_url : option string;
  s_jira_username : option string;
  s_jira_api_token : option string;
  s_jira_connected : bool;
  s_llm_provider : option string;
  s_groq_api_key : option string;
  s_groq_model : option string;
  s_groq_temperature : option Q;
  s_ollama_base_url : option string;
  s_ollama_model : option string
}.

Record Database : Type := mkDatabase {
  settings : option SettingsRow;
  jira_tickets : list JiraTicketRow;
  jira_tickets_seq : Z;
  templates : list TemplateRow;
  templates_seq : Z;
  test_plan_history : list HistoryRow;
  test_plan_history_seq : Z
}.

Inductive provider_name : Type := groq | ollama.

Definition provider_string (p : provider_name) : string :=
  match p with groq => "groq" | ollama => "ollama" end.

(** [TestPlanContext] *)
Record TestPlanContext : Type := {
  ctx_ticket : JiraTicketResponse;
  ctx_template : string;
  ctx_temperature : Q
}.

(** ** The upstream services, as the run finds them *)

(** A stream handed out by an upstream call: the chunks it delivers and
    whether it then closes ([None]) or fails ([Some e]). *)
Record upstream_stream (chunk : Type) : Type := {
  chunks : list chunk;
  failure : option exn
}.
Arguments chunks {chunk} _.
Arguments failure {chunk} _.

(** [client.chat.completions.create] either throws or returns a stream whose
    chunks carry [choices[0]?.delta?.content] (absent: [None]). *)
Definition groq_upstream : Type := exn + upstream_stream (option string).

(** [axios.post(.../api/generate, responseType: 'stream')] either throws or
    returns a response whose [data] delivers text chunks. *)
Definition ollama_upstream : Type := exn + upstream_stream string.

(** [OllamaGenerateResponse], the fields the provider reads. *)
Record OllamaGenerateResponse : Type := {
  response : string;
  done : bool
}.

(** ** Platform functions

    Library functions the services call and whose code is outside the
    repository. *)
Class Platform : Type := {
  (** [JSON.stringify] at the three types [saveTicket] uses it at *)
  JSON_stringify_labels : list string -> string;
  JSON_stringify_attachments : list Attachment -> string;
  JSON_stringify_ticket : JiraTicketResponse -> string;
  (** [JSON.parse] at the types [rowToResponse] uses it at; [None] when it throws *)
  JSON_parse_labels : string -> option (list string);
  JSON_parse_attachments : string -> option (list Attachment);
  (** [JSON.parse(line)] read as an [OllamaGenerateResponse]; [None] when
      parsing, or reading a field of the result, throws *)
  JSON_parse_fragment : string -> option OllamaGenerateResponse;
  (** [decryptField] of the settings service *)
  decryptField : option string -> string;
  (** [pdfParse(buffer)] followed by the clean-up of [extractText];
      [None] when it throws *)
  pdf_text : string -> option string;
  (** [path.join(dir, file)] and [path.parse(file).name] *)
  path_join : string -> string -> string;
  path_parse_name : string -> string
}.

(** ** The world *)

Record world : Type := mkWorld {
  db : Database;
  (** files present in the templates directory *)
  disk : list string;
  (** [CURRENT_TIMESTAMP] *)
  now : Z;
  (** the next value of [uuidv4().slice(0, 8)] *)
  uuid : string;
  (** fault oracle: one entry per database statement or file operation, in
      execution order; [Some e] makes that operation throw [e], an exhausted
      oracle means no further fault *)
  faults : list (option exn);
  (** the tracker: what [JiraClient.fetchTicket] does for a ticket id *)
  jira_fetch : string -> exn + JiraTicketResponse;
  (** events yielded so far by the generator being run *)
  emitted : list GenerationStreamEvent;
  (** events the orchestrator has received from the provider's generator *)
  pulled : list GenerationStreamEvent;
  (** number of times a provider's [generateTestPlan] was invoked *)
  provider_calls : nat
}.

Definition set_db (d : Database) (w : world) : world :=
  mkWorld d (disk w) (now w) (uuid w) (faults w) (jira_fetch w)
          (emitted w) (pulled w) (provider_calls w).

Definition set_disk (f : list string) (w : world) : world :=
  mkWorld (db w) f (now w) (uuid w) (faults w) (jira_fetch w)
          (emitted w) (pulled w) (provider_calls w).

Definition set_faults (f : list (option exn)) (w : world) : world :=
  mkWorld (db w) (disk w) (now w) (uuid w) f (jira_fetch w)
          (emitted w) (pulled w) (provider_calls w).

Definition set_emitted (l : list GenerationStreamEvent) (w : world) : world :=
  mkWorld (db w) (disk w) (now w) (uuid w) (faults w) (jira_fetch w)
          l (pulled w) (provider_calls w).

Definition set_pulled (l : list GenerationStreamEvent) (w : world) : world :=
  mkWorld (db w) (disk w) (now w) (uuid w) (faults w) (jira_fetch w)
          (emitted w) l (provider_calls w).

Definition set_provider_calls (n : nat) (w : world) : world :=
  mkWorld (db w) (disk w) (now w) (uuid w) (faults w) (jira_fetch w)
          (emitted w) (pulled w) n.

Definition set_jira_tickets (l : list JiraTicketRow) (s : Z) (d : Database) : Database :=
  mkDatabase (settings d) l s (templates d) (templates_seq d)
             (test_plan_history d) (test_plan_history_seq d).

Definition set_templates (l : list TemplateRow) (s : Z) (d : Database) : Database :=
  mkDatabase (settings d) (jira_tickets d) (jira_tickets_seq d) l s
             (test_plan_history d) (test_plan_history_seq d).

Definition set_history (l : list HistoryRow) (s : Z) (d : Database) : Database :=
  mkDatabase (settings d) (jira_tickets d) (jira_tickets_seq d)
             (templates d) (templates_seq d) l s.

Definition set_settings (s : option SettingsRow) (d : Database) : Database :=
  mkDatabase s (jira_tickets d) (jira_tickets_seq d)
             (templates d) (templates_seq d)
             (test_plan_history d) (test_plan_history_seq d).

(** ** The effect monad *)

Inductive outcome (A : Type) : Type :=
| Ok (a : A)        (* normal completion *)
| Throw (e : exn)   (* an exception propagates *)
| Stopped.          (* the consumer left the loop at a [yield] *)
Arguments Ok {A} _.
Arguments Throw {A} _.
Arguments Stopped {A}.

Definition M (A : Type) : Type := world -> outcome A * world.

Definition ret {A} (a : A) : M A := fun w => (Ok a, w).

Definition bind {A B} (m : M A) (k : A -> M B) : M B :=
  fun w =>
    match m w with
    | (Ok a, w') => k a w'
    | (Throw e, w') => (Throw e, w')
    | (Stopped, w') => (Stopped, w')
    end.

Definition throw {A} (e : exn) : M A := fun w => (Throw e, w).

(** [try { m } catch (error) { h error }] *)
Definition try_catch {A} (m : M A) (h : exn -> M A) : M A :=
  fun w =>
    match m w with
    | (Throw e, w') => h e w'
    | r => r
    end.

Definition get_world : M world := fun w => (Ok w, w).

Definition modify (f : world -> world) : M unit := fun w => (Ok tt, f w).

Declare Scope monad_scope.
Delimit Scope monad_scope with monad.
Notation "x <- m ;; k" := (bind m (fun x => k))
  (at level 61, m at next level, right associativity) : monad_scope.
Notation "m ;; k" := (bind m (fun _ => k))
  (at level 61, right associativity) : monad_scope.
Local Open Scope monad_scope.

(** One database statement ([prepare] then [run], [get] or [all]) or one
    file operation: it consumes one entry of the fault oracle. *)
Definition io_step : M unit :=
  fun w =>
    match faults w with
    | [] => (Ok tt, w)
    | None :: fs => (Ok tt, set_faults fs w)
    | Some e :: fs => (Throw e, set_faults fs w)
    end.

(** A statement that reads the database. *)
Definition db_query {A} (q : Database -> A) : M A :=
  io_step ;; w <- get_world ;; ret (q (db w)).

(** A statement that writes the database and reports a result. *)
Definition db_exec {A} (f : Database -> Z -> A * Database) : M A :=
  io_step ;;
  w <- get_world ;;
  let '(a, d) := f (db w) (now w) in
  modify (set_db d) ;; ret a.

(** A writing statement under a foreign key ([PRAGMA foreign_keys = ON]):
    when the database does not satisfy [references], the statement throws
    and changes nothing. *)
Definition db_exec_fk {A} (references : Database -> bool)
           (f : Database -> Z -> A * Database) : M A :=
  io_step ;;
  w <- get_world ;;
  if references (db w) then
    let '(a, d) := f (db w) (now w) in
    modify (set_db d) ;; ret a
  else throw (JsError "FOREIGN KEY constraint failed").

Section Generator.

(** The consumer: after receiving an event, does it stop iterating? *)
Variable stop : GenerationStreamEvent -> bool.

(** [yield e] *)
Definition yield_ (e : GenerationStreamEvent) : M unit :=
  fun w =>
    let w' := set_emitted (emitted w ++ [e]) w in
    if stop e then (Stopped, w') else (Ok tt, w').

End Generator.

(** The consumer that drains the generator ([for await] without [break]). *)
Definition drain : GenerationStreamEvent -> bool := fun _ => false.

(** The consumer of the streaming route: it leaves the loop at the first
    [complete] or [error] event. *)
Definition until_terminal : GenerationStreamEvent -> bool := is_terminal.

(** ** Ticket cache ([JiraTicketService]) *)

Module JiraTicketService.
Section WithPlatform.
Context {P : Platform}.

(** The column values [saveTicket] binds, for a row with identifier [id]
    written at time [t]. *)
Definition row_of (id : Z) (ticket : JiraTicketResponse) (t : Z) : JiraTicketRow :=
  {| jt_id := id;
     jt_ticket_key := key ticket;
     jt_summary := summary ticket;
     jt_description := description ticket;
     jt_priority := priority ticket;
     jt_status := status ticket;
     jt_assignee := assignee ticket;
     jt_labels := JSON_stringify_labels (labels ticket);
     jt_acceptance_criteria := acceptanceCriteria ticket;
     jt_attachments := JSON_stringify_attachments (attachments ticket);
     jt_raw_data := JSON_stringify_ticket ticket;
     jt_fetched_at := t |}.

Definition has_key (k : string) (r : JiraTicketRow) : bool :=
  String.eqb (jt_ticket_key r) k.

(** [INSERT INTO jira_tickets (...) VALUES (...) ON CONFLICT(ticket_key)
    DO UPDATE SET ...]: a row with the key is overwritten in place and
    keeps its [id]; otherwise a row is appended under the next [id].  The
    AUTOINCREMENT sequence advances either way: the insert takes its
    identifier before the conflict is found. *)
Definition upsert (ticket : JiraTicketResponse) (d : Database) (t : Z) : unit * Database :=
  let id := jira_tickets_seq d + 1 in
  if existsb (has_key (key ticket)) (jira_tickets d) then
    (tt, set_jira_tickets
           (map (fun r => if has_key (key ticket) r
                          then row_of (jt_id r) ticket t else r)
                (jira_tickets d))
           id d)
  else
    (tt, set_jira_tickets (jira_tickets d ++ [row_of id ticket t]) id d).

Definition saveTicket (ticket : JiraTicketResponse) : M unit :=
  try_catch
    (db_exec (upsert ticket))
    (fun _ => throw (Errors.Internal "Failed to save ticket to cache")).

(** [rowToResponse]; it throws when a JSON column does not parse. *)
Definition rowToResponse (row : JiraTicketRow) : M JiraTicketResponse :=
  match JSON_parse_labels (Str.or_else (jt_labels row) "[]"),
        JSON_parse_attachments (Str.or_else (jt_attachments row) "[]") with
  | Some ls, Some atts =>
      ret {| key := jt_ticket_key row;
             summary := jt_summary row;
             description := jt_description row;
             priority := jt_priority row;
             status := jt_status row;
             assignee := jt_assignee row;
             labels := ls;
             acceptanceCriteria := jt_acceptance_criteria row;
             attachments := atts |}
  | _, _ => throw (JsError "Unexpected token in JSON")
  end.

Definition getTicket (ticketKey : string) : M (option JiraTicketResponse) :=
  try_catch
    (row <- db_query (fun d => find (has_key ticketKey) (jira_tickets d)) ;;
     match row with
     | None => ret None
     | Some r => t <- rowToResponse r ;; ret (Some t)
     end)
    (fun _ => ret None).

Definition getCount : M Z :=
  try_catch
    (db_query (fun d => Z.of_nat (List.length (jira_tickets d))))
    (fun _ => ret 0).

End WithPlatform.
End JiraTicketService.

(** ** Settings ([SettingsService]) *)

Record Settings : Type := {
  jira_base_url : string;
  jira_username : string;
  jira_api_token : string;
  jira_connected : bool;
  llm_provider : string;
  groq_api_key : string;
  groq_model : string;
  groq_temperature : Q;
  ollama_base_url : string;
  ollama_model : string
}.

Record JiraConfig : Type := {
  jc_baseUrl : string;
  jc_username : string;
  jc_apiToken : string;
  jc_isConnected : bool
}.

Record LLMConfig : Type := {
  lc_provider : string;
  lc_groq_apiKey : string;
  lc_groq_model : string;
  lc_groq_temperature : Q;
  lc_ollama_baseUrl : string;
  lc_ollama_model : string
}.

Module SettingsService.
Section WithPlatform.
Context {P : Platform}.

(** [x || d] for a nullable text column *)
Definition text_or (x : option string) (d : string) : string :=
  match x with Some s => Str.or_else s d | None => d end.

(** [x || d] for a number: zero is falsy *)
Definition num_or (x d : Q) : Q := if Qeq_bool x 0 then d else x.

Definition rowToSettings (row : SettingsRow) : Settings :=
  {| jira_base_url := text_or (s_jira_base_url row) EmptyString;
     jira_username := text_or (s_jira_username row) EmptyString;
     jira_api_token := decryptField (s_jira_api_token row);
     jira_connected := s_jira_connected row;
     llm_provider := text_or (s_llm_provider row) "groq";
     groq_api_key := decryptField (s_groq_api_key row);
     groq_model := text_or (s_groq_model row) "llama3-70b-8192";
     groq_temperature :=
       match s_groq_temperature row with Some t => t | None => 7 # 10 end;
     ollama_base_url := text_or (s_ollama_base_url row) "http://localhost:11434";
     ollama_model := text_or (s_ollama_model row) "llama3" |}.

(** The row [INSERT OR IGNORE INTO settings (id) VALUES (1)] creates: the
    column defaults of the schema. *)
Definition default_row : SettingsRow :=
  {| s_jira_base_url := None;
     s_jira_username := None;
     s_jira_api_token := None;
     s_jira_connected := false;
     s_llm_provider := Some "groq";
     s_groq_api_key := None;
     s_groq_model := Some "llama3-70b-8192";
     s_groq_temperature := Some (7 # 10);
     s_ollama_base_url := Some "http://localhost:11434";
     s_ollama_model := Some "llama3" |}.

Definition insert_default (d : Database) (_ : Z) : unit * Database :=
  match settings d with
  | Some _ => (tt, d)
  | None => (tt, set_settings (Some default_row) d)
  end.

Definition failed : exn := Errors.Internal "Failed to retrieve settings".

(** [getSettings] with no row creates the row and calls itself; that inner
    call finds the row, so the recursion is written out once.  Both calls
    have the [try]/[catch] of the method around them. *)
Definition getSettings : M Settings :=
  try_catch
    (row <- db_query settings ;;
     match row with
     | Some r => ret (rowToSettings r)
     | None =>
         db_exec insert_default ;;
         try_catch
           (row' <- db_query settings ;;
            match row' with
            | Some r => ret (rowToSettings r)
            | None => ret (rowToSettings default_row)
            end)
           (fun _ => throw failed)
     end)
    (fun _ => throw failed).

Definition getJiraConfig : M JiraConfig :=
  s <- getSettings ;;
  ret {| jc_baseUrl := Str.or_else (jira_base_url s) EmptyString;
         jc_username := Str.or_else (jira_username s) EmptyString;
         jc_apiToken := Str.or_else (jira_api_token s) EmptyString;
         jc_isConnected := jira_connected s |}.

Definition getLLMConfig : M LLMConfig :=
  s <- getSettings ;;
  ret {| lc_provider := Str.or_else (llm_provider s) "groq";
         lc_groq_apiKey := Str.or_else (groq_api_key s) EmptyString;
         lc_groq_model := Str.or_else (groq_model s) "llama3-70b-8192";
         lc_groq_temperature := num_or (groq_temperature s) (7 # 10);
         lc_ollama_baseUrl := Str.or_else (ollama_base_url s) "http://localhost:11434";
         lc_ollama_model := Str.or_else (ollama_model s) "llama3" |}.

End WithPlatform.
End SettingsService.

(** ** Template store ([TemplateService]) *)

(** The uploaded file, as multer hands it over. *)
Record MulterFile : Type := {
  buffer : option string;
  mimetype : string;
  file_size : Z;
  originalname : string
}.

(** [CreateTemplateData] *)
Record CreateTemplateData : Type := {
  ctd_name : string;
  ctd_filename : string;
  ctd_filepath : string;
  ctd_content : string;
  ctd_isDefault : bool
}.

(** The [data] argument of [updateTemplate]: each field may be absent. *)
Record TemplateUpdate : Type := {
  upd_name : option string;
  upd_isDefault : option bool
}.

Module TemplateService.
Section WithPlatform.
Context {P : Platform}.
Variable templatesDir : string.

Definition rowToTemplate (row : TemplateRow) : Template :=
  {| t_id := tr_id row;
     t_name := tr_name row;
     t_filename := tr_filename row;
     t_filepath := tr_filepath row;
     t_content := tr_content row;
     t_isDefault := tr_is_default row;
     t_createdAt := tr_created_at row |}.

Definition has_id (id : Z) (r : TemplateRow) : bool := tr_id r =? id.

(** [ORDER BY is_default DESC, created_at DESC]: does [a] come before [b]? *)
Definition before (a b : TemplateRow) : bool :=
  match tr_is_default a, tr_is_default b with
  | true, false => true
  | false, true => false
  | _, _ => tr_created_at b <? tr_created_at a
  end.

Fixpoint insert_sorted (r : TemplateRow) (l : list TemplateRow) : list TemplateRow :=
  match l with
  | [] => [r]
  | x :: l' => if before x r then x :: insert_sorted r l'
               else if before r x then r :: l
               else x :: insert_sorted r l'
  end.

(** Rows that tie keep their table order. *)
Definition order_rows (l : list TemplateRow) : list TemplateRow :=
  fold_left (fun acc r => insert_sorted r acc) l [].

Definition getAllTemplates : M (list Template) :=
  try_catch
    (rows <- db_query (fun d => order_rows (templates d)) ;;
     ret (map rowToTemplate rows))
    (fun _ => ret []).

Definition getTemplate (id : Z) : M (option Template) :=
  try_catch
    (row <- db_query (fun d => find (has_id id) (templates d)) ;;
     match row with
     | None => ret None
     | Some r => ret (Some (rowToTemplate r))
     end)
    (fun _ => ret None).

Definition getDefaultTemplate : M (option Template) :=
  try_catch
    (row <- db_query (fun d => find tr_is_default (templates d)) ;;
     match row with
     | None =>
         (* Return first template if no default *)
         all <- getAllTemplates ;;
         ret (hd_error all)
     | Some r => ret (Some (rowToTemplate r))
     end)
    (fun _ => ret None).

Definition getCount : M Z :=
  try_catch
    (db_query (fun d => Z.of_nat (List.length (templates d))))
    (fun _ => ret 0).

Definition hasTemplates : M bool :=
  n <- getCount ;; ret (0 <? n).

Definition shouldBeDefault : M bool :=
  b <- hasTemplates ;; ret (negb b).

(** [UPDATE templates SET is_default = 0 WHERE is_default = 1]; the trigger
    [update_templates_timestamp] stamps the rows it changes. *)
Definition clear_default (t : Z) (r : TemplateRow) : TemplateRow :=
  {| tr_id := tr_id r; tr_name := tr_name r; tr_filename := tr_filename r;
     tr_filepath := tr_filepath r; tr_content := tr_content r;
     tr_is_default := false;
     tr_created_at := tr_created_at r; tr_updated_at := t |}.

Definition unset_defaults (d : Database) (t : Z) : unit * Database :=
  (tt, set_templates
         (map (fun r => if tr_is_default r then clear_default t r else r) (templates d))
         (templates_seq d) d).

(** [INSERT INTO templates (name, filename, filepath, content, is_default)];
    the result is [lastInsertRowid]. *)
Definition insert_row (data : CreateTemplateData) (d : Database) (t : Z) : Z * Database :=
  let id := templates_seq d + 1 in
  (id, set_templates
         (templates d ++
            [{| tr_id := id; tr_name := ctd_name data;
                tr_filename := ctd_filename data;
                tr_filepath := ctd_filepath data;
                tr_content := ctd_content data;
                tr_is_default := ctd_isDefault data;
                tr_created_at := t; tr_updated_at := t |}])
         id d).

Definition insertTemplate (data : CreateTemplateData) : M Z :=
  try_catch
    ((* If this is default, unset previous default *)
     (if ctd_isDefault data then db_exec unset_defaults else ret tt) ;;
     db_exec (insert_row data))
    (fun _ => throw (Errors.Internal "Failed to save template to database")).

(** [sanitizeFilename]: every character outside [a-zA-Z0-9._-] becomes an
    underscore, then the name is lower-cased. *)
Definition sanitize_char (c : ascii) : ascii :=
  let n := nat_of_ascii c in
  if ((97 <=? n) && (n <=? 122))%nat then c
  else if ((65 <=? n) && (n <=? 90))%nat then ascii_of_nat (n + 32)
  else if ((48 <=? n) && (n <=? 57))%nat then c
  else if ((n =? 46) || (n =? 95) || (n =? 45))%nat then c
  else "_"%char.

Fixpoint sanitizeFilename (s : string) : string :=
  match s with
  | EmptyString => EmptyString
  | String c s' => String (sanitize_char c) (sanitizeFilename s')
  end.

Definition extractText (buf : string) : M string :=
  match pdf_text buf with
  | Some text => ret text
  | None => throw (JsError "Invalid PDF structure")
  end.

(** [fs.writeFileSync(filepath, buffer)] *)
Definition writeFileSync (path : string) : M unit :=
  io_step ;; modify (fun w => set_disk (path :: disk w) w).

(** [fs.existsSync(filepath)] *)
Definition existsSync (path : string) : M bool :=
  w <- get_world ;; ret (existsb (String.eqb path) (disk w)).

(** [fs.unlinkSync(filepath)] *)
Definition unlinkSync (path : string) : M unit :=
  io_step ;;
  modify (fun w => set_disk (filter (fun p => negb (String.eqb path p)) (disk w)) w).

Definition createTemplate (file : option MulterFile) (name : option string)
  : M (option Template) :=
  try_catch
    (match file with
     | None => throw (Errors.BadRequest "No file uploaded")
     | Some f =>
         match buffer f with
         | None => throw (Errors.BadRequest "No file uploaded")
         | Some buf =>
             if negb (String.eqb (mimetype f) "application/pdf")
             then throw (Errors.BadRequest "File must be a PDF")
             else if 5 * 1024 * 1024 <? file_size f
             then throw (Errors.BadRequest "File size exceeds 5MB limit")
             else
               text <- extractText buf ;;
               w <- get_world ;;
               let storedFilename :=
                 uuid w ++ "_" ++ sanitizeFilename (originalname f) in
               let filepath := path_join templatesDir storedFilename in
               writeFileSync filepath ;;
               isDefault <- shouldBeDefault ;;
               let templateName :=
                 match name with
                 | Some n => Str.or_else n (path_parse_name (originalname f))
                 | None => path_parse_name (originalname f)
                 end in
               templateId <- insertTemplate
                 {| ctd_name := templateName;
                    ctd_filename := storedFilename;
                    ctd_filepath := filepath;
                    ctd_content := text;
                    ctd_isDefault := isDefault |} ;;
               getTemplate templateId
         end
     end)
    (fun e =>
       if instanceof_Error e && Str.includes "Invalid PDF" (message_of e)
       then throw (Errors.BadRequest "Invalid or corrupted PDF file")
       else throw e).

(** [UPDATE templates SET <given fields>, updated_at = CURRENT_TIMESTAMP
    WHERE id = ?] *)
Definition apply_update (data : TemplateUpdate) (t : Z) (r : TemplateRow) : TemplateRow :=
  {| tr_id := tr_id r;
     tr_name := match upd_name data with Some n => n | None => tr_name r end;
     tr_filename := tr_filename r;
     tr_filepath := tr_filepath r;
     tr_content := tr_content r;
     tr_is_default :=
       match upd_isDefault data with Some b => b | None => tr_is_default r end;
     tr_created_at := tr_created_at r;
     tr_updated_at := t |}.

Definition update_row (id : Z) (data : TemplateUpdate) (d : Database) (t : Z)
  : unit * Database :=
  (tt, set_templates
         (map (fun r => if has_id id r then apply_update data t r else r) (templates d))
         (templates_seq d) d).

(** The [catch] clause shared by [updateTemplate] and [deleteTemplate]. *)
Definition rethrow_not_found {A} (what : string) (e : exn) : M A :=
  if instanceof_Error e && Str.includes "not found" (message_of e)
  then throw e
  else throw (Errors.Internal what).

Definition updateTemplate (id : Z) (data : TemplateUpdate) : M (option Template) :=
  try_catch
    (template <- getTemplate id ;;
     match template with
     | None => throw (Errors.NotFound "Template")
     | Some _ =>
         match upd_isDefault data with
         | Some true => db_exec unset_defaults
         | _ => ret tt
         end ;;
         match upd_name data, upd_isDefault data with
         | None, None => throw (Errors.BadRequest "No fields to update")
         | _, _ => db_exec (update_row id data) ;; getTemplate id
         end
     end)
    (rethrow_not_found "Failed to update template").

Definition setAsDefault (id : Z) : M (option Template) :=
  updateTemplate id {| upd_name := None; upd_isDefault := Some true |}.

(** [DELETE FROM templates WHERE id = ?]; the result is [changes].  The
    foreign key of [test_plan_history] is [ON DELETE SET NULL]. *)
Definition orphan (id : Z) (h : HistoryRow) : HistoryRow :=
  match h_template_id h with
  | Some i =>
      if i =? id
      then {| h_id := h_id h; h_ticket_key := h_ticket_key h;
              h_ticket_id := h_ticket_id h; h_template_id := None;
              h_llm_provider := h_llm_provider h;
              h_generated_content := h_generated_content h;
              h_created_at := h_created_at h |}
      else h
  | None => h
  end.

Definition delete_row (id : Z) (d : Database) (t : Z) : Z * Database :=
  let gone := filter (has_id id) (templates d) in
  let d1 := set_templates (filter (fun r => negb (has_id id r)) (templates d))
                          (templates_seq d) d in
  match gone with
  | [] => (0, d1)
  | _ => (Z.of_nat (List.length gone),
          set_history (map (orphan id) (test_plan_history d1))
                      (test_plan_history_seq d1) d1)
  end.

Definition deleteTemplate (id : Z) : M unit :=
  try_catch
    (template <- getTemplate id ;;
     match template with
     | None => throw (Errors.NotFound "Template")
     | Some t =>
         present <- existsSync (t_filepath t) ;;
         (if present then unlinkSync (t_filepath t) else ret tt) ;;
         changes <- db_exec (delete_row id) ;;
         if changes =? 0 then throw (Errors.NotFound "Template") else ret tt
     end)
    (rethrow_not_found "Failed to delete template").

End WithPlatform.
End TemplateService.

(** ** Provider generators

    A provider's [generateTestPlan] touches neither the database nor the
    disk: run to its end it yields a list of events and then returns or
    throws.  [Gen] is the writer-and-exception monad of such generators. *)

Inductive completion (A : Type) : Type :=
| Returned (a : A)
| Raised (e : exn).
Arguments Returned {A} _.
Arguments Raised {A} _.

Definition Gen (A : Type) : Type := list GenerationStreamEvent * completion A.

Module Gen.

Definition ret {A} (a : A) : Gen A := ([], Returned a).

Definition bind {A B} (m : Gen A) (k : A -> Gen B) : Gen B :=
  match m with
  | (evs, Returned a) => let '(evs', r) := k a in ((evs ++ evs')%list, r)
  | (evs, Raised e) => (evs, Raised e)
  end.

Definition throw {A} (e : exn) : Gen A := ([], Raised e).

Definition yield_ (e : GenerationStreamEvent) : Gen unit := ([e], Returned tt).

Definition try_catch {A} (m : Gen A) (h : exn -> Gen A) : Gen A :=
  match m with
  | (evs, Raised e) => let '(evs', r) := h e in ((evs ++ evs')%list, r)
  | r => r
  end.

End Gen.

Declare Scope gen_scope.
Delimit Scope gen_scope with gen.
Notation "x <- m ;; k" := (Gen.bind m (fun x => k))
  (at level 61, m at next level, right associativity) : gen_scope.
Notation "m ;; k" := (Gen.bind m (fun _ => k))
  (at level 61, right associativity) : gen_scope.

(** The [LLMProvider] interface, reduced to [generateTestPlan]. *)
Definition LLMProvider : Type := TestPlanContext -> Gen unit.

(** JavaScript's numbers are IEEE 754 doubles. *)
Module Double.

(** An integer below 2^63, as a double. *)
Definition of_Z (n : Z) : PrimFloat.float := PrimFloat.of_uint63 (Uint63.of_Z n).

(** The rational a finite double denotes. *)
Definition to_Q (f : PrimFloat.float) : Q :=
  match FloatOps.Prim2SF f with
  | SpecFloat.S754_finite negative m e =>
      let v := (inject_Z (Zpos m) * Qpower (2 # 1) e)%Q in
      if negative then (- v)%Q else v
  | _ => 0%Q
  end.

End Double.

(** [Math.min(10 + (fullContent.length / 100), cap)]: the quotient and the
    sum are rounded as doubles are (112 characters give 11.120000000000001). *)
Definition progress_estimate (fullContent : string) (cap : Q) : Q :=
  Qmin (Double.to_Q
          (PrimFloat.add (Double.of_Z 10)
             (PrimFloat.div (Double.of_Z (Z.of_nat (String.length fullContent)))
                            (Double.of_Z 100))))
       cap.

Definition error_event (e : exn) (fallback : string) : GenerationStreamEvent :=
  mkEvent error (if instanceof_Error e then message_of e else fallback) None.

Module GroqProvider.
Local Open Scope gen_scope.

(** [handleError]: it throws the classified error, or returns. *)
Definition handleError (e : exn) : Gen unit :=
  match e with
  | GroqAPIError st m =>
      match st with
      | Some 401 => Gen.throw (Errors.Unauthorized "Invalid Groq API key")
      | Some 429 =>
          Gen.throw (Errors.TooManyRequests
                       "Groq rate limit exceeded. Please try again later.")
      | Some s =>
          if 500 <=? s
          then Gen.throw (Errors.BadGateway "Groq service error. Please try again later.")
          else Gen.throw (Errors.BadGateway m)
      | None => Gen.throw (Errors.BadGateway m)
      end
  | NonError => Gen.ret tt
  | _ =>
      if Str.includes "timeout" (message_of e)
      then Gen.throw (Errors.BadGateway "Request to Groq timed out")
      else Gen.ret tt
  end.

(** The body of [for await (const chunk of stream)], over the chunks the
    stream delivers; the state is [fullContent] and [chunkCount]. *)
Fixpoint relay (cs : list (option string)) (fullContent : string) (chunkCount : Z)
  : Gen (string * Z) :=
  match cs with
  | [] => Gen.ret (fullContent, chunkCount)
  | c :: cs' =>
      let content_ := match c with Some s => s | None => EmptyString end in
      if Str.truthy content_ then
        let fullContent' := (fullContent ++ content_)%string in
        let chunkCount' := chunkCount + 1 in
        Gen.yield_
          (if chunkCount' mod 5 =? 0
           then mkEvent content content_ (Some (progress_estimate fullContent' (90 # 1)))
           else mkEvent content content_ None) ;;
        relay cs' fullContent' chunkCount'
      else relay cs' fullContent chunkCount
  end.

Definition generateTestPlan (api : groq_upstream) : LLMProvider :=
  fun context =>
    Gen.try_catch
      (Gen.yield_ (mkEvent progress "Generating test plan with Groq..." (Some (10 # 1))) ;;
       stream <- match api with
                 | inl e => Gen.throw e
                 | inr s => Gen.ret s
                 end ;;
       st <- relay (chunks stream) EmptyString 0 ;;
       match failure stream with
       | Some e => Gen.throw e
       | None => Gen.ret tt
       end ;;
       Gen.yield_ (mkEvent complete (fst st) (Some (100 # 1))))
      (fun e => handleError e ;; Gen.yield_ (error_event e "Unknown error")).

End GroqProvider.

(** [OllamaProviderConfig], the fields the generator reads. *)
Record OllamaProviderConfig : Type := {
  oc_baseUrl : string;
  oc_model : string
}.

Module OllamaProvider.
Section WithPlatform.
Context {P : Platform}.
Local Open Scope gen_scope.

(** [config.baseUrl.replace(/\/$/, '')] *)
Fixpoint strip_trailing_slash (s : string) : string :=
  match s with
  | EmptyString => EmptyString
  | String c EmptyString => if Ascii.eqb c "/"%char then EmptyString else s
  | String c s' => String c (strip_trailing_slash s')
  end.

Variable config : OllamaProviderConfig.

Definition baseUrl : string := strip_trailing_slash (oc_baseUrl config).

(** [handleError]: it always throws. *)
Definition handleError {A} (e : exn) : Gen A :=
  let fallthrough :=
    Gen.throw (Errors.BadGateway
                 (if instanceof_Error e then message_of e else "Ollama request failed")) in
  match e with
  | AxiosError code st _ =>
      if match code with Some c => String.eqb c "ECONNREFUSED" | None => false end
      then Gen.throw (Errors.BadGateway
             ("Cannot connect to Ollama. Please ensure Ollama is running on " ++ baseUrl))
      else if match code with Some c => String.eqb c "ETIMEDOUT" | None => false end
      then Gen.throw (Errors.BadGateway "Connection to Ollama timed out")
      else if match st with Some s => s =? 404 | None => false end
      then Gen.throw (Errors.NotFound
             ("Ollama model not found. Please pull the model first with: ollama pull "
                ++ oc_model config))
      else fallthrough
  | _ => fallthrough
  end.

(** The loop state: the text so far, the unfinished line, whether the
    generator has returned on a completion flag, and how many chunks were
    taken from the response. *)
Record reader : Type := {
  fullContent : string;
  pending : string;
  finished : bool;
  chunks_read : nat
}.

(** [for (const line of lines)]: the result is the text so far and whether
    the generator has returned. *)
Fixpoint read_lines (lines : list string) (full : string) : Gen (string * bool) :=
  match lines with
  | [] => Gen.ret (full, false)
  | line :: rest =>
      if Str.blank line then read_lines rest full
      else
        match JSON_parse_fragment line with
        | None => (* Skip invalid JSON lines *) read_lines rest full
        | Some data_ =>
            let full' :=
              if Str.truthy (response data_) then (full ++ response data_)%string
              else full in
            (if Str.truthy (response data_)
             then Gen.yield_
                    (mkEvent content (response data_)
                       (Some (if done data_ then 100 # 1
                              else progress_estimate full' (95 # 1))))
             else Gen.ret tt) ;;
            if done data_
            then Gen.yield_ (mkEvent complete full' (Some (100 # 1))) ;;
                 Gen.ret (full', true)
            else read_lines rest full'
        end
  end.

(** [for await (const chunk of response.data)] *)
Fixpoint read_chunks (cs : list string) (st : reader) : Gen reader :=
  match cs with
  | [] => Gen.ret st
  | chunk :: cs' =>
      let '(lines, rest) := Str.split_lines (pending st ++ chunk) in
      r <- read_lines lines (fullContent st) ;;
      let st' := {| fullContent := fst r; pending := rest;
                    finished := snd r; chunks_read := S (chunks_read st) |} in
      if snd r then Gen.ret st' else read_chunks cs' st'
  end.

Definition start : reader :=
  {| fullContent := EmptyString; pending := EmptyString;
     finished := false; chunks_read := 0 |}.

(** The [try] block of [generateTestPlan]; its result is the final state
    of the reader. *)
Definition stream_body (api : ollama_upstream) : Gen reader :=
  Gen.yield_ (mkEvent progress "Generating test plan with Ollama (local)..."
                      (Some (10 # 1))) ;;
  resp <- match api with
          | inl e => Gen.throw e
          | inr s => Gen.ret s
          end ;;
  st <- read_chunks (chunks resp) start ;;
  if finished st then Gen.ret st
  else
    match failure resp with
    | Some e => Gen.throw e
    | None =>
        (* If we exit the loop without 'done', consider it complete anyway *)
        Gen.yield_ (mkEvent complete (fullContent st) (Some (100 # 1))) ;;
        Gen.ret st
    end.

Definition generateTestPlan (api : ollama_upstream) : LLMProvider :=
  fun context =>
    Gen.try_catch
      (stream_body api ;; Gen.ret tt)
      (fun e => @handleError unit e ;; Gen.yield_ (error_event e "Unknown error")).

End WithPlatform.
End OllamaProvider.

(** ** The provider factory ([createLLMProvider]) *)

(** What the names [GroqProvider] and [OllamaProvider] denote where the
    factory uses them: the class a name is bound to (what [generateTestPlan]
    of the object built from a configuration does), or nothing. *)
Definition Scope : Type := provider_name -> option (LLMConfig -> LLMProvider).

Section Factory.
Context {P : Platform}.

Variable implementations : Scope.

(** The identifier that [new] evaluates for a provider name. *)
Definition class_name (provider : provider_name) : string :=
  match provider with
  | groq => "GroqProvider"
  | ollama => "OllamaProvider"
  end.

(** [new GroqProvider({...})], [new OllamaProvider({...})]: a name that is
    not bound makes [new] throw a [ReferenceError].  The request type admits
    no third provider name, so the final [throw] of the source has no case
    here. *)
Definition createLLMProvider (provider : provider_name) : M LLMProvider :=
  config <- SettingsService.getLLMConfig ;;
  match implementations provider with
  | Some class => ret (class config)
  | None => throw (JsError (class_name provider ++ " is not defined"))
  end.

End Factory.

(** The scope of the factory's module, [llm/index.ts], as it is: the file
    re-exports the two classes ([export { GroqProvider } from
    './groq-provider']), which binds no name in the file itself, and it
    imports neither of them. *)
Definition index_scope : Scope := fun _ => None.

(** The two classes of the repository, each talking to its back end: what
    [generateTestPlan] of the object built from [config] does. *)
Definition provider_class {P : Platform} (groq_api : groq_upstream)
           (ollama_api : ollama_upstream) (provider : provider_name)
  : LLMConfig -> LLMProvider :=
  fun config =>
    match provider with
    | groq => GroqProvider.generateTestPlan groq_api
    | ollama =>
        OllamaProvider.generateTestPlan
          {| oc_baseUrl := lc_ollama_baseUrl config;
             oc_model := lc_ollama_model config |}
          ollama_api
    end.

(** The scope the file would have with the two classes imported. *)
Definition built_in {P : Platform} (groq_api : groq_upstream) (ollama_api : ollama_upstream)
  : Scope :=
  fun provider => Some (provider_class groq_api ollama_api provider).

(** ** The orchestrator ([TestPlanService]) *)

(** [GenerationOptions] *)
Record GenerationOptions : Type := {
  ticketId : string;
  templateId : option Z;
  provider : provider_name
}.

(** The argument of [saveToHistory]. *)
Record HistoryData : Type := {
  hd_ticketKey : string;
  hd_templateId : Z;
  hd_provider : string;
  hd_content : string
}.

(** What the private [getTemplate] returns. *)
Record ResolvedTemplate : Type := {
  rt_id : Z;
  rt_content : string;
  rt_name : string
}.

Module TestPlanService.
Section WithPlatform.
Context {P : Platform}.

(** The scope [createLLMProvider] resolves the class names in. *)
Variable implementations : Scope.

(** The consumer of the generator. *)
Variable stop : GenerationStreamEvent -> bool.

(** Private [getTicket]: the cache, else the tracker. *)
Definition getTicket (ticketId : string) : M (option JiraTicketResponse) :=
  cached <- JiraTicketService.getTicket ticketId ;;
  match cached with
  | Some t => ret (Some t)
  | None =>
      jiraConfig <- SettingsService.getJiraConfig ;;
      if negb (Str.truthy (jc_baseUrl jiraConfig))
         || negb (Str.truthy (jc_apiToken jiraConfig))
      then throw (Errors.BadRequest
        "Ticket not in cache and JIRA not configured. Please configure JIRA settings first.")
      else
        w <- get_world ;;
        match jira_fetch w ticketId with
        | inl e => throw e
        | inr ticket =>
            JiraTicketService.saveTicket ticket ;;
            ret (Some ticket)
        end
  end.

Definition resolved (t : Template) : ResolvedTemplate :=
  {| rt_id := t_id t; rt_content := t_content t; rt_name := t_name t |}.

(** Private [getTemplate]: by id when a (truthy) id is given and found,
    else the store's default. *)
Definition getTemplate (templateId : option Z) : M ResolvedTemplate :=
  template <-
    match templateId with
    | Some id =>
        if id =? 0 then ret None
        else t <- TemplateService.getTemplate id ;; ret (option_map resolved t)
    | None => ret None
    end ;;
  template <-
    match template with
    | Some t => ret (Some t)
    | None =>
        t <- TemplateService.getDefaultTemplate ;; ret (option_map resolved t)
    end ;;
  match template with
  | Some t => ret t
  | None => throw (Errors.NotFound "Template")
  end.

Definition getTemperature (provider : provider_name) : M Q :=
  config <- SettingsService.getLLMConfig ;;
  match provider with
  | groq => ret (lc_groq_temperature config)
  | ollama => ret (7 # 10)
  end.

(** [INSERT INTO test_plan_history (ticket_key, ticket_id, template_id,
    llm_provider, generated_content)] *)
Definition insert_history (data : HistoryData) (ticket_id : option Z)
           (d : Database) (t : Z) : Z * Database :=
  let id := test_plan_history_seq d + 1 in
  (id, set_history
         (test_plan_history d ++
            [{| h_id := id;
                h_ticket_key := hd_ticketKey data;
                h_ticket_id := ticket_id;
                h_template_id := Some (hd_templateId data);
                h_llm_provider := hd_provider data;
                h_generated_content := hd_content data;
                h_created_at := t |}])
         id d).

(** [FOREIGN KEY (template_id) REFERENCES templates(id)]: the row's
    template must be in the table.  (The [ticket_id] of the row is the one
    just read from [jira_tickets], or NULL.) *)
Definition template_exists (id : Z) (d : Database) : bool :=
  existsb (TemplateService.has_id id) (templates d).

Definition saveToHistory (data : HistoryData) : M Z :=
  try_catch
    (ticketRow <- db_query (fun d =>
        find (JiraTicketService.has_key (hd_ticketKey data)) (jira_tickets d)) ;;
     let ticket_id :=
       match ticketRow with
       | Some r => if jt_id r =? 0 then None else Some (jt_id r)
       | None => None
       end in
     db_exec_fk (template_exists (hd_templateId data))
                (insert_history data ticket_id))
    (fun _ => (* Don't throw - history save is non-critical *) ret 0).

(** The body of [for await (const event of llmProvider.generateTestPlan
    (context))], over the events the provider's generator yields. *)
Fixpoint relay (events : list GenerationStreamEvent) (fullContent : string) : M string :=
  match events with
  | [] => ret fullContent
  | event :: rest =>
      modify (fun w => set_pulled (pulled w ++ [event]) w) ;;
      let fullContent' :=
        if is_content event then (fullContent ++ ev_data event)%string
        else fullContent in
      yield_ stop event ;;
      relay rest fullContent'
  end.

(** The loop as a whole: the generator is started, its events are relayed,
    and an exception it ends with surfaces in the loop. *)
Definition for_await (g : Gen unit) : M string :=
  modify (fun w => set_provider_calls (S (provider_calls w)) w) ;;
  fullContent <- relay (fst g) EmptyString ;;
  match snd g with
  | Returned _ => ret fullContent
  | Raised e => throw e
  end.

(** Steps 1 to 4 of [generate]: the ticket, the template, the context and
    the provider's stream.  The result is what the rest of the [try] block
    uses: the ticket, the template and [fullContent]. *)
Definition resolve_and_stream (options : GenerationOptions)
  : M (JiraTicketResponse * ResolvedTemplate * string) :=
  yield_ stop (mkEvent progress "Fetching JIRA ticket..." (Some (5 # 1))) ;;
  ticket <- getTicket (ticketId options) ;;
  match ticket with
  | None => throw (Errors.NotFound "JIRA ticket")
  | Some ticket =>
      yield_ stop (mkEvent progress ("Ticket found: " ++ summary ticket)
                           (Some (15 # 1))) ;;
      yield_ stop (mkEvent progress "Loading template..." (Some (20 # 1))) ;;
      template <- getTemplate (templateId options) ;;
      yield_ stop (mkEvent progress "Template loaded" (Some (25 # 1))) ;;
      temperature <- getTemperature (provider options) ;;
      let context := {| ctx_ticket := ticket;
                        ctx_template := rt_content template;
                        ctx_temperature := temperature |} in
      yield_ stop (mkEvent progress
                     ("Generating with " ++ provider_string (provider options) ++ "...")
                     (Some (30 # 1))) ;;
      llmProvider <- createLLMProvider implementations (provider options) ;;
      fullContent <- for_await (llmProvider context) ;;
      ret (ticket, template, fullContent)
  end.

(** Step 5 of [generate] and the final [yield]. *)
Definition persist_and_complete (options : GenerationOptions)
           (x : JiraTicketResponse * ResolvedTemplate * string) : M unit :=
  let '(ticket, template, fullContent) := x in
  (if Str.truthy fullContent then
     yield_ stop (mkEvent progress "Saving to history..." (Some (95 # 1))) ;;
     saveToHistory {| hd_ticketKey := key ticket;
                      hd_templateId := rt_id template;
                      hd_provider := provider_string (provider options);
                      hd_content := fullContent |} ;;
     ret tt
   else ret tt) ;;
  yield_ stop (mkEvent complete fullContent (Some (100 # 1))).

(** The [catch] clause of [generate]. *)
Definition on_error (e : exn) : M unit :=
  if instanceof_Error e && has_status e
  then throw e (* Already an ApiError *)
  else yield_ stop (error_event e "Generation failed").

Definition generate (options : GenerationOptions) : M unit :=
  try_catch
    (x <- resolve_and_stream options ;; persist_and_complete options x)
    on_error.

End WithPlatform.
End TestPlanService.


(** * The rest of the services *)

(** ** Error constructors used by the routes and the JIRA client *)

Module ApiErrors.
Definition ValidationError (m : string) : exn := ApiError m 400 "VALIDATION_ERROR".
Definition Forbidden (m : string) : exn := ApiError m 403 "FORBIDDEN".
End ApiErrors.

(** The [catch] clause of the delete methods: an error whose message says
    "not found" is rethrown, any other becomes an internal error. *)
Definition rethrow_or_internal {A} (what : string) (e : exn) : M A :=
  if instanceof_Error e && Str.includes "not found" (message_of e)
  then throw e
  else throw (Errors.Internal what).

(** [rows.map(f)] where [f] may throw. *)
Fixpoint map_m {A B} (f : A -> M B) (l : list A) : M (list B) :=
  match l with
  | [] => ret []
  | x :: l' => y <- f x ;; ys <- map_m f l' ;; ret (y :: ys)
  end.

(** [LIMIT ?]: a negative limit is no limit. *)
Definition sql_limit {A} (n : Z) (l : list A) : list A :=
  if n <? 0 then l else firstn (Z.to_nat n) l.

(** [ORDER BY key DESC] over an indexed column: the index is read
    backwards, so rows that tie on the key come in descending [id]. *)
Definition comes_before {A} (key id : A -> Z) (r x : A) : bool :=
  (key x <? key r) || ((key x =? key r) && (id x <? id r)).

Fixpoint insert_desc {A} (key id : A -> Z) (r : A) (l : list A) : list A :=
  match l with
  | [] => [r]
  | x :: l' =>
      if comes_before key id r x then r :: l else x :: insert_desc key id r l'
  end.

Definition order_desc {A} (key id : A -> Z) (l : list A) : list A :=
  fold_left (fun acc r => insert_desc key id r acc) l [].

(** ** Ticket cache: the other methods of [JiraTicketService] *)

Module JiraTickets.
Section WithPlatform.
Context {P : Platform}.

(** [exists] *)
Definition exists_ (ticketKey : string) : M bool :=
  try_catch
    (db_query (fun d => existsb (JiraTicketService.has_key ticketKey) (jira_tickets d)))
    (fun _ => ret false).

(** The foreign key [test_plan_history.ticket_id] is [ON DELETE SET NULL]. *)
Definition unlink (ids : list Z) (h : HistoryRow) : HistoryRow :=
  match h_ticket_id h with
  | Some i =>
      if existsb (Z.eqb i) ids
      then {| h_id := h_id h; h_ticket_key := h_ticket_key h;
              h_ticket_id := None; h_template_id := h_template_id h;
              h_llm_provider := h_llm_provider h;
              h_generated_content := h_generated_content h;
              h_created_at := h_created_at h |}
      else h
  | None => h
  end.

(** [DELETE FROM jira_tickets WHERE ticket_key = ?]; the result is [changes]. *)
Definition delete_rows (k : string) (d : Database) (t : Z) : Z * Database :=
  let gone := filter (JiraTicketService.has_key k) (jira_tickets d) in
  let d1 := set_jira_tickets
              (filter (fun r => negb (JiraTicketService.has_key k r)) (jira_tickets d))
              (jira_tickets_seq d) d in
  (Z.of_nat (List.length gone),
   set_history (map (unlink (map jt_id gone)) (test_plan_history d1))
               (test_plan_history_seq d1) d1).

Definition deleteTicket (ticketKey : string) : M unit :=
  try_catch
    (changes <- db_exec (delete_rows ticketKey) ;;
     if changes =? 0 then throw (Errors.NotFound "Ticket") else ret tt)
    (rethrow_or_internal "Failed to delete ticket").

(** [SELECT * FROM jira_tickets ORDER BY fetched_at DESC LIMIT ?] *)
Definition getRecentTickets (limit : Z) : M (list JiraTicketResponse) :=
  try_catch
    (rows <- db_query (fun d => sql_limit limit (order_desc jt_fetched_at jt_id (jira_tickets d))) ;;
     map_m JiraTicketService.rowToResponse rows)
    (fun _ => ret []).

End WithPlatform.
End JiraTickets.

(** ** Settings: the write methods of [SettingsService] *)

(** [JiraSettingsRequest] and [LLMSettingsRequest] of [types/index.ts]. *)
Record JiraSettingsRequest : Type := {
  jsr_baseUrl : string;
  jsr_username : string;
  jsr_apiToken : string
}.

Record LLMSettingsRequest : Type := {
  lsr_provider : provider_name;
  lsr_groqApiKey : option string;
  lsr_groqModel : option string;
  lsr_groqTemperature : option Q;
  lsr_ollamaBaseUrl : option string;
  lsr_ollamaModel : option string
}.

Module SettingsWrites.
Section WithEncryption.

(** [encrypt] of [utils/encryption]; [None] when it throws. *)
Variable encrypt : string -> option string.

(** [COALESCE(?, column)] *)
Definition coalesce {A} (param column : option A) : option A :=
  match param with Some _ => param | None => column end.

(** [UPDATE settings SET jira_base_url = ?, jira_username = ?,
    jira_api_token = ?, jira_connected = 0 WHERE id = 1] *)
Definition update_jira (baseUrl username token : string) (d : Database) (_ : Z)
  : unit * Database :=
  match settings d with
  | None => (tt, d)
  | Some row =>
      (tt, set_settings
             (Some {| s_jira_base_url := Some baseUrl;
                      s_jira_username := Some username;
                      s_jira_api_token := Some token;
                      s_jira_connected := false;
                      s_llm_provider := s_llm_provider row;
                      s_groq_api_key := s_groq_api_key row;
                      s_groq_model := s_groq_model row;
                      s_groq_temperature := s_groq_temperature row;
                      s_ollama_base_url := s_ollama_base_url row;
                      s_ollama_model := s_ollama_model row |}) d)
  end.

Definition saveJiraSettings (data : JiraSettingsRequest) : M unit :=
  try_catch
    (match encrypt (jsr_apiToken data) with
     | None => throw (JsError "Encryption failed")
     | Some encryptedToken =>
         db_exec (update_jira (jsr_baseUrl data) (jsr_username data) encryptedToken)
     end)
    (fun _ => throw (Errors.Internal "Failed to save JIRA settings")).

(** [UPDATE settings SET jira_connected = ? WHERE id = 1] *)
Definition update_connected (connected : bool) (d : Database) (_ : Z)
  : unit * Database :=
  match settings d with
  | None => (tt, d)
  | Some row =>
      (tt, set_settings
             (Some {| s_jira_base_url := s_jira_base_url row;
                      s_jira_username := s_jira_username row;
                      s_jira_api_token := s_jira_api_token row;
                      s_jira_connected := connected;
                      s_llm_provider := s_llm_provider row;
                      s_groq_api_key := s_groq_api_key row;
                      s_groq_model := s_groq_model row;
                      s_groq_temperature := s_groq_temperature row;
                      s_ollama_base_url := s_ollama_base_url row;
                      s_ollama_model := s_ollama_model row |}) d)
  end.

Definition setJiraConnected (connected : bool) : M unit :=
  try_catch
    (db_exec (update_connected connected))
    (fun _ => throw (Errors.Internal "Failed to update connection status")).

(** [UPDATE settings SET llm_provider = ?, groq_api_key = COALESCE(?,
    groq_api_key), ... WHERE id = 1] *)
Definition update_llm (data : LLMSettingsRequest) (encryptedGroqKey : option string)
           (d : Database) (_ : Z) : unit * Database :=
  match settings d with
  | None => (tt, d)
  | Some row =>
      (tt, set_settings
             (Some {| s_jira_base_url := s_jira_base_url row;
                      s_jira_username := s_jira_username row;
                      s_jira_api_token := s_jira_api_token row;
                      s_jira_connected := s_jira_connected row;
                      s_llm_provider := Some (provider_string (lsr_provider data));
                      s_groq_api_key := coalesce encryptedGroqKey (s_groq_api_key row);
                      s_groq_model := coalesce (lsr_groqModel data) (s_groq_model row);
                      s_groq_temperature :=
                        coalesce (lsr_groqTemperature data) (s_groq_temperature row);
                      s_ollama_base_url :=
                        coalesce (lsr_ollamaBaseUrl data) (s_ollama_base_url row);
                      s_ollama_model :=
                        coalesce (lsr_ollamaModel data) (s_ollama_model row) |}) d)
  end.

Definition saveLLMSettings (data : LLMSettingsRequest) : M unit :=
  try_catch
    (encryptedGroqKey <-
       match lsr_groqApiKey data with
       | Some k =>
           if Str.truthy k
           then match encrypt k with
                | None => throw (JsError "Encryption failed")
                | Some c => ret (Some c)
                end
           else ret None
       | None => ret None
       end ;;
     db_exec (update_llm data encryptedGroqKey))
    (fun _ => throw (Errors.Internal "Failed to save LLM settings")).

End WithEncryption.
End SettingsWrites.

(** ** History: the read and delete methods of [TestPlanService] *)

(** The object [getHistory] and [getTestPlan] build from a joined row. *)
Record TestPlanHistory : Type := {
  tp_id : Z;
  tp_ticketKey : string;
  tp_ticketId : option Z;
  tp_templateId : option Z;
  tp_llmProvider : string;
  tp_generatedContent : string;
  tp_createdAt : Z;
  tp_ticketSummary : string
}.

Module History.

(** [LEFT JOIN jira_tickets t ON h.ticket_id = t.id], column [t.summary]. *)
Definition ticket_summary (d : Database) (h : HistoryRow) : option string :=
  match h_ticket_id h with
  | Some i => option_map jt_summary (find (fun t => jt_id t =? i) (jira_tickets d))
  | None => None
  end.

(** The object built from a row: [ticketSummary] is
    [row.ticket_summary || row.ticket_key]. *)
Definition item (d : Database) (h : HistoryRow) : TestPlanHistory :=
  {| tp_id := h_id h;
     tp_ticketKey := h_ticket_key h;
     tp_ticketId := h_ticket_id h;
     tp_templateId := h_template_id h;
     tp_llmProvider := h_llm_provider h;
     tp_generatedContent := h_generated_content h;
     tp_createdAt := h_created_at h;
     tp_ticketSummary :=
       match ticket_summary d h with
       | Some s => Str.or_else s (h_ticket_key h)
       | None => h_ticket_key h
       end |}.

Definition getHistory (limit : Z) : M (list TestPlanHistory) :=
  try_catch
    (db_query (fun d =>
       map (item d) (sql_limit limit (order_desc h_created_at h_id (test_plan_history d)))))
    (fun _ => ret []).

Definition getTestPlan (id : Z) : M (option TestPlanHistory) :=
  try_catch
    (db_query (fun d =>
       option_map (item d) (find (fun h => h_id h =? id) (test_plan_history d))))
    (fun _ => ret None).

(** [DELETE FROM test_plan_history WHERE id = ?]; the result is [changes]. *)
Definition delete_row (id : Z) (d : Database) (_ : Z) : Z * Database :=
  (Z.of_nat (List.length (filter (fun h => h_id h =? id) (test_plan_history d))),
   set_history (filter (fun h => negb (h_id h =? id)) (test_plan_history d))
               (test_plan_history_seq d) d).

Definition deleteTestPlan (id : Z) : M unit :=
  try_catch
    (changes <- db_exec (delete_row id) ;;
     if changes =? 0 then throw (Errors.NotFound "Test plan") else ret tt)
    (rethrow_or_internal "Failed to delete test plan").

End History.

(** ** The routes of [routes/testplan.ts] *)

(** A message of the event stream: an event of the generator (or the
    [error] event the route makes up), or the closing [{ type: 'done' }]. *)
Inductive sse : Type :=
| sse_event (e : GenerationStreamEvent)
| sse_done.

(** What a handler wrapped in [asyncHandler] ends with: a response it has
    sent, or an exception, which goes to the error middleware. *)
Inductive reply (A : Type) : Type :=
| replied (a : A)
| failed (e : exn).
Arguments replied {A} _.
Arguments failed {A} _.

Module Routes.
Section WithPlatform.
Context {P : Platform}.
Variable implementations : Scope.

(** The events a run has yielded, given the world before and after. *)
Definition received (w w' : world) : list GenerationStreamEvent :=
  skipn (List.length (emitted w)) (emitted w').

(** [POST /generate]: [valid] is [validationResult(req).isEmpty()].  The
    loop sends every event and leaves at the first [complete] or [error];
    the [catch] clause sends an [error] event of its own. *)
Definition generate (valid : bool) (options : GenerationOptions)
  : world -> reply (list sse) * world :=
  fun w =>
    if negb valid then (failed (ApiErrors.ValidationError "Validation failed"), w)
    else
      let '(r, w') := TestPlanService.generate implementations until_terminal options w in
      let sent := map sse_event (received w w') in
      match r with
      | Throw e =>
          (replied (sent ++ [sse_event (error_event e "Generation failed"); sse_done])%list, w')
      | _ => (replied (sent ++ [sse_done])%list, w')
      end.

(** The loop of [POST /generate-sync] over the events of a drained run:
    [content] and [error] are its two variables. *)
Fixpoint collect (events : list GenerationStreamEvent) (content_ : string)
         (error_ : option string) : string * option string :=
  match events with
  | [] => (content_, error_)
  | event :: rest =>
      match ev_type event with
      | content => collect rest (content_ ++ ev_data event) error_
      | complete => collect rest (ev_data event) error_
      | error => collect rest content_ (Some (ev_data event))
      | progress => collect rest content_ error_
      end
  end.

(** [POST /generate-sync]; the reply carries [data.content]. *)
Definition generate_sync (valid : bool) (options : GenerationOptions)
  : world -> reply string * world :=
  fun w =>
    if negb valid then (failed (ApiErrors.ValidationError "Validation failed"), w)
    else
      let '(r, w') := TestPlanService.generate implementations drain options w in
      match r with
      | Throw e => (failed e, w')
      | _ =>
          let '(content_, error_) := collect (received w w') EmptyString None in
          match error_ with
          | Some m =>
              if Str.truthy m then (failed (Errors.BadGateway m), w')
              else (replied content_, w')
          | None => (replied content_, w')
          end
      end.

(** [parseInt(req.query.limit as string) || fallback], for a parameter
    given at most once; [parseInt] answers [None] for NaN. *)
Definition limit_of (parseInt : string -> option Z) (fallback : Z)
           (param : option string) : Z :=
  match param with
  | None => fallback
  | Some s =>
      match parseInt s with
      | Some n => if n =? 0 then fallback else n
      | None => fallback
      end
  end.

(** [GET /history]: the result of [paginationValidator] is not consulted. *)
Definition history (parseInt : string -> option Z) (limit : option string)
  : world -> reply (list TestPlanHistory) * world :=
  fun w =>
    match History.getHistory (limit_of parseInt 20 limit) w with
    | (Ok l, w') => (replied l, w')
    | (Throw e, w') => (failed e, w')
    | (Stopped, w') => (replied [], w')
    end.

(** [GET /history/:id] *)
Definition history_item (valid : bool) (id : Z)
  : world -> reply TestPlanHistory * world :=
  fun w =>
    if negb valid then (failed (ApiErrors.ValidationError "Validation failed"), w)
    else
      match History.getTestPlan id w with
      | (Ok (Some testPlan), w') => (replied testPlan, w')
      | (Ok None, w') => (failed (Errors.NotFound "Test plan"), w')
      | (Throw e, w') => (failed e, w')
      | (Stopped, w') => (failed (Errors.NotFound "Test plan"), w')
      end.

End WithPlatform.
End Routes.

(** * The JIRA client: how a failed request is reported ([jira-client.ts]) *)

From Stdlib Require DecimalString.

(** What axios hands to the response interceptor when a request fails: the
    [code] of the error, its message and, when the server answered, the
    [response]: its [status] and the [errorMessages] of its [data], if the
    data has them. *)
Record AxiosFailure : Type := {
  ax_code : option string;
  ax_response : option (Z * option (list string));
  ax_message : string
}.

Module JiraClient.

(** The [AxiosError] itself, as a thrown value. *)
Definition error_of (error : AxiosFailure) : exn :=
  AxiosError (ax_code error) (option_map fst (ax_response error)) (ax_message error).

(** [`${status}`], for an integer *)
Definition show (status : Z) : string :=
  DecimalString.NilZero.string_of_int (Z.to_int status).

(** [errorMessages?.[0]]; absent is [undefined], which [||] replaces like
    the empty string. *)
Definition first_message (errorMessages : option (list string)) : string :=
  match errorMessages with
  | Some (m :: _) => m
  | _ => EmptyString
  end.

(** [handleError]: [Some e] when it throws [e], [None] when it returns. *)
Definition handleError (error : AxiosFailure) : option exn :=
  match ax_response error with
  | Some (status, errorMessages) =>
      if status =? 401 then
        Some (Errors.Unauthorized
                "Invalid JIRA credentials. Please check your API token.")
      else if status =? 403 then
        Some (ApiErrors.Forbidden
                "Access denied. Please check your JIRA permissions.")
      else if status =? 404 then
        Some (Errors.NotFound "JIRA ticket")
      else if status =? 429 then
        Some (Errors.TooManyRequests
                "JIRA API rate limit exceeded. Please try again later.")
      else if (status =? 500) || (status =? 502) || (status =? 503) then
        Some (Errors.BadGateway "JIRA server error. Please try again later.")
      else
        let message :=
          Str.or_else (first_message errorMessages)
                      ("JIRA API error: " ++ show status) in
        Some (Errors.BadGateway message)
  | None =>
      match ax_code error with
      | Some code =>
          if String.eqb code "ECONNREFUSED" then
            Some (Errors.BadGateway
                    "Cannot connect to JIRA server. Please check your base URL.")
          else if String.eqb code "ETIMEDOUT" then
            Some (Errors.BadGateway
                    "Connection to JIRA timed out. Please try again.")
          else None
      | None => None
      end
  end.

(** The response interceptor of the constructor:
    [this.handleError(error); return Promise.reject(error)].  A request
    that fails is rejected with what [handleError] throws, or else with the
    error axios reported; [testConnection] and [fetchTicket] log it and
    throw it again. *)
Definition rejection (error : AxiosFailure) : exn :=
  match handleError error with
  | Some e => e
  | None => error_of error
  end.

End JiraClient.

(** * The JIRA routes ([routes/jira.ts]) *)

(** The body of a ticket reply: [data], [cached] and [message]. *)
Record TicketReply : Type := {
  rp_data : JiraTicketResponse;
  rp_cached : bool;
  rp_message : string
}.

(** A handler wrapped in [asyncHandler] is a computation: what it returns is
    the reply it sends, what it throws goes to the error middleware. *)
Module JiraRoutes.
Section WithPlatform.
Context {P : Platform}.

(** [getJiraClient]: the configuration the client is built with. *)
Definition getJiraClient : M JiraConfig :=
  config <- SettingsService.getJiraConfig ;;
  if negb (Str.truthy (jc_baseUrl config))
     || negb (Str.truthy (jc_username config))
     || negb (Str.truthy (jc_apiToken config))
  then throw (Errors.BadRequest
    "JIRA credentials not configured. Please configure in settings first.")
  else ret config.

(** The tail the three fetching handlers share: the client, the request
    to the tracker, the save to the cache and the reply. *)
Definition fetch_and_cache (ticketId : string) : M TicketReply :=
  getJiraClient ;;
  w <- get_world ;;
  match jira_fetch w ticketId with
  | inl e => throw e
  | inr ticket =>
      JiraTicketService.saveTicket ticket ;;
      ret {| rp_data := ticket; rp_cached := false;
             rp_message := "Ticket fetched from JIRA" |}
  end.

(** [GET /fetch/:ticketId] and [POST /fetch] *)
Definition fetch (valid : bool) (ticketId : string) : M TicketReply :=
  if negb valid then throw (ApiErrors.ValidationError "Validation failed")
  else fetch_and_cache ticketId.

(** [GET /ticket/:ticketId]: the cache first. *)
Definition ticket (valid : bool) (ticketId : string) : M TicketReply :=
  if negb valid then throw (ApiErrors.ValidationError "Validation failed")
  else
    cached <- JiraTicketService.getTicket ticketId ;;
    match cached with
    | Some t =>
        ret {| rp_data := t; rp_cached := true;
               rp_message := "Ticket retrieved from cache" |}
    | None => fetch_and_cache ticketId
    end.

End WithPlatform.
End JiraRoutes.
(** * Predicates on computations *)

Local Open Scope list_scope.

(** ** Frames

    [silent m]: the computation yields nothing, pulls nothing from a
    provider, leaves the clock and the tracker alone, and cannot be stopped
    by the consumer. *)

Definition frame (w w' : world) : Prop :=
  emitted w' = emitted w /\ pulled w' = pulled w /\
  provider_calls w' = provider_calls w /\
  jira_fetch w' = jira_fetch w /\ now w' = now w.

Definition silent {A} (m : M A) : Prop :=
  forall w r w', m w = (r, w') -> frame w w' /\ r <> Stopped.

(** [keeps g m]: the computation leaves the part [g] of the database as it
    found it. *)
Definition keeps {A X} (g : Database -> X) (m : M A) : Prop :=
  forall w r w', m w = (r, w') -> g (db w') = g (db w).


(** ** Traces *)

(** The world after the generator has yielded the events [l] to a consumer
    that went on. *)
Definition yielded (l : list GenerationStreamEvent) (w : world) : world :=
  set_emitted (emitted w ++ l) w.

Definition is_progress (e : GenerationStreamEvent) : bool :=
  event_type_eqb (ev_type e) progress.

(** The next [n] database statements run without a fault. *)
Fixpoint fault_free (n : nat) (fs : list (option exn)) : bool :=
  match n, fs with
  | O, _ => true
  | _, [] => true
  | S n', None :: fs' => fault_free n' fs'
  | S _, Some _ :: _ => false
  end.

(** [saveToHistory] issues two statements, the lookup of the ticket row and
    the insertion; the insertion is accepted when the template of the row is
    in the template table. *)
Definition write_succeeds (data : HistoryData) (w : world) : bool :=
  fault_free 2 (faults w)
  && TestPlanService.template_exists (hd_templateId data) (db w).

(** The argument [generate] passes to [saveToHistory]. *)
Definition history_data (options : GenerationOptions) (ticket : JiraTicketResponse)
           (template : ResolvedTemplate) (text : string) : HistoryData :=
  {| hd_ticketKey := key ticket;
     hd_templateId := rt_id template;
     hd_provider := provider_string (provider options);
     hd_content := text |}.

(** The world after the orchestrator has relayed the provider events [l]. *)
Definition relayed (l : list GenerationStreamEvent) (w : world) : world :=
  set_emitted (emitted w ++ l) (set_pulled (pulled w ++ l) w).

(** The five progress events of steps 1 to 4. *)
Definition stage_events (ticket : JiraTicketResponse) (options : GenerationOptions)
  : list GenerationStreamEvent :=
  [ mkEvent progress "Fetching JIRA ticket..." (Some (5 # 1));
    mkEvent progress ("Ticket found: " ++ summary ticket)%string (Some (15 # 1));
    mkEvent progress "Loading template..." (Some (20 # 1));
    mkEvent progress "Template loaded" (Some (25 # 1));
    mkEvent progress
      ("Generating with " ++ provider_string (provider options) ++ "...")%string
      (Some (30 # 1)) ].

Definition saving_event : GenerationStreamEvent :=
  mkEvent progress "Saving to history..." (Some (95 # 1)).

Definition complete_event (text : string) : GenerationStreamEvent :=
  mkEvent complete text (Some (100 # 1)).

(** The [id] column [saveToHistory] finds for a ticket key ([ticketRow?.id || null]). *)
Definition ticket_row_id (d : Database) (k : string) : option Z :=
  match find (JiraTicketService.has_key k) (jira_tickets d) with
  | Some r => if jt_id r =? 0 then None else Some (jt_id r)
  | None => None
  end.

(** The row [saveToHistory] inserts into database [d] at time [t]. *)
Definition history_row (data : HistoryData) (d : Database) (t : Z) : HistoryRow :=
  {| h_id := test_plan_history_seq d + 1;
     h_ticket_key := hd_ticketKey data;
     h_ticket_id := ticket_row_id d (hd_ticketKey data);
     h_template_id := Some (hd_templateId data);
     h_llm_provider := hd_provider data;
     h_generated_content := hd_content data;
     h_created_at := t |}.

(** What a consumer [stop] has seen of a run with outcome [r]: it stopped at
    the last event it received and at no event before. *)
Definition consumer_view {A} (stop : GenerationStreamEvent -> bool)
           (r : outcome A) (evs : list GenerationStreamEvent) : Prop :=
  match r with
  | Stopped => exists pre t, evs = pre ++ [t] /\ stop t = true /\
                             Forall (fun e => stop e = false) pre
  | _ => Forall (fun e => stop e = false) evs
  end.

Definition disciplined {A} (stop : GenerationStreamEvent -> bool) (m : M A) : Prop :=
  forall w r w', m w = (r, w') ->
    exists evs, emitted w' = emitted w ++ evs /\ consumer_view stop r evs.

(** The rest of the [try] block of [generate] once the provider object is
    there: the [for await] loop over its generator, then step 5 and the
    final [yield]. *)
Definition stream_and_persist {P : Platform} (stop : GenerationStreamEvent -> bool)
           (options : GenerationOptions) (ticket : JiraTicketResponse)
           (template : ResolvedTemplate) (gen : Gen unit) : M unit :=
  fullContent <- TestPlanService.for_await stop gen ;;
  TestPlanService.persist_and_complete stop options (ticket, template, fullContent).

(** A scope that binds each class name to nothing or to the class of the
    repository. *)
Definition repository_scope {P : Platform} (g : groq_upstream) (o : ollama_upstream)
           (impl : Scope) : Prop :=
  forall p, impl p = None \/ impl p = Some (provider_class g o p).

(** A computation that, when it returns, has just yielded a terminal event. *)
Definition ends_terminal (m : M unit) : Prop :=
  forall w w', m w = (Ok tt, w') ->
    exists pre t, emitted w' = emitted w ++ pre ++ [t] /\ is_terminal t = true.

(** ** The claims of the specification, as it states them *)

Section Claims.
Context {P : Platform}.
Variable impl : Scope.

(** "[generate] emits exactly one terminal event ([complete] xor [error]),
    and no event follows it", for a run consumed by [stop]. *)
Definition one_terminal_event_last (stop : GenerationStreamEvent -> bool)
           (options : GenerationOptions) (w : world) : Prop :=
  let '(_, w') := TestPlanService.generate impl stop options w in
  exists pre t,
    emitted w' = emitted w ++ pre ++ [t] /\
    is_terminal t = true /\ count_terminal pre = 0%nat.




(** "[templateId] omitted and no default template exists: [generate]
    terminates with a NotFound error before any provider call is made". *)
Definition not_found_without_default (options : GenerationOptions) (w : world) : Prop :=
  templateId options = None ->
  find tr_is_default (templates (db w)) = None ->
  let '(r, w') := TestPlanService.generate impl drain options w in
  provider_calls w' = provider_calls w /\
  exists m, r = Throw (ApiError m 404 "NOT_FOUND").


End Claims.

(** ** Sample data *)

Module Sample.

Definition nl : string := String Str.newline EmptyString.

(** A platform whose JSON is a toy format: a fragment line is ["+text"]
    (more to come) or ["!text"] (completion flag set). *)
Definition platform : Platform :=
  {| JSON_stringify_labels := Str.concat;
     JSON_stringify_attachments := fun _ => "[]";
     JSON_stringify_ticket := key;
     JSON_parse_labels := fun s => Some [s];
     JSON_parse_attachments := fun _ => Some [];
     JSON_parse_fragment := fun s =>
       match s with
       | String "+" r => Some {| response := r; done := false |}
       | String "!" r => Some {| response := r; done := true |}
       | _ => None
       end;
     decryptField := fun o => match o with Some s => s | None => EmptyString end;
     pdf_text := fun s => Some s;
     path_join := fun a b => (a ++ "/" ++ b)%string;
     path_parse_name := fun s => s |}.

Definition ticket : JiraTicketResponse :=
  {| key := "ABC-1"; summary := "Login"; description := "As a user";
     priority := "High"; status := "Open"; assignee := "qa";
     labels := ["auth"]; acceptanceCriteria := "Given"; attachments := [] |}.

Definition ticket_refetched : JiraTicketResponse :=
  {| key := "ABC-1"; summary := "Login v2"; description := "As an admin";
     priority := "Low"; status := "Done"; assignee := "dev";
     labels := ["auth"; "sso"]; acceptanceCriteria := "When";
     attachments := [{| filename := "a.png"; contentType := "image/png";
                        size := 10; url := "http://x/a.png" |}] |}.

Definition ticket_row : JiraTicketRow :=
  @JiraTicketService.row_of platform 1 ticket 100.

Definition template_row (id : Z) (is_default : bool) (created : Z) : TemplateRow :=
  {| tr_id := id; tr_name := "Plan"; tr_filename := "plan.pdf";
     tr_filepath := "templates/plan.pdf"; tr_content := "1. Scope";
     tr_is_default := is_default; tr_created_at := created;
     tr_updated_at := created |}.

Definition database (tpls : list TemplateRow) : Database :=
  {| settings := None;
     jira_tickets := [ticket_row]; jira_tickets_seq := 1;
     templates := tpls; templates_seq := Z.of_nat (List.length tpls);
     test_plan_history := []; test_plan_history_seq := 0 |}.

Definition world_with (tpls : list TemplateRow) (fs : list (option exn)) : world :=
  {| db := database tpls; disk := []; now := 1000; uuid := "0a1b2c3d";
     faults := fs;
     jira_fetch := fun _ => inl (JsError "getaddrinfo ENOTFOUND");
     emitted := []; pulled := []; provider_calls := 0 |}.

(** Ticket cached, one default template, no fault. *)
Definition ready : world := world_with [template_row 1 true 50] [].

Definition options (p : provider_name) : GenerationOptions :=
  {| ticketId := "ABC-1"; templateId := None; provider := p |}.

(** The daemon answers "Hello", " world", then the completion flag, and
    keeps sending. *)
Definition ollama_hello : ollama_upstream :=
  inr {| chunks := ["+Hel"; "lo" ++ nl ++ "+ wor"; "ld" ++ nl ++ "!" ++ nl ++ "+more" ++ nl;
                    "+tail" ++ nl]%string;
         failure := None |}.

(** The daemon closes at once. *)
Definition ollama_silent : ollama_upstream :=
  inr {| chunks := []; failure := None |}.

Definition groq_unauthorized : groq_upstream :=
  inl (GroqAPIError (Some 401) "Invalid API Key").

End Sample.

Module SampleRuns.
Import Sample.

(** A fault hits the [n]-th database statement of the run (counted from 0). *)
Definition fault_at (n : nat) : list (option exn) :=
  repeat None n ++ [Some (JsError "SQLITE_BUSY: database is locked")].

End SampleRuns.

Module SampleStores.
Import Sample.

(** Ticket cached, template store empty. *)
Definition no_template : world := world_with [] [].

(** Ticket cached, one template in the store, not marked default. *)
Definition no_default : world := world_with [template_row 1 false 50] [].

End SampleStores.

(** The progress event a provider opens its stream with. *)
Definition groq_started : GenerationStreamEvent :=
  mkEvent progress "Generating test plan with Groq..." (Some (10 # 1)).

Definition ollama_started : GenerationStreamEvent :=
  mkEvent progress "Generating test plan with Ollama (local)..." (Some (10 # 1)).

(** ** The template table *)

Definition count_default (l : list TemplateRow) : nat :=
  List.length (filter tr_is_default l).

(** What the schema gives: [id] is a primary key handed out by the
    AUTOINCREMENT sequence. *)
Definition ids_wf (d : Database) : Prop :=
  NoDup (map tr_id (templates d)) /\
  Forall (fun r => tr_id r <= templates_seq d) (templates d).

(** "At most one template has is-default = true." *)
Definition at_most_one_default (d : Database) : Prop :=
  (count_default (templates d) <= 1)%nat.

(** The invariant of the template table. *)
Definition template_inv (d : Database) : Prop :=
  ids_wf d /\ at_most_one_default d.

Definition no_default (d : Database) : Prop :=
  ids_wf d /\ count_default (templates d) = 0%nat.

(** Exactly one template is the default, the one with identifier [id]. *)
Definition sole_default (id : Z) (l : list TemplateRow) : Prop :=
  count_default l = 1%nat /\
  (exists row, In row l /\ tr_id row = id /\ tr_is_default row = true) /\
  (forall r, In r l -> tr_id r <> id -> tr_is_default r = false).

(** ** Hoare triples over the database

    [hoare pre m post fail]: started in a database satisfying [pre], the
    computation leaves one satisfying [post] when it returns and [fail]
    otherwise. *)
Definition hoare {A} (pre : Database -> Prop) (m : M A)
           (post : A -> Database -> Prop) (fail : Database -> Prop) : Prop :=
  forall w r w', m w = (r, w') -> pre (db w) ->
    match r with
    | Ok a => post a (db w')
    | _ => fail (db w')
    end.

(** [maintains I m]: [I] is an invariant of [m], however it ends. *)
Definition maintains {A} (I : Database -> Prop) (m : M A) : Prop :=
  hoare I m (fun _ => I) I.

Module SampleTemplates.
Import Sample.

(** Two templates, the first one the default. *)
Definition two_templates : world :=
  world_with [template_row 1 true 50; template_row 2 false 60] [].

(** One default template in the store; the file of the next upload is
    written and its count query fails. *)
Definition count_fails : world :=
  world_with [template_row 1 true 50] (SampleRuns.fault_at 1).

(** A PDF upload. *)
Definition upload : MulterFile :=
  {| buffer := Some "%PDF-1.4 Test plan"; mimetype := "application/pdf";
     file_size := 2048; originalname := "Test Plan.pdf" |}.

End SampleTemplates.

(** "The newly created template is marked default if and only if the store
    contained zero templates at the moment of upload, and later uploads
    never change the current default". *)
Definition default_iff_store_empty {P : Platform} (dir : string)
           (file : option MulterFile) (name : option string) (w : world) : Prop :=
  forall t w',
    TemplateService.createTemplate dir file name w = (Ok t, w') ->
    exists row,
      templates (db w') = templates (db w) ++ [row] /\
      (tr_is_default row = true <-> templates (db w) = []).

(** ** The lines of the local daemon's stream *)

Section Fragments.
Context {P : Platform}.

(** The fragment the loop acts on for a line: none for a blank line or one
    that does not parse. *)
Definition fragment_of (line : string) : option OllamaGenerateResponse :=
  if Str.blank line then None else JSON_parse_fragment line.

(** The line is a parsed fragment whose completion flag is set. *)
Definition flagged (line : string) : bool :=
  match fragment_of line with
  | Some f => done f
  | None => false
  end.

Definition fragment_text (line : string) : string :=
  match fragment_of line with
  | Some f => response f
  | None => EmptyString
  end.

(** The text of the fragments on the given lines. *)
Definition lines_text (lines : list string) : string :=
  Str.concat (map fragment_text lines).

(** The [content] events the provider emits for the given lines, the text
    accumulated before them being [full]. *)
Fixpoint fragment_events (lines : list string) (full : string)
  : list GenerationStreamEvent :=
  match lines with
  | [] => []
  | line :: rest =>
      match fragment_of line with
      | Some f =>
          if Str.truthy (response f) then
            mkEvent content (response f)
                    (Some (if done f then 100 # 1
                           else progress_estimate (full ++ response f)%string (95 # 1)))
            :: fragment_events rest (full ++ response f)%string
          else fragment_events rest full
      | None => fragment_events rest full
      end
  end.

(** The lines up to and including the first flagged one. *)
Fixpoint upto_flag (lines : list string) : list string :=
  match lines with
  | [] => []
  | line :: rest => if flagged line then [line] else line :: upto_flag rest
  end.

End Fragments.

(** The newline-terminated lines of a text. *)
Definition complete_lines (text : string) : list string :=
  fst (Str.split_lines text).

(** How many chunks a run of the reader took from the response. *)
Definition chunks_taken (g : Gen OllamaProvider.reader) : nat :=
  match snd g with
  | Returned st => OllamaProvider.chunks_read st
  | Raised _ => 0
  end.

(** * Predicates for the rest of the services *)

(** ** Stored file names *)

(** The characters [sanitizeFilename] lets through: lower-case letters,
    digits, dot, underscore and hyphen. *)
Definition safe_char (c : ascii) : bool :=
  let n := nat_of_ascii c in
  ((97 <=? n) && (n <=? 122) || (48 <=? n) && (n <=? 57)
   || (n =? 46) || (n =? 95) || (n =? 45))%nat.

Fixpoint all_chars (p : ascii -> bool) (s : string) : bool :=
  match s with
  | EmptyString => true
  | String c s' => p c && all_chars p s'
  end.

(** The checks [createTemplate] makes before it writes anything: a file
    with a buffer, the PDF media type, at most 5 MB, and text that
    [pdf-parse] can extract. *)
Definition upload_accepted {P : Platform} (file : option MulterFile) : bool :=
  match file with
  | None => false
  | Some f =>
      match buffer f with
      | None => false
      | Some buf =>
          String.eqb (mimetype f) "application/pdf"
          && (file_size f <=? 5 * 1024 * 1024)
          && match pdf_text buf with Some _ => true | None => false end
      end
  end.

(** Where [createTemplate] stores the file of an upload. *)
Definition stored_path {P : Platform} (dir : string) (f : MulterFile) (w : world) : string :=
  path_join dir (uuid w ++ "_" ++ TemplateService.sanitizeFilename (originalname f)).

(** ** Provider failures *)

(** The error an upstream call or its stream ends with, if any. *)
Definition upstream_error {chunk} (g : exn + upstream_stream chunk) : option exn :=
  match g with
  | inl e => Some e
  | inr s => failure s
  end.

(** The failures the cloud provider's [handleError] turns into an
    [ApiError]: those of class [Groq.APIError], and the [Error]s whose
    message mentions a timeout. *)
Definition groq_classified (e : exn) : bool :=
  match e with
  | GroqAPIError _ _ => true
  | NonError => false
  | _ => Str.includes "timeout" (message_of e)
  end.

(** The status of an [ApiError]. *)
Definition status_of (e : exn) : option Z :=
  match e with
  | ApiError _ s _ => Some s
  | _ => None
  end.

(** ** What a computation can throw *)

(** [throws_only Q m]: every exception that leaves [m] satisfies [Q]. *)
Definition throws_only {A} (Q : exn -> Prop) (m : M A) : Prop :=
  forall w e w', m w = (Throw e, w') -> Q e.

(** The errors the [catch] clause of [generate] rethrows. *)
Definition with_status (e : exn) : Prop :=
  instanceof_Error e && has_status e = true.

(** The first progress event of a run. *)
Definition fetching_event : GenerationStreamEvent :=
  mkEvent progress "Fetching JIRA ticket..." (Some (5 # 1)).

(** ** Event streams as the routes read them *)

(** The data of the last [error] event of a stream. *)
Fixpoint last_error (events : list GenerationStreamEvent) : option string :=
  match events with
  | [] => None
  | event :: rest =>
      match last_error rest with
      | Some m => Some m
      | None => if is_error event then Some (ev_data event) else None
      end
  end.

(** ** The history table *)

(** What the schema gives: the identifiers of the rows were handed out by
    the AUTOINCREMENT sequence, which starts at 1. *)
Definition history_wf (d : Database) : Prop :=
  0 <= test_plan_history_seq d /\
  Forall (fun h => h_id h <= test_plan_history_seq d) (test_plan_history d).

(** ** More sample data *)

Module SampleUploads.
Import Sample.

(** An upload that is not a PDF. *)
Definition text_file : MulterFile :=
  {| buffer := Some "plain notes"; mimetype := "text/plain";
     file_size := 11; originalname := "notes.txt" |}.

(** One template in the store; the write of the file and the count run, the
    INSERT fails. *)
Definition insert_fails : world :=
  world_with [template_row 1 true 50] (SampleRuns.fault_at 2).

(** The template's file is on disk; lookup and unlink run, the DELETE fails. *)
Definition delete_fails : world :=
  set_disk ["templates/plan.pdf"]
           (world_with [template_row 1 true 50] (SampleRuns.fault_at 2)).

End SampleUploads.

Module SampleSettings.
Import Sample.

(** A settings row with the tracker configured. *)
Definition row : SettingsRow :=
  {| s_jira_base_url := Some "https://jira.example.com";
     s_jira_username := Some "qa@example.com";
     s_jira_api_token := Some "token";
     s_jira_connected := true;
     s_llm_provider := Some "groq";
     s_groq_api_key := Some "key";
     s_groq_model := Some "llama3-70b-8192";
     s_groq_temperature := Some (7 # 10);
     s_ollama_base_url := Some "http://localhost:11434";
     s_ollama_model := Some "llama3" |}.

(** [ready] with that row: the tracker is configured and, for any ticket
    that is not cached, the fetch fails with a DNS error. *)
Definition configured : world := set_db (set_settings (Some row) (db ready)) ready.

Definition encrypt (s : string) : option string := Some ("enc:" ++ s)%string.

Definition jira_request : JiraSettingsRequest :=
  {| jsr_baseUrl := "https://tracker.example.com";
     jsr_username := "lead@example.com";
     jsr_apiToken := "secret" |}.

(** A request that sets the temperature to 0 and gives an empty key. *)
Definition llm_request : LLMSettingsRequest :=
  {| lsr_provider := groq;
     lsr_groqApiKey := Some EmptyString;
     lsr_groqModel := None;
     lsr_groqTemperature := Some (0 # 1);
     lsr_ollamaBaseUrl := None;
     lsr_ollamaModel := None |}.

(** A run for a ticket that is not in the cache. *)
Definition uncached : GenerationOptions :=
  {| ticketId := "XYZ-9"; templateId := None; provider := groq |}.

End SampleSettings.

Module SampleFailures.

(** A [parseInt] that knows one string. *)
Definition parseInt (s : string) : option Z :=
  if String.eqb s "-1" then Some (-1) else None.

Definition history_data : HistoryData :=
  {| hd_ticketKey := "ABC-1"; hd_templateId := 1;
     hd_provider := "groq"; hd_content := "# Plan" |}.

End SampleFailures.

Module SampleTracker.
Import Sample.

(** The tracker answers a request with status 418 and a message. *)
Definition teapot : AxiosFailure :=
  {| ax_code := Some "ERR_BAD_REQUEST";
     ax_response := Some (418, Some ["Field is invalid"]);
     ax_message := "Request failed with status code 418" |}.

(** A world with the settings row [row] in which the tracker answers every
    request with [r]. *)
Definition answering (row : SettingsRow) (r : exn + JiraTicketResponse) : world :=
  {| db := set_settings (Some row) (db ready); disk := []; now := 1000;
     uuid := "0a1b2c3d"; faults := []; jira_fetch := fun _ => r;
     emitted := []; pulled := []; provider_calls := 0 |}.

(** Base URL and token, no user name. *)
Definition no_user_name : SettingsRow :=
  {| s_jira_base_url := Some "https://jira.example.com";
     s_jira_username := None;
     s_jira_api_token := Some "token";
     s_jira_connected := false;
     s_llm_provider := Some "groq";
     s_groq_api_key := Some "key";
     s_groq_model := Some "llama3-70b-8192";
     s_groq_temperature := Some (7 # 10);
     s_ollama_base_url := Some "http://localhost:11434";
     s_ollama_model := Some "llama3" |}.

Definition other_ticket : JiraTicketResponse :=
  {| key := "XYZ-9"; summary := "Export"; description := "As an auditor";
     priority := "Low"; status := "Open"; assignee := "Unassigned";
     labels := ["reports"]; acceptanceCriteria := EmptyString; attachments := [] |}.

End SampleTracker.
(** * Reasoning about computations *)

Section MonadLemmas.
Context {A B : Type}.

Lemma bind_inv (m : M A) (k : A -> M B) w r w' :
  bind m k w = (r, w') ->
  (exists a w1, m w = (Ok a, w1) /\ k a w1 = (r, w')) \/
  (exists e, m w = (Throw e, w') /\ r = Throw e) \/
  (m w = (Stopped, w') /\ r = Stopped).
Proof.
  unfold bind. destruct (m w) as [[a|e|] w1]; intro H.
  - left. eauto.
  - right. left. inversion H; subst. eauto.
  - right. right. inversion H; subst. auto.
Qed.

Lemma bind_ok (m : M A) (k : A -> M B) w a w1 :
  m w = (Ok a, w1) -> bind m k w = k a w1.
Proof. unfold bind. intros ->. reflexivity. Qed.

Lemma bind_throw (m : M A) (k : A -> M B) w e w1 :
  m w = (Throw e, w1) -> bind m k w = (Throw e, w1).
Proof. unfold bind. intros ->. reflexivity. Qed.

Lemma bind_stopped (m : M A) (k : A -> M B) w w1 :
  m w = (Stopped, w1) -> bind m k w = (Stopped, w1).
Proof. unfold bind. intros ->. reflexivity. Qed.

Lemma try_catch_inv (m : M A) (h : exn -> M A) w r w' :
  try_catch m h w = (r, w') ->
  (exists e w1, m w = (Throw e, w1) /\ h e w1 = (r, w')) \/
  (m w = (r, w') /\ forall e, r <> Throw e).
Proof.
  unfold try_catch. destruct (m w) as [[a|e|] w1]; intro H.
  - right. inversion H; subst. split; [reflexivity | discriminate].
  - left. eauto.
  - right. inversion H; subst. split; [reflexivity | discriminate].
Qed.

End MonadLemmas.

Lemma frame_refl w : frame w w.
Proof. repeat split. Qed.

Lemma frame_trans w1 w2 w3 : frame w1 w2 -> frame w2 w3 -> frame w1 w3.
Proof.
  unfold frame. intros (a & b & c & d & e) (a' & b' & c' & d' & e').
  repeat split; congruence.
Qed.

Section FrameLemmas.
Context {A B X : Type} (g : Database -> X).

Lemma silent_ret (a : A) : silent (ret a).
Proof. intros w r w' H. inversion H; subst. split; [apply frame_refl | discriminate]. Qed.

Lemma silent_throw (e : exn) : silent (@throw A e).
Proof. intros w r w' H. inversion H; subst. split; [apply frame_refl | discriminate]. Qed.

Lemma silent_get_world : silent get_world.
Proof. intros w r w' H. inversion H; subst. split; [apply frame_refl | discriminate]. Qed.

Lemma silent_io_step : silent io_step.
Proof.
  intros w r w'. unfold io_step.
  destruct (faults w) as [|[e|] fs]; intro H; inversion H; subst;
    (split; [repeat split | discriminate]).
Qed.

Lemma silent_bind (m : M A) (k : A -> M B) :
  silent m -> (forall a, silent (k a)) -> silent (bind m k).
Proof.
  intros Hm Hk w r w' H.
  destruct (bind_inv _ _ _ _ _ H) as [(a & w1 & H1 & H2) | [(e & H1 & ->) | (H1 & ->)]].
  - destruct (Hm _ _ _ H1) as [F1 _]. destruct (Hk a _ _ _ H2) as [F2 N].
    split; [eapply frame_trans; eauto | exact N].
  - destruct (Hm _ _ _ H1) as [F1 _]. split; [exact F1 | discriminate].
  - destruct (Hm _ _ _ H1) as [_ N]. congruence.
Qed.

Lemma silent_try_catch (m : M A) (h : exn -> M A) :
  silent m -> (forall e, silent (h e)) -> silent (try_catch m h).
Proof.
  intros Hm Hh w r w' H.
  destruct (try_catch_inv _ _ _ _ _ H) as [(e & w1 & H1 & H2) | (H1 & _)].
  - destruct (Hm _ _ _ H1) as [F1 _]. destruct (Hh e _ _ _ H2) as [F2 N].
    split; [eapply frame_trans; eauto | exact N].
  - exact (Hm _ _ _ H1).
Qed.

Lemma silent_modify (f : world -> world) :
  (forall w, frame w (f w)) -> silent (modify f).
Proof.
  intros Hf w r w' H. inversion H; subst. split; [apply Hf | discriminate].
Qed.

Lemma keeps_ret (a : A) : keeps g (ret a).
Proof. intros w r w' H. inversion H; subst. reflexivity. Qed.

Lemma keeps_throw (e : exn) : keeps g (@throw A e).
Proof. intros w r w' H. inversion H; subst. reflexivity. Qed.

Lemma keeps_get_world : keeps g get_world.
Proof. intros w r w' H. inversion H; subst. reflexivity. Qed.

Lemma keeps_io_step : keeps g io_step.
Proof.
  intros w r w'. unfold io_step.
  destruct (faults w) as [|[e|] fs]; intro H; inversion H; subst; reflexivity.
Qed.

Lemma keeps_bind (m : M A) (k : A -> M B) :
  keeps g m -> (forall a, keeps g (k a)) -> keeps g (bind m k).
Proof.
  intros Hm Hk w r w' H.
  destruct (bind_inv _ _ _ _ _ H) as [(a & w1 & H1 & H2) | [(e & H1 & ->) | (H1 & ->)]].
  - rewrite (Hk a _ _ _ H2). exact (Hm _ _ _ H1).
  - exact (Hm _ _ _ H1).
  - exact (Hm _ _ _ H1).
Qed.

Lemma keeps_try_catch (m : M A) (h : exn -> M A) :
  keeps g m -> (forall e, keeps g (h e)) -> keeps g (try_catch m h).
Proof.
  intros Hm Hh w r w' H.
  destruct (try_catch_inv _ _ _ _ _ H) as [(e & w1 & H1 & H2) | (H1 & _)].
  - rewrite (Hh e _ _ _ H2). exact (Hm _ _ _ H1).
  - exact (Hm _ _ _ H1).
Qed.

Lemma keeps_modify (f : world -> world) :
  (forall w, db (f w) = db w) -> keeps g (modify f).
Proof. intros Hf w r w' H. inversion H; subst. now rewrite Hf. Qed.

End FrameLemmas.

Lemma silent_db_query {A} (q : Database -> A) : silent (db_query q).
Proof.
  unfold db_query.
  apply silent_bind; [apply silent_io_step | intros _].
  apply silent_bind; [apply silent_get_world | intro]. apply silent_ret.
Qed.

Lemma silent_db_exec {A} (f : Database -> Z -> A * Database) : silent (db_exec f).
Proof.
  unfold db_exec.
  apply silent_bind; [apply silent_io_step | intros _].
  apply silent_bind; [apply silent_get_world | intro w0].
  destruct (f (db w0) (now w0)) as [a d].
  apply silent_bind; [| intro; apply silent_ret].
  apply silent_modify. intro w. repeat split.
Qed.

Lemma silent_db_exec_fk {A} (ok : Database -> bool) (f : Database -> Z -> A * Database) :
  silent (db_exec_fk ok f).
Proof.
  unfold db_exec_fk.
  apply silent_bind; [apply silent_io_step | intros _].
  apply silent_bind; [apply silent_get_world | intro w0].
  destruct (ok (db w0)); [| apply silent_throw].
  destruct (f (db w0) (now w0)) as [a d].
  apply silent_bind; [| intro; apply silent_ret].
  apply silent_modify. intro w. repeat split.
Qed.

Lemma keeps_db_query {A X} (g : Database -> X) (q : Database -> A) : keeps g (db_query q).
Proof.
  unfold db_query.
  apply keeps_bind; [apply keeps_io_step | intros _].
  apply keeps_bind; [apply keeps_get_world | intro]. apply keeps_ret.
Qed.

Lemma keeps_db_exec {A X} (g : Database -> X) (f : Database -> Z -> A * Database) :
  (forall d t, g (snd (f d t)) = g d) -> keeps g (db_exec f).
Proof.
  intros Hf w r w'. unfold db_exec, bind, io_step, get_world, modify, ret.
  destruct (faults w) as [|[e|] fs]; simpl.
  - specialize (Hf (db w) (now w)). destruct (f (db w) (now w)) as [a d]; simpl in *.
    intro H; inversion H; subst; simpl. exact Hf.
  - intro H; inversion H; subst; reflexivity.
  - specialize (Hf (db w) (now w)). destruct (f (db w) (now w)) as [a d]; simpl in *.
    intro H; inversion H; subst; simpl. exact Hf.
Qed.

Lemma keeps_db_exec_fk {A X} (g : Database -> X) (ok : Database -> bool)
      (f : Database -> Z -> A * Database) :
  (forall d t, g (snd (f d t)) = g d) -> keeps g (db_exec_fk ok f).
Proof.
  intros Hf w r w'. unfold db_exec_fk, bind, io_step, get_world, modify, ret, throw.
  destruct (faults w) as [|[e|] fs]; simpl.
  - destruct (ok (db w)); [| intro H; inversion H; subst; reflexivity].
    specialize (Hf (db w) (now w)). destruct (f (db w) (now w)) as [a d]; simpl in *.
    intro H; inversion H; subst; simpl. exact Hf.
  - intro H; inversion H; subst; reflexivity.
  - destruct (ok (db w)); [| intro H; inversion H; subst; reflexivity].
    specialize (Hf (db w) (now w)). destruct (f (db w) (now w)) as [a d]; simpl in *.
    intro H; inversion H; subst; simpl. exact Hf.
Qed.

(** ** Frames of the services *)

Create HintDb silent.
Create HintDb keeps.

Ltac silent_tac :=
  repeat first
    [ apply silent_ret | apply silent_throw | apply silent_get_world
    | apply silent_io_step | apply silent_db_query | apply silent_db_exec
    | apply silent_db_exec_fk
    | solve [auto with silent]
    | apply silent_bind; [| intro]
    | apply silent_try_catch; [| intro]
    | match goal with
      | |- silent (match ?x with _ => _ end) => destruct x
      end ].

Create HintDb db_ops.
#[global] Hint Unfold JiraTicketService.upsert SettingsService.insert_default
  TemplateService.unset_defaults TemplateService.insert_row
  TemplateService.update_row TemplateService.delete_row
  TestPlanService.insert_history : db_ops.

Ltac db_untouched :=
  intros; autounfold with db_ops; simpl;
  repeat match goal with
         | |- context [match ?x with _ => _ end] => destruct x; simpl
         end;
  reflexivity.

Ltac keeps_tac :=
  repeat first
    [ apply keeps_ret | apply keeps_throw | apply keeps_get_world
    | apply keeps_io_step | apply keeps_db_query
    | solve [auto with keeps]
    | apply keeps_db_exec; try solve [db_untouched]
    | apply keeps_db_exec_fk; try solve [db_untouched]
    | apply keeps_bind; [| intro]
    | apply keeps_try_catch; [| intro]
    | match goal with
      | |- keeps _ (match ?x with _ => _ end) => destruct x
      end ].

Section ServiceFrames.
Context {P : Platform}.

Lemma silent_rowToResponse row : silent (JiraTicketService.rowToResponse row).
Proof. unfold JiraTicketService.rowToResponse. silent_tac. Qed.

Lemma silent_cache_getTicket k : silent (JiraTicketService.getTicket k).
Proof.
  unfold JiraTicketService.getTicket. pose proof silent_rowToResponse. silent_tac.
Qed.

Lemma silent_saveTicket t : silent (JiraTicketService.saveTicket t).
Proof. unfold JiraTicketService.saveTicket. silent_tac. Qed.

Lemma silent_getSettings : silent SettingsService.getSettings.
Proof. unfold SettingsService.getSettings. silent_tac. Qed.

Hint Resolve silent_cache_getTicket silent_saveTicket silent_getSettings : silent.

Lemma silent_getJiraConfig : silent SettingsService.getJiraConfig.
Proof. unfold SettingsService.getJiraConfig. silent_tac. Qed.

Lemma silent_getLLMConfig : silent SettingsService.getLLMConfig.
Proof. unfold SettingsService.getLLMConfig. silent_tac. Qed.

Lemma silent_getAllTemplates : silent TemplateService.getAllTemplates.
Proof. unfold TemplateService.getAllTemplates. silent_tac. Qed.

Lemma silent_store_getTemplate id : silent (TemplateService.getTemplate id).
Proof. unfold TemplateService.getTemplate. silent_tac. Qed.

Hint Resolve silent_getJiraConfig silent_getLLMConfig silent_getAllTemplates
     silent_store_getTemplate : silent.

Lemma silent_getDefaultTemplate : silent TemplateService.getDefaultTemplate.
Proof. unfold TemplateService.getDefaultTemplate. silent_tac. Qed.

Hint Resolve silent_getDefaultTemplate : silent.

Lemma silent_createLLMProvider impl p : silent (createLLMProvider impl p).
Proof. unfold createLLMProvider. silent_tac. Qed.

Lemma silent_getTicket tid : silent (TestPlanService.getTicket tid).
Proof. unfold TestPlanService.getTicket. silent_tac. Qed.

Lemma silent_getTemplate tpl : silent (TestPlanService.getTemplate tpl).
Proof. unfold TestPlanService.getTemplate. silent_tac. Qed.

Lemma silent_getTemperature p : silent (TestPlanService.getTemperature p).
Proof. unfold TestPlanService.getTemperature. silent_tac. Qed.

Lemma silent_saveToHistory data : silent (TestPlanService.saveToHistory data).
Proof. unfold TestPlanService.saveToHistory. silent_tac. Qed.

(** The history table is written by [saveToHistory] alone. *)

Lemma history_cache_getTicket k :
  keeps test_plan_history (JiraTicketService.getTicket k).
Proof.
  unfold JiraTicketService.getTicket, JiraTicketService.rowToResponse. keeps_tac.
Qed.

Lemma history_saveTicket t : keeps test_plan_history (JiraTicketService.saveTicket t).
Proof.
  unfold JiraTicketService.saveTicket. keeps_tac.
Qed.

Lemma history_getSettings : keeps test_plan_history SettingsService.getSettings.
Proof.
  unfold SettingsService.getSettings. keeps_tac.
Qed.

Hint Resolve history_cache_getTicket history_saveTicket history_getSettings : keeps.

Lemma history_getLLMConfig : keeps test_plan_history SettingsService.getLLMConfig.
Proof. unfold SettingsService.getLLMConfig. keeps_tac. Qed.

Lemma history_getJiraConfig : keeps test_plan_history SettingsService.getJiraConfig.
Proof. unfold SettingsService.getJiraConfig. keeps_tac. Qed.

Lemma history_getAllTemplates : keeps test_plan_history TemplateService.getAllTemplates.
Proof. unfold TemplateService.getAllTemplates. keeps_tac. Qed.

Lemma history_store_getTemplate id :
  keeps test_plan_history (TemplateService.getTemplate id).
Proof. unfold TemplateService.getTemplate. keeps_tac. Qed.

Hint Resolve history_getLLMConfig history_getJiraConfig history_getAllTemplates
     history_store_getTemplate : keeps.

Lemma history_getDefaultTemplate :
  keeps test_plan_history TemplateService.getDefaultTemplate.
Proof. unfold TemplateService.getDefaultTemplate. keeps_tac. Qed.

Hint Resolve history_getDefaultTemplate : keeps.

Lemma history_createLLMProvider impl p :
  keeps test_plan_history (createLLMProvider impl p).
Proof. unfold createLLMProvider. keeps_tac. Qed.

Lemma history_getTicket tid : keeps test_plan_history (TestPlanService.getTicket tid).
Proof. unfold TestPlanService.getTicket. keeps_tac. Qed.

Lemma history_getTemplate tpl : keeps test_plan_history (TestPlanService.getTemplate tpl).
Proof. unfold TestPlanService.getTemplate. keeps_tac. Qed.

Lemma history_getTemperature p :
  keeps test_plan_history (TestPlanService.getTemperature p).
Proof. unfold TestPlanService.getTemperature. keeps_tac. Qed.

(** The template table is not written during ticket resolution. *)

Lemma templates_saveTicket t : keeps templates (JiraTicketService.saveTicket t).
Proof.
  unfold JiraTicketService.saveTicket. keeps_tac.
Qed.

Lemma templates_cache_getTicket k : keeps templates (JiraTicketService.getTicket k).
Proof.
  unfold JiraTicketService.getTicket, JiraTicketService.rowToResponse. keeps_tac.
Qed.

Lemma templates_getSettings : keeps templates SettingsService.getSettings.
Proof.
  unfold SettingsService.getSettings. keeps_tac.
Qed.

Hint Resolve templates_saveTicket templates_cache_getTicket templates_getSettings : keeps.

Lemma templates_getTicket tid : keeps templates (TestPlanService.getTicket tid).
Proof.
  unfold TestPlanService.getTicket, SettingsService.getJiraConfig. keeps_tac.
Qed.

End ServiceFrames.

(** ** Strings and traces *)

Lemma append_assoc (a b c : string) : ((a ++ b) ++ c = a ++ (b ++ c))%string.
Proof. induction a as [|x a IH]; simpl; [reflexivity | now rewrite IH]. Qed.

Lemma append_empty_r (a : string) : (a ++ EmptyString = a)%string.
Proof. induction a as [|x a IH]; simpl; [reflexivity | now rewrite IH]. Qed.

Lemma truthy_false s : Str.truthy s = false -> s = EmptyString.
Proof. destruct s; [reflexivity | discriminate]. Qed.

Lemma truthy_true s : Str.truthy s = true -> s <> EmptyString.
Proof. destruct s; [discriminate | discriminate]. Qed.

Lemma content_text_cons e l :
  content_text (e :: l) =
  if is_content e then (ev_data e ++ content_text l)%string else content_text l.
Proof. unfold content_text. simpl. destruct (is_content e); reflexivity. Qed.

Lemma content_text_app l1 l2 :
  content_text (l1 ++ l2) = (content_text l1 ++ content_text l2)%string.
Proof.
  induction l1 as [|e l1 IH]; [reflexivity |].
  simpl app. rewrite !content_text_cons, IH.
  destruct (is_content e); [now rewrite append_assoc | reflexivity].
Qed.

Lemma progress_not_content e : is_progress e = true -> is_content e = false.
Proof. unfold is_progress, is_content. destruct (ev_type e); simpl; congruence. Qed.

Lemma progress_not_terminal e : is_progress e = true -> is_terminal e = false.
Proof. unfold is_progress, is_terminal. destruct (ev_type e); simpl; congruence. Qed.

Lemma content_text_progress l :
  Forall (fun e => is_progress e = true) l -> content_text l = EmptyString.
Proof.
  induction 1 as [|e l He _ IH]; [reflexivity |].
  rewrite content_text_cons, (progress_not_content _ He). exact IH.
Qed.

Lemma count_terminal_app l1 l2 :
  count_terminal (l1 ++ l2) = (count_terminal l1 + count_terminal l2)%nat.
Proof. unfold count_terminal. now rewrite filter_app, length_app. Qed.

Lemma count_terminal_progress l :
  Forall (fun e => is_progress e = true) l -> count_terminal l = 0%nat.
Proof.
  unfold count_terminal. induction 1 as [|e l He _ IH]; [reflexivity |].
  simpl. now rewrite (progress_not_terminal _ He).
Qed.

Lemma count_terminal_none l :
  Forall (fun e => is_terminal e = false) l -> count_terminal l = 0%nat.
Proof.
  unfold count_terminal. induction 1 as [|e l He _ IH]; [reflexivity |].
  simpl. now rewrite He.
Qed.

Lemma stage_events_progress ticket options :
  Forall (fun e => is_progress e = true) (stage_events ticket options).
Proof. unfold stage_events. repeat constructor. Qed.

(** ** The drained run of the orchestrator *)

Section Drained.
Context {P : Platform}.
Variable impl : Scope.

Lemma yield_drain e w : yield_ drain e w = (Ok tt, yielded [e] w).
Proof. reflexivity. Qed.

Lemma bind_yield_drain {B} e (k : unit -> M B) w :
  bind (yield_ drain e) k w = k tt (yielded [e] w).
Proof. reflexivity. Qed.

Lemma relay_drain events : forall full w,
  TestPlanService.relay drain events full w =
  (Ok (full ++ content_text events)%string, relayed events w).
Proof.
  induction events as [|e l IH]; intros full w.
  - simpl. rewrite append_empty_r. unfold relayed, ret.
    rewrite !app_nil_r. destruct w; reflexivity.
  - cbn [TestPlanService.relay]. unfold bind at 1. unfold modify at 1.
    rewrite bind_yield_drain, IH, content_text_cons.
    f_equal.
    + destruct (is_content e); [now rewrite append_assoc | reflexivity].
    + unfold relayed, yielded, set_emitted, set_pulled; simpl.
      now rewrite <- !app_assoc.
Qed.

Lemma for_await_drain (g : Gen unit) w :
  TestPlanService.for_await drain g w =
  (match snd g with
   | Returned _ => Ok (content_text (fst g))
   | Raised e => Throw e
   end,
   relayed (fst g) (set_provider_calls (S (provider_calls w)) w)).
Proof.
  unfold TestPlanService.for_await, bind, modify.
  rewrite relay_drain. destruct (snd g); reflexivity.
Qed.

(** [saveToHistory] always returns; it appends its row exactly when both
    of its statements run. *)
Lemma saveToHistory_spec data w :
  exists n w',
    TestPlanService.saveToHistory data w = (Ok n, w') /\
    frame w w' /\
    (write_succeeds data w = false -> n = 0) /\
    test_plan_history (db w') =
      if write_succeeds data w
      then test_plan_history (db w) ++ [history_row data (db w) (now w)]
      else test_plan_history (db w).
Proof.
  unfold TestPlanService.saveToHistory, try_catch, db_query, db_exec_fk, bind,
    io_step, get_world, modify, ret, throw, write_succeeds.
  destruct w as [d dk t u fs jf em pu pc]; simpl.
  destruct (TestPlanService.template_exists (hd_templateId data) d) eqn:Hfk;
    destruct fs as [|[e|] [|[e'|] fs]]; simpl; rewrite ?Hfk; simpl;
    eexists; eexists; (split; [reflexivity |]); (split; [repeat split |]);
    (split; [try discriminate; reflexivity | reflexivity]).
Qed.

Lemma persist_and_complete_drain options ticket template full w :
  exists w',
    TestPlanService.persist_and_complete drain options (ticket, template, full) w
      = (Ok tt, w') /\
    emitted w' = emitted w ++
                 (if Str.truthy full then [saving_event] else []) ++
                 [complete_event full] /\
    pulled w' = pulled w /\
    test_plan_history (db w') =
      if Str.truthy full && write_succeeds (history_data options ticket template full) w
      then test_plan_history (db w) ++
           [history_row (history_data options ticket template full) (db w) (now w)]
      else test_plan_history (db w).
Proof.
  unfold TestPlanService.persist_and_complete.
  destruct (Str.truthy full) eqn:Hf.
  - fold (history_data options ticket template full).
    set (data := history_data options ticket template full).
    destruct (saveToHistory_spec data (yielded [saving_event] w))
      as (n & w2 & Hs & (Fe & Fp & _) & _ & Hh).
    exists (yielded [complete_event full] w2). split; [| repeat split].
    + unfold bind at 1. unfold bind at 1. rewrite yield_drain.
      unfold bind at 1. fold saving_event. rewrite Hs. reflexivity.
    + simpl. rewrite Fe. simpl. now rewrite <- app_assoc.
    + simpl. rewrite Fp. reflexivity.
    + simpl. rewrite Hh. reflexivity.
  - exists (yielded [complete_event full] w). repeat split.
Qed.

Lemma resolve_and_stream_drain options w r w1 :
  TestPlanService.resolve_and_stream impl drain options w = (r, w1) ->
  exists own pl,
    emitted w1 = emitted w ++ own ++ pl /\
    pulled w1 = pulled w ++ pl /\
    Forall (fun e => is_progress e = true) own /\
    test_plan_history (db w1) = test_plan_history (db w) /\
    now w1 = now w /\
    ((provider_calls w1 = provider_calls w /\ pl = [] /\ exists e, r = Throw e) \/
     (provider_calls w1 = S (provider_calls w) /\
      exists ticket template temperature config class,
        impl (provider options) = Some class /\
        let g := class config
                       {| ctx_ticket := ticket;
                          ctx_template := rt_content template;
                          ctx_temperature := temperature |} in
        pl = fst g /\ own = stage_events ticket options /\
        r = match snd g with
            | Returned _ => Ok (ticket, template, content_text pl)
            | Raised e => Throw e
            end)).
Proof.
  unfold TestPlanService.resolve_and_stream. rewrite bind_yield_drain. intro H.
  set (e5 := mkEvent progress "Fetching JIRA ticket..." (Some (5 # 1))) in *.
  apply bind_inv in H.
  destruct H as [(t & wa & Ht & H) | [(e & Ht & ->) | (Ht & ->)]];
    destruct (silent_getTicket _ _ _ _ Ht) as [(Fe & Fp & Fc & _ & Fn) N];
    pose proof (history_getTicket _ _ _ _ Ht) as Hh; simpl in *;
    [| exists [e5], []; rewrite !app_nil_r; repeat split;
       [ assumption | assumption | repeat constructor | assumption | assumption
       | left; repeat split; eauto ]
     | congruence ].
  destruct t as [ticket|];
    [| inversion H; subst; exists [e5], []; rewrite !app_nil_r; repeat split;
       [ assumption | assumption | repeat constructor | assumption | assumption
       | left; repeat split; eauto ] ].
  rewrite !bind_yield_drain in H.
  set (e15 := mkEvent progress _ (Some (15 # 1))) in *.
  set (e20 := mkEvent progress "Loading template..." _) in *.
  apply bind_inv in H.
  destruct H as [(tpl & wb & Htp & H) | [(e & Htp & ->) | (Htp & ->)]];
    destruct (silent_getTemplate _ _ _ _ Htp) as [(Fe2 & Fp2 & Fc2 & _ & Fn2) N2];
    pose proof (history_getTemplate _ _ _ _ Htp) as Hh2; simpl in *;
    [| exists [e5; e15; e20], []; rewrite !app_nil_r; repeat split;
       [ rewrite Fe2, Fe, <- !app_assoc; reflexivity | congruence
       | repeat constructor | congruence | congruence
       | left; repeat split; [congruence | eauto] ]
     | congruence ].
  rewrite bind_yield_drain in H.
  set (e25 := mkEvent progress "Template loaded" _) in *.
  apply bind_inv in H.
  destruct H as [(temp & wc & Htm & H) | [(e & Htm & ->) | (Htm & ->)]];
    destruct (silent_getTemperature _ _ _ _ Htm) as [(Fe3 & Fp3 & Fc3 & _ & Fn3) N3];
    pose proof (history_getTemperature _ _ _ _ Htm) as Hh3; simpl in *;
    [| exists [e5; e15; e20; e25], []; rewrite !app_nil_r; repeat split;
       [ rewrite Fe3, Fe2, Fe, <- !app_assoc; reflexivity | congruence
       | repeat constructor | congruence | congruence
       | left; repeat split; [congruence | eauto] ]
     | congruence ].
  rewrite bind_yield_drain in H.
  set (e30 := mkEvent progress _ (Some (30 # 1))) in *.
  apply bind_inv in H.
  destruct H as [(llm & wd & Hl & H) | [(e & Hl & ->) | (Hl & ->)]];
    destruct (silent_createLLMProvider _ _ _ _ _ Hl) as [(Fe4 & Fp4 & Fc4 & _ & Fn4) N4];
    pose proof (history_createLLMProvider _ _ _ _ _ Hl) as Hh4; simpl in *;
    [| exists [e5; e15; e20; e25; e30], []; rewrite !app_nil_r; repeat split;
       [ rewrite Fe4, Fe3, Fe2, Fe, <- !app_assoc; reflexivity | congruence
       | repeat constructor | congruence | congruence
       | left; repeat split; [congruence | eauto] ]
     | congruence ].
  assert (Hcfg : exists config class,
             impl (provider options) = Some class /\ llm = class config).
  { unfold createLLMProvider in Hl. apply bind_inv in Hl.
    destruct Hl as [(cfg & wx & _ & Hl) | [(e & _ & Hl) | (_ & Hl)]];
      [| discriminate | discriminate].
    destruct (impl (provider options)) as [class|]; [| discriminate].
    inversion Hl; subst. eauto. }
  destruct Hcfg as (config & class & Hclass & ->).
  unfold bind in H. rewrite for_await_drain in H.
  set (g := class config _) in *.
  exists (stage_events ticket options), (fst g). 
  assert (Hw : w1 = relayed (fst g) (set_provider_calls (S (provider_calls wd)) wd)
               /\ r = match snd g with
                      | Returned _ => Ok (ticket, tpl, content_text (fst g))
                      | Raised e => Throw e
                      end).
  { destruct (snd g); inversion H; subst; split; reflexivity. }
  clear H. destruct Hw as [-> ->]. simpl. repeat split.
  - rewrite Fe4, Fe3, Fe2, Fe. unfold stage_events. rewrite <- !app_assoc. reflexivity.
  - congruence.
  - apply stage_events_progress.
  - congruence.
  - congruence.
  - right. split; [congruence |].
    exists ticket, tpl, temp, config, class. repeat split. exact Hclass.
Qed.

End Drained.

(** ** Runs against an arbitrary consumer *)

Section Consumers.
Context {P : Platform}.
Variable impl : Scope.
Variable stop : GenerationStreamEvent -> bool.

Lemma consumer_view_app {A B} (a : A) (r : outcome B) evs1 evs2 :
  consumer_view stop (Ok a) evs1 -> consumer_view stop r evs2 ->
  consumer_view stop r (evs1 ++ evs2).
Proof.
  simpl. intros H1 H2. destruct r; simpl in *.
  - apply Forall_app; auto.
  - apply Forall_app; auto.
  - destruct H2 as (pre & t & -> & Ht & Hpre).
    exists (evs1 ++ pre), t. rewrite app_assoc. repeat split; auto.
    apply Forall_app; auto.
Qed.

Lemma disciplined_silent {A} (m : M A) : silent m -> disciplined stop m.
Proof.
  intros Hm w r w' H. destruct (Hm _ _ _ H) as [(Fe & _) N].
  exists []. rewrite app_nil_r. split; [exact Fe |].
  destruct r; simpl; [constructor | constructor | congruence].
Qed.

Lemma disciplined_yield e : disciplined stop (yield_ stop e).
Proof.
  intros w r w'. unfold yield_. destruct (stop e) eqn:He; intro H;
    inversion H; subst; exists [e]; (split; [reflexivity |]); simpl.
  - exists [], e. repeat split; auto.
  - repeat constructor. exact He.
Qed.

Lemma disciplined_modify (f : world -> world) :
  (forall w, emitted (f w) = emitted w) -> disciplined stop (modify f).
Proof.
  intros Hf w r w' H. inversion H; subst. exists [].
  rewrite app_nil_r, Hf. split; [reflexivity | constructor].
Qed.

Lemma disciplined_bind {A B} (m : M A) (k : A -> M B) :
  disciplined stop m -> (forall a, disciplined stop (k a)) ->
  disciplined stop (bind m k).
Proof.
  intros Hm Hk w r w' H.
  destruct (bind_inv _ _ _ _ _ H) as [(a & w1 & H1 & H2) | [(e & H1 & ->) | (H1 & ->)]].
  - destruct (Hm _ _ _ H1) as (evs1 & E1 & V1).
    destruct (Hk a _ _ _ H2) as (evs2 & E2 & V2).
    exists (evs1 ++ evs2). split; [now rewrite E2, E1, app_assoc |].
    eapply consumer_view_app; eauto.
  - exact (Hm _ _ _ H1).
  - exact (Hm _ _ _ H1).
Qed.

Lemma disciplined_try_catch {A} (m : M A) (h : exn -> M A) :
  disciplined stop m -> (forall e, disciplined stop (h e)) ->
  disciplined stop (try_catch m h).
Proof.
  intros Hm Hh w r w' H.
  destruct (try_catch_inv _ _ _ _ _ H) as [(e & w1 & H1 & H2) | (H1 & _)].
  - destruct (Hm _ _ _ H1) as (evs1 & E1 & V1).
    destruct (Hh e _ _ _ H2) as (evs2 & E2 & V2).
    exists (evs1 ++ evs2). split; [now rewrite E2, E1, app_assoc |].
    eapply (consumer_view_app tt); eauto.
  - exact (Hm _ _ _ H1).
Qed.

Lemma disciplined_relay events :
  forall full, disciplined stop (TestPlanService.relay stop events full).
Proof.
  induction events as [|e l IH]; intro full; cbn [TestPlanService.relay].
  - apply disciplined_silent, silent_ret.
  - apply disciplined_bind; [apply disciplined_modify; reflexivity | intros _].
    apply disciplined_bind; [apply disciplined_yield | intros _]. apply IH.
Qed.

Lemma disciplined_for_await g : disciplined stop (TestPlanService.for_await stop g).
Proof.
  unfold TestPlanService.for_await.
  apply disciplined_bind; [apply disciplined_modify; reflexivity | intros _].
  apply disciplined_bind; [apply disciplined_relay | intro].
  destruct (snd g); apply disciplined_silent; [apply silent_ret | apply silent_throw].
Qed.

Ltac disciplined_tac :=
  repeat first
    [ apply disciplined_yield
    | apply disciplined_for_await
    | apply disciplined_silent;
      first [ apply silent_getTicket | apply silent_getTemplate
            | apply silent_getTemperature | apply silent_createLLMProvider
            | apply silent_saveToHistory | apply silent_ret | apply silent_throw ]
    | apply disciplined_bind; [| intro]
    | match goal with
      | |- disciplined _ (match ?x with _ => _ end) => destruct x
      end ].

Lemma disciplined_resolve_and_stream options :
  disciplined stop (TestPlanService.resolve_and_stream impl stop options).
Proof. unfold TestPlanService.resolve_and_stream. disciplined_tac. Qed.

Lemma disciplined_persist_and_complete options x :
  disciplined stop (TestPlanService.persist_and_complete stop options x).
Proof.
  unfold TestPlanService.persist_and_complete. destruct x as [[ticket template] full].
  disciplined_tac.
Qed.

Lemma disciplined_on_error e : disciplined stop (TestPlanService.on_error stop e).
Proof. unfold TestPlanService.on_error. disciplined_tac. Qed.

Lemma disciplined_generate options :
  disciplined stop (TestPlanService.generate impl stop options).
Proof.
  unfold TestPlanService.generate.
  apply disciplined_try_catch; [| apply disciplined_on_error].
  apply disciplined_bind;
    [apply disciplined_resolve_and_stream | apply disciplined_persist_and_complete].
Qed.

(** A run that returns has ended on a terminal event of the orchestrator. *)
Lemma generate_returns_on_terminal options w w' :
  TestPlanService.generate impl stop options w = (Ok tt, w') ->
  exists pre t, emitted w' = emitted w ++ pre ++ [t] /\ is_terminal t = true.
Proof.
  unfold TestPlanService.generate. intro H.
  destruct (try_catch_inv _ _ _ _ _ H) as [(e & w1 & H1 & H2) | (H1 & _)].
  - assert (D : disciplined stop
                  (bind (TestPlanService.resolve_and_stream impl stop options)
                        (TestPlanService.persist_and_complete stop options))).
    { apply disciplined_bind;
        [apply disciplined_resolve_and_stream | apply disciplined_persist_and_complete]. }
    destruct (D _ _ _ H1) as (evs & E & _).
    unfold TestPlanService.on_error in H2.
    destruct (instanceof_Error e && has_status e); [discriminate |].
    unfold yield_ in H2. destruct (stop _); inversion H2; subst.
    exists evs, (error_event e "Generation failed"). simpl.
    split; [now rewrite E, app_assoc | reflexivity].
  - destruct (bind_inv _ _ _ _ _ H1) as [(x & w1 & Hx & Hp) | [(e & _ & He) | (_ & He)]];
      [| discriminate | discriminate].
    destruct (disciplined_resolve_and_stream _ _ _ _ Hx) as (evs & E & _).
    destruct x as [[ticket template] full].
    unfold TestPlanService.persist_and_complete in Hp.
    destruct (bind_inv _ _ _ _ _ Hp) as [(u & w2 & Hs & Hy) | [(e & _ & He) | (_ & He)]];
      [| discriminate | discriminate].
    assert (D : disciplined stop
              (if Str.truthy full
               then bind (yield_ stop saving_event)
                      (fun _ => bind (TestPlanService.saveToHistory
                         {| hd_ticketKey := key ticket;
                            hd_templateId := rt_id template;
                            hd_provider := provider_string (provider options);
                            hd_content := full |}) (fun _ => ret tt))
               else ret tt)).
    { disciplined_tac. }
    destruct (D _ _ _ Hs) as (evs2 & E2 & _).
    unfold yield_ in Hy. destruct (stop _); inversion Hy; subst.
    exists (evs ++ evs2), (complete_event full). simpl.
    split; [now rewrite E2, E, !app_assoc | reflexivity].
Qed.

(** An exception that leaves [generate] carries a [status]. *)
Lemma generate_throws_status options w e w' :
  TestPlanService.generate impl stop options w = (Throw e, w') ->
  instanceof_Error e = true /\ has_status e = true.
Proof.
  unfold TestPlanService.generate. intro H.
  destruct (try_catch_inv _ _ _ _ _ H) as [(e0 & w1 & H1 & H2) | (_ & N)];
    [| now destruct (N e)].
  unfold TestPlanService.on_error in H2.
  destruct (instanceof_Error e0 && has_status e0) eqn:Hs.
  - inversion H2; subst. now apply andb_true_iff in Hs.
  - unfold yield_ in H2. destruct (stop _); discriminate.
Qed.

End Consumers.

Lemma snoc_inv {A} (pre : list A) (t : A) (l : list A) (d : A) :
  pre ++ [t] = l -> pre = removelast l /\ t = last l d.
Proof. intros <-. now rewrite removelast_last, last_last. Qed.

(** * The orchestrator's stream *)

Section Orchestrator.
Context {P : Platform}.
Variable impl : Scope.

Lemma on_error_drain e w :
  TestPlanService.on_error drain e w =
  if instanceof_Error e && has_status e
  then (Throw e, w)
  else (Ok tt, yielded [error_event e "Generation failed"] w).
Proof.
  unfold TestPlanService.on_error. destruct (instanceof_Error e && has_status e); reflexivity.
Qed.

(** A drained run is its first phase followed by persistence, or by the
    [catch] clause. *)
Lemma generate_drain_cases options w :
  TestPlanService.generate impl drain options w =
  match TestPlanService.resolve_and_stream impl drain options w with
  | (Ok x, w1) => TestPlanService.persist_and_complete drain options x w1
  | (Throw e, w1) => TestPlanService.on_error drain e w1
  | (Stopped, w1) => (Stopped, w1)
  end.
Proof.
  unfold TestPlanService.generate, try_catch, bind.
  destruct (TestPlanService.resolve_and_stream impl drain options w) as [[x|e|] w1];
    try reflexivity.
  destruct x as [[ticket template] full].
  destruct (persist_and_complete_drain options ticket template full w1) as (w' & -> & _).
  reflexivity.
Qed.

(** The loop over a provider's generator and what follows it, drained. *)
Lemma stream_and_persist_drain options ticket template gen w :
  stream_and_persist drain options ticket template gen w =
  match snd gen with
  | Returned _ =>
      TestPlanService.persist_and_complete drain options
        (ticket, template, content_text (fst gen))
        (relayed (fst gen) (set_provider_calls (S (provider_calls w)) w))
  | Raised e =>
      (Throw e, relayed (fst gen) (set_provider_calls (S (provider_calls w)) w))
  end.
Proof.
  unfold stream_and_persist, bind. rewrite for_await_drain.
  destruct (snd gen); reflexivity.
Qed.

(** [stream_and_persist] is what the [try] block of [generate] does from
    the point where the factory has returned a provider. *)
Lemma try_block_with_provider options w ticket wa template wb temperature wc llm wd :
  TestPlanService.getTicket (ticketId options)
    (yielded [mkEvent progress "Fetching JIRA ticket..." (Some (5 # 1))] w)
    = (Ok (Some ticket), wa) ->
  TestPlanService.getTemplate (templateId options)
    (yielded [mkEvent progress ("Ticket found: " ++ summary ticket) (Some (15 # 1));
              mkEvent progress "Loading template..." (Some (20 # 1))] wa)
    = (Ok template, wb) ->
  TestPlanService.getTemperature (provider options)
    (yielded [mkEvent progress "Template loaded" (Some (25 # 1))] wb)
    = (Ok temperature, wc) ->
  createLLMProvider impl (provider options)
    (yielded [mkEvent progress
                ("Generating with " ++ provider_string (provider options) ++ "...")
                (Some (30 # 1))] wc)
    = (Ok llm, wd) ->
  (x <- TestPlanService.resolve_and_stream impl drain options ;;
   TestPlanService.persist_and_complete drain options x) w
  = stream_and_persist drain options ticket template
      (llm {| ctx_ticket := ticket; ctx_template := rt_content template;
              ctx_temperature := temperature |}) wd.
Proof.
  intros Ht Htp Htm Hl.
  unfold TestPlanService.resolve_and_stream, stream_and_persist.
  unfold bind at 1. rewrite bind_yield_drain, (bind_ok _ _ _ _ _ Ht).
  rewrite !bind_yield_drain.
  assert (Hy : forall e1 e2 w0, yielded [e2] (yielded [e1] w0) = yielded [e1; e2] w0).
  { intros e1 e2 w0. unfold yielded, set_emitted. simpl. rewrite <- app_assoc. reflexivity. }
  rewrite Hy, (bind_ok _ _ _ _ _ Htp), bind_yield_drain, (bind_ok _ _ _ _ _ Htm),
    bind_yield_drain, (bind_ok _ _ _ _ _ Hl).
  unfold bind, ret.
  destruct (TestPlanService.for_await drain _ wd) as [[full| e |] w1]; reflexivity.
Qed.

End Orchestrator.

(** ** The run in the scope of the factory's module *)

Section IndexScope.
Context {P : Platform}.

(** Steps 1 to 4 never hand over a provider: they end in an exception,
    after progress events only, with no provider called and the History
    table as it was. *)
Lemma index_scope_resolve options w r w1 :
  TestPlanService.resolve_and_stream index_scope drain options w = (r, w1) ->
  exists e own,
    r = Throw e /\
    emitted w1 = emitted w ++ own /\
    Forall (fun ev => is_progress ev = true) own /\
    pulled w1 = pulled w /\
    provider_calls w1 = provider_calls w /\
    test_plan_history (db w1) = test_plan_history (db w).
Proof.
  intro H.
  destruct (resolve_and_stream_drain index_scope _ _ _ _ H)
    as (own & pl & E & Ep & Hown & Hh & _ & Hcase).
  destruct Hcase as [(Hc & -> & e & ->) | (_ & _ & _ & _ & _ & class & Hclass & _)];
    [| discriminate Hclass].
  rewrite app_nil_r in *. exists e, own. repeat split; assumption.
Qed.

(** A drained run throws the error of steps 1 to 4 when it carries a
    [status], and reports it in an [error] event otherwise. *)
Lemma index_scope_generate options w :
  exists e own w1,
    emitted w1 = emitted w ++ own /\
    Forall (fun ev => is_progress ev = true) own /\
    pulled w1 = pulled w /\
    provider_calls w1 = provider_calls w /\
    test_plan_history (db w1) = test_plan_history (db w) /\
    TestPlanService.generate index_scope drain options w =
      if instanceof_Error e && has_status e
      then (Throw e, w1)
      else (Ok tt, yielded [error_event e "Generation failed"] w1).
Proof.
  destruct (TestPlanService.resolve_and_stream index_scope drain options w)
    as [r w1] eqn:H.
  destruct (index_scope_resolve _ _ _ _ H) as (e & own & -> & E & Hown & Hp & Hc & Hh).
  exists e, own, w1. repeat split; try assumption.
  rewrite generate_drain_cases, H. apply on_error_drain.
Qed.

Lemma progress_not_complete own t pre :
  Forall (fun ev => is_progress ev = true) own ->
  own = pre ++ [t] -> is_complete t = false.
Proof.
  intros Hown ->. apply Forall_app in Hown. destruct Hown as [_ Ht].
  inversion Ht as [|x l Hx _]; subst.
  unfold is_progress, is_complete in *. destruct (ev_type t); simpl in *; congruence.
Qed.

(** No drained run emits a [complete] event or writes a History row. *)
Lemma index_scope_never_completes options w :
  let '(r, w') := TestPlanService.generate index_scope drain options w in
  test_plan_history (db w') = test_plan_history (db w) /\
  pulled w' = pulled w /\
  provider_calls w' = provider_calls w /\
  forall pre t, emitted w' = emitted w ++ pre ++ [t] -> is_complete t = false.
Proof.
  destruct (index_scope_generate options w) as (e & own & w1 & E & Hown & Hp & Hc & Hh & ->).
  destruct (instanceof_Error e && has_status e); simpl;
    (split; [exact Hh | split; [exact Hp | split; [exact Hc |]]]);
    intros pre t Ht; rewrite E in Ht.
  - apply app_inv_head in Ht. exact (progress_not_complete own t pre Hown Ht).
  - rewrite <- app_assoc in Ht. apply app_inv_head in Ht.
    apply (snoc_inv _ _ _ t) in Ht. rewrite last_last in Ht. destruct Ht as [_ Ht].
    rewrite <- Ht. unfold error_event. reflexivity.
Qed.

(** C1, as the code has it.  Consumed to its end, [generate] either returns,
    and then it has emitted exactly one terminal event, the last event of
    the run, or throws an error that carries a [status], and then it has
    emitted no terminal event.  Consumed by a caller that leaves at the
    first terminal event, a run shows exactly one terminal event, its last,
    unless [generate] throws such an error, in which case it shows none. *)
Theorem generate_terminal_events options w :
  (let '(r, w') := TestPlanService.generate index_scope drain options w in
   exists evs,
     emitted w' = emitted w ++ evs /\
     match r with
     | Ok _ => exists pre t, evs = pre ++ [t] /\ is_terminal t = true /\
                             count_terminal pre = 0%nat
     | Throw e => instanceof_Error e = true /\ has_status e = true /\
                  count_terminal evs = 0%nat
     | Stopped => False
     end) /\
  (let '(r, w') := TestPlanService.generate index_scope until_terminal options w in
   exists evs,
     emitted w' = emitted w ++ evs /\
     match r with
     | Stopped => exists pre t, evs = pre ++ [t] /\ is_terminal t = true /\
                                count_terminal pre = 0%nat
     | Throw e => instanceof_Error e = true /\ has_status e = true /\
                  count_terminal evs = 0%nat
     | Ok _ => False
     end).
Proof.
  split.
  - destruct (index_scope_generate options w)
      as (e & own & w1 & E & Hown & _ & _ & _ & ->).
    destruct (instanceof_Error e && has_status e) eqn:Hs.
    + exists own. split; [exact E |]. apply andb_true_iff in Hs.
      destruct Hs as [Hi Hs]. repeat split; auto.
      apply count_terminal_progress. exact Hown.
    + exists (own ++ [error_event e "Generation failed"]).
      split; [simpl; now rewrite E, app_assoc |].
      exists own, (error_event e "Generation failed").
      repeat split. apply count_terminal_progress. exact Hown.
  - destruct (TestPlanService.generate index_scope until_terminal options w)
      as [r w'] eqn:H.
    destruct (disciplined_generate index_scope until_terminal options _ _ _ H)
      as (evs & E & V).
    exists evs. split; [exact E |].
    destruct r as [[]|e|]; simpl in V.
    + destruct (generate_returns_on_terminal index_scope _ _ _ _ H)
        as (pre & t & E' & Ht).
      rewrite E in E'. apply app_inv_head in E'. subst evs.
      apply Forall_app in V. destruct V as [_ V]. inversion V; subst.
      unfold until_terminal in *. congruence.
    + destruct (generate_throws_status index_scope _ _ _ _ _ H) as [Hi Hs].
      repeat split; auto. apply count_terminal_none. exact V.
    + destruct V as (pre & t & -> & Ht & Hpre).
      exists pre, t. repeat split; auto. apply count_terminal_none. exact Hpre.
Qed.


(** C4.  When the text is not empty and the write to the History table
    fails (a statement of [saveToHistory] throws, or the insertion is
    refused), [saveToHistory] answers 0 without throwing, and step 5 of
    [generate] still returns normally: it emits the "Saving" progress event
    and the [complete] event with the whole text and progress 100, and
    nothing else; no [error] event, no exception, no row. *)
Theorem persistence_failure_is_swallowed options ticket template text w :
  Str.truthy text = true ->
  write_succeeds (history_data options ticket template text) w = false ->
  (exists w0,
     TestPlanService.saveToHistory (history_data options ticket template text) w
       = (Ok 0, w0) /\
     test_plan_history (db w0) = test_plan_history (db w)) /\
  exists w',
    TestPlanService.persist_and_complete drain options (ticket, template, text) w
      = (Ok tt, w') /\
    emitted w' = emitted w ++
                 [saving_event; mkEvent complete text (Some (100 # 1))] /\
    test_plan_history (db w') = test_plan_history (db w).
Proof.
  intros Ht Hw. split.
  - destruct (saveToHistory_spec (history_data options ticket template text) w)
      as (n & w0 & Hrun & _ & Hn & Hh).
    rewrite Hw in Hh. rewrite (Hn Hw) in Hrun. exists w0. split; assumption.
  - destruct (persist_and_complete_drain options ticket template text w)
      as (w' & Hrun & E & _ & Hh).
    rewrite Ht in E. rewrite Ht, Hw in Hh. exists w'. repeat split; assumption.
Qed.

End IndexScope.

(** ** Sample runs of the orchestrator *)

Ltac run_sample :=
  match goal with
  | |- context [@TestPlanService.generate ?p ?i ?s ?o ?w] =>
      let v := eval vm_compute in (@TestPlanService.generate p i s o w) in
      change (@TestPlanService.generate p i s o w) with v; cbv beta iota
  end.

(** C1, as the specification states it, fails: with an empty template
    store the run ends by the NotFound error for the template, thrown to
    the caller after three progress events, and no terminal event has been
    emitted. *)
Lemma generate_terminal_events_counterexample :
  ~ @one_terminal_event_last Sample.platform index_scope drain
      (Sample.options groq) SampleStores.no_template.
Proof.
  unfold one_terminal_event_last; run_sample.
  intros (pre & t & E & Ht & Hc); simpl in E; symmetry in E.
  destruct (snoc_inv _ _ _ saving_event E) as [-> ->]; vm_compute in Ht; discriminate.
Qed.

Lemma persistence_failure_is_swallowed_witness :
  exists w',
    TestPlanService.persist_and_complete drain
      (Sample.options ollama)
      (Sample.ticket, {| rt_id := 1; rt_content := "1. Scope"; rt_name := "Plan" |},
       "Hello world"%string)
      (Sample.world_with [Sample.template_row 1 true 50] (SampleRuns.fault_at 0))
    = (Ok tt, w') /\
    emitted w' = [saving_event; complete_event "Hello world"] /\
    test_plan_history (db w') = [].
Proof.
  destruct (persistence_failure_is_swallowed
              (Sample.options ollama) Sample.ticket
              {| rt_id := 1; rt_content := "1. Scope"; rt_name := "Plan" |}
              "Hello world"%string
              (Sample.world_with [Sample.template_row 1 true 50] (SampleRuns.fault_at 0))
              eq_refl eq_refl)
    as (_ & w' & Hrun & Hev & Hh).
  exists w'. split; [exact Hrun | split; [exact Hev | exact Hh]].
Defined.

(** ** Template resolution and provider failures *)

Section Resolution.
Context {P : Platform}.

(** With no template in the store, the private [getTemplate] throws
    NotFound, whatever the database does. *)
Lemma getTemplate_empty_store w :
  templates (db w) = [] ->
  exists w', TestPlanService.getTemplate None w
             = (Throw (Errors.NotFound "Template"), w').
Proof.
  intro H.
  unfold TestPlanService.getTemplate, TemplateService.getDefaultTemplate,
    TemplateService.getAllTemplates, try_catch, db_query, bind, io_step,
    get_world, ret, throw.
  destruct w as [d dk t u fs jf em pu pc]; simpl in *.
  destruct d; simpl in H; subst.
  destruct fs as [|[e|] [|[e'|] fs]]; simpl; eauto.
Qed.

(** With templates in the store and none marked default, the private
    [getTemplate] resolves to the first template of the listing
    ([getAllTemplates()[0]]), when its two queries run. *)
Lemma getTemplate_first_listed w r :
  find tr_is_default (templates (db w)) = None ->
  hd_error (TemplateService.order_rows (templates (db w))) = Some r ->
  fault_free 2 (faults w) = true ->
  exists w',
    TestPlanService.getTemplate None w
      = (Ok (TestPlanService.resolved (TemplateService.rowToTemplate r)), w') /\
    db w' = db w.
Proof.
  intros Hd Hr Hf.
  unfold TestPlanService.getTemplate, TemplateService.getDefaultTemplate,
    TemplateService.getAllTemplates, try_catch, db_query, bind, io_step,
    get_world, ret, throw.
  destruct w as [d dk t u fs jf em pu pc]; simpl in *.
  destruct fs as [|[e|] [|[e'|] fs]]; simpl in *; try discriminate;
    rewrite Hd; simpl;
    destruct (TemplateService.order_rows (templates d)); simpl in *;
    try discriminate; inversion Hr; subst; eauto.
Qed.

Variable impl : Scope.

(** C5, as the code has it.  When no template id is supplied and the
    template store is empty, a drained run makes no provider call and
    writes no History row; once the ticket is resolved it ends, right after
    the "Loading template" progress event, by throwing the NotFound error
    for the template. *)
Theorem empty_store_is_not_found options w :
  templateId options = None ->
  templates (db w) = [] ->
  let '(r, w') := TestPlanService.generate impl drain options w in
  provider_calls w' = provider_calls w /\
  pulled w' = pulled w /\
  test_plan_history (db w') = test_plan_history (db w) /\
  match TestPlanService.getTicket (ticketId options)
          (yielded [mkEvent progress "Fetching JIRA ticket..." (Some (5 # 1))] w)
  with
  | (Ok (Some ticket), _) =>
      r = Throw (Errors.NotFound "Template") /\
      emitted w' = emitted w ++ firstn 3 (stage_events ticket options)
  | _ => forall x, r <> Ok x \/ exists e, In e (skipn (List.length (emitted w)) (emitted w'))
                                         /\ is_error e = true
  end.
Proof.
  intros Hid Hempty. rewrite generate_drain_cases.
  unfold TestPlanService.resolve_and_stream. rewrite bind_yield_drain, Hid.
  set (w0 := yielded _ w).
  destruct (TestPlanService.getTicket (ticketId options) w0) as [rt wa] eqn:Ht.
  destruct (silent_getTicket _ _ _ _ Ht) as [(Fe & Fp & Fc & _ & _) N].
  pose proof (history_getTicket _ _ _ _ Ht) as Hh.
  pose proof (templates_getTicket _ _ _ _ Ht) as Htp.
  subst w0; simpl in *.
  destruct rt as [[ticket|]|e|]; [| | | congruence].
  - rewrite (bind_ok _ _ _ _ _ Ht), !bind_yield_drain.
    destruct (getTemplate_empty_store
                (yielded [mkEvent progress "Loading template..." (Some (20 # 1))]
                   (yielded [mkEvent progress ("Ticket found: " ++ summary ticket)%string
                                     (Some (15 # 1))] wa)))
      as (wb & Hb); [simpl; congruence |].
    pose proof (silent_getTemplate _ _ _ _ Hb) as [(Fe2 & Fp2 & Fc2 & _ & _) _].
    pose proof (history_getTemplate _ _ _ _ Hb) as Hh2.
    rewrite (bind_throw _ _ _ _ _ Hb), on_error_drain. simpl in *.
    repeat split; try congruence.
    rewrite Fe2, Fe, <- !app_assoc. reflexivity.
  - rewrite (bind_ok _ _ _ _ _ Ht). unfold throw. rewrite on_error_drain. simpl.
    repeat split; try congruence. intros x. left. discriminate.
  - rewrite (bind_throw _ _ _ _ _ Ht), on_error_drain.
    destruct (instanceof_Error e && has_status e); simpl.
    + repeat split; try congruence. intros x. left. discriminate.
    + repeat split; try congruence. intros x. right.
      exists (error_event e "Generation failed"). split; [| reflexivity].
      rewrite Fe, <- app_assoc, skipn_app, skipn_all, Nat.sub_diag. simpl. auto.
Qed.


End Resolution.

(** C5, as the specification states it, fails: with one template in the
    store and none marked default, the run takes that template and goes on
    to the provider factory; it does not end by the NotFound error. *)
Lemma empty_store_is_not_found_counterexample :
  ~ @not_found_without_default Sample.platform index_scope
      (Sample.options ollama) SampleStores.no_default.
Proof.
  unfold not_found_without_default. intro H.
  specialize (H eq_refl eq_refl). revert H. run_sample.
  intros [_ (m & Hm)]. discriminate Hm.
Qed.

Lemma empty_store_is_not_found_witness :
  let '(r, w') :=
    @TestPlanService.generate Sample.platform index_scope drain
      (Sample.options ollama) SampleStores.no_template in
  r = Throw (Errors.NotFound "Template") /\ provider_calls w' = 0%nat.
Proof.
  pose proof (@empty_store_is_not_found Sample.platform index_scope
                (Sample.options ollama) SampleStores.no_template
                eq_refl eq_refl) as H.
  revert H. run_sample.
  match goal with
  | |- context [@TestPlanService.getTicket ?p ?t ?w] =>
      let v := eval vm_compute in (@TestPlanService.getTicket p t w) in
      change (@TestPlanService.getTicket p t w) with v; cbv beta iota
  end.
  intros (Hc & _ & _ & Hr & _). split; [exact Hr | exact Hc].
Defined.


(** * The template store *)

Section HoareRules.
Context {A B : Type}.
Variables (pre fail : Database -> Prop).

Lemma hoare_ret (a : A) (post : A -> Database -> Prop) :
  (forall d, pre d -> post a d) -> hoare pre (ret a) post fail.
Proof. intros H w r w' E Hp. inversion E; subst. auto. Qed.

Lemma hoare_throw (e : exn) (post : A -> Database -> Prop) :
  (forall d, pre d -> fail d) -> hoare pre (@throw A e) post fail.
Proof. intros H w r w' E Hp. inversion E; subst. auto. Qed.

Lemma hoare_bind (m : M A) (k : A -> M B) (mid : A -> Database -> Prop)
      (post : B -> Database -> Prop) :
  hoare pre m mid fail -> (forall a, hoare (mid a) (k a) post fail) ->
  hoare pre (bind m k) post fail.
Proof.
  intros Hm Hk w r w' E Hp.
  destruct (bind_inv _ _ _ _ _ E) as [(a & w1 & H1 & H2) | [(e & H1 & ->) | (H1 & ->)]].
  - exact (Hk a _ _ _ H2 (Hm _ _ _ H1 Hp)).
  - exact (Hm _ _ _ H1 Hp).
  - exact (Hm _ _ _ H1 Hp).
Qed.

Lemma hoare_try_catch (m : M A) (h : exn -> M A) (mid : Database -> Prop)
      (post : A -> Database -> Prop) :
  hoare pre m post mid -> (forall d, mid d -> fail d) ->
  (forall e, hoare mid (h e) post fail) ->
  hoare pre (try_catch m h) post fail.
Proof.
  intros Hm Hmid Hh w r w' E Hp.
  destruct (try_catch_inv _ _ _ _ _ E) as [(e & w1 & H1 & H2) | (H1 & N)].
  - exact (Hh e _ _ _ H2 (Hm _ _ _ H1 Hp)).
  - specialize (Hm _ _ _ H1 Hp). destruct r; auto.
Qed.

Lemma hoare_db_query (q : Database -> A) (post : A -> Database -> Prop) :
  (forall d, pre d -> post (q d) d) -> (forall d, pre d -> fail d) ->
  hoare pre (db_query q) post fail.
Proof.
  intros Hq Hf w r w'. unfold db_query, bind, io_step, get_world, ret.
  destruct (faults w) as [|[e|] fs]; intros E Hp; inversion E; subst; simpl; auto.
Qed.

Lemma hoare_db_exec (f : Database -> Z -> A * Database) (post : A -> Database -> Prop) :
  (forall d t, pre d -> post (fst (f d t)) (snd (f d t))) ->
  (forall d, pre d -> fail d) ->
  hoare pre (db_exec f) post fail.
Proof.
  intros Hq Hf w r w'. unfold db_exec, bind, io_step, get_world, modify, ret.
  destruct (faults w) as [|[e|] fs]; simpl.
  - specialize (Hq (db w) (now w)). destruct (f (db w) (now w)) as [a d]; simpl in *.
    intros E Hp; inversion E; subst; simpl; auto.
  - intros E Hp; inversion E; subst; simpl; auto.
  - specialize (Hq (db w) (now w)). destruct (f (db w) (now w)) as [a d]; simpl in *.
    intros E Hp; inversion E; subst; simpl; auto.
Qed.

End HoareRules.

Lemma hoare_keeps {A} (I : Database -> Prop) (m : M A) :
  keeps (fun d => d) m -> maintains I m.
Proof.
  intros Hk w r w' E Hp. rewrite (Hk _ _ _ E). destruct r; exact Hp.
Qed.

Lemma hoare_weaken {A} (pre pre' fail fail' : Database -> Prop) (m : M A)
      (post post' : A -> Database -> Prop) :
  hoare pre m post fail ->
  (forall d, pre' d -> pre d) -> (forall a d, post a d -> post' a d) ->
  (forall d, fail d -> fail' d) ->
  hoare pre' m post' fail'.
Proof.
  intros H Hpre Hpost Hfail w r w' E Hp.
  specialize (H _ _ _ E (Hpre _ Hp)). destruct r; auto.
Qed.

Lemma maintains_bind {A B} I (m : M A) (k : A -> M B) :
  maintains I m -> (forall a, maintains I (k a)) -> maintains I (bind m k).
Proof. intros Hm Hk. eapply hoare_bind; [exact Hm | exact Hk]. Qed.

Lemma maintains_try_catch {A} I (m : M A) (h : exn -> M A) :
  maintains I m -> (forall e, maintains I (h e)) -> maintains I (try_catch m h).
Proof. intros Hm Hh. eapply hoare_try_catch; [exact Hm | auto | exact Hh]. Qed.

Lemma maintains_ret {A} I (a : A) : maintains I (ret a).
Proof. apply hoare_ret. auto. Qed.

Lemma maintains_throw {A} I (e : exn) : maintains I (@throw A e).
Proof. apply hoare_throw. auto. Qed.

Create HintDb maintains.

Ltac maintains_tac :=
  repeat first
    [ apply maintains_ret | apply maintains_throw
    | solve [auto with maintains]
    | solve [apply hoare_keeps; keeps_tac]
    | apply maintains_bind; [| intro]
    | apply maintains_try_catch; [| intro]
    | match goal with
      | |- maintains _ (match ?x with _ => _ end) => destruct x
      end ].

(** ** The table operations *)

Section TemplateTable.

Lemma count_default_app l1 l2 :
  count_default (l1 ++ l2) = (count_default l1 + count_default l2)%nat.
Proof. unfold count_default. now rewrite filter_app, length_app. Qed.

Lemma count_default_zero l :
  count_default l = 0%nat <-> Forall (fun r => tr_is_default r = false) l.
Proof.
  unfold count_default. induction l as [|r l IH]; simpl.
  - split; [constructor | reflexivity].
  - destruct (tr_is_default r) eqn:Hr; simpl.
    + split; [discriminate | intro H; inversion H; congruence].
    + rewrite IH. split; [now constructor | intro H; now inversion H].
Qed.

Lemma unset_defaults_ids d t :
  map tr_id (templates (snd (TemplateService.unset_defaults d t))) = map tr_id (templates d).
Proof.
  simpl. rewrite map_map. apply map_ext. intro r. now destruct (tr_is_default r).
Qed.

Lemma unset_defaults_none d t :
  count_default (templates (snd (TemplateService.unset_defaults d t))) = 0%nat.
Proof.
  simpl. apply count_default_zero. apply Forall_map. apply Forall_forall.
  intros r _. now destruct (tr_is_default r) eqn:Hr.
Qed.

Lemma Forall_map_id (f : TemplateRow -> TemplateRow) (s : Z) l :
  (forall r, tr_id (f r) = tr_id r) ->
  Forall (fun r => tr_id r <= s) l -> Forall (fun r => tr_id r <= s) (map f l).
Proof.
  intros Hf H. apply Forall_map. eapply Forall_impl; [| exact H].
  intros r Hr. simpl. now rewrite Hf.
Qed.

Lemma unset_defaults_wf d t :
  ids_wf d -> no_default (snd (TemplateService.unset_defaults d t)).
Proof.
  intros [Hn Hs]. split; [split |].
  - rewrite unset_defaults_ids. exact Hn.
  - simpl. apply Forall_map_id; [| exact Hs]. intro r. now destruct (tr_is_default r).
  - apply unset_defaults_none.
Qed.

Lemma insert_row_wf data d t :
  ids_wf d -> ids_wf (snd (TemplateService.insert_row data d t)).
Proof.
  intros [Hn Hs]. split; simpl.
  - rewrite map_app. simpl. apply NoDup_app.
    { exact Hn. }
    { repeat constructor. intros []. }
    intros x Hx [<- | []].
    apply in_map_iff in Hx. destruct Hx as (r & Hr & Hin).
    rewrite Forall_forall in Hs. specialize (Hs r Hin). lia.
  - apply Forall_app. split.
    + eapply Forall_impl; [| exact Hs]. intros r Hr. simpl in *. lia.
    + repeat constructor. simpl. lia.
Qed.

Lemma insert_row_count data d t :
  count_default (templates (snd (TemplateService.insert_row data d t))) =
  (count_default (templates d) + if ctd_isDefault data then 1 else 0)%nat.
Proof.
  simpl. rewrite count_default_app. f_equal.
  unfold count_default. simpl. now destruct (ctd_isDefault data).
Qed.

Lemma update_row_ids id data d t :
  map tr_id (templates (snd (TemplateService.update_row id data d t))) =
  map tr_id (templates d).
Proof.
  simpl. rewrite map_map. apply map_ext. intro r.
  now destruct (TemplateService.has_id id r).
Qed.

Lemma update_row_wf id data d t :
  ids_wf d -> ids_wf (snd (TemplateService.update_row id data d t)).
Proof.
  intros [Hn Hs]. split.
  - rewrite update_row_ids. exact Hn.
  - simpl. apply Forall_map_id; [| exact Hs]. intro r.
    now destruct (TemplateService.has_id id r).
Qed.

(** An update that does not set the flag cannot add a default. *)
Lemma update_row_count_le id data t l :
  upd_isDefault data <> Some true ->
  (count_default
     (map (fun r => if TemplateService.has_id id r
                    then TemplateService.apply_update data t r else r) l)
   <= count_default l)%nat.
Proof.
  intro H. unfold count_default. induction l as [|r l IH]; simpl; [lia |].
  destruct (TemplateService.has_id id r); simpl.
  - destruct (upd_isDefault data) as [[|]|]; [congruence | |];
      destruct (tr_is_default r); simpl; lia.
  - destruct (tr_is_default r); simpl; lia.
Qed.

(** Setting the flag on the row [id] of a table without default. *)
Lemma update_row_sets id data t l :
  upd_isDefault data = Some true ->
  NoDup (map tr_id l) ->
  count_default l = 0%nat ->
  let l' := map (fun r => if TemplateService.has_id id r
                          then TemplateService.apply_update data t r else r) l in
  (count_default l' <= 1)%nat /\
  ((exists r, In r l /\ tr_id r = id) -> sole_default id l').
Proof.
  intros Hd Hn H0. rewrite count_default_zero in H0.
  induction l as [|r l IH]; simpl.
  - split; [unfold count_default; simpl; lia | intros (r & [] & _)].
  - inversion Hn as [|? ? Hnotin Hn']; subst. inversion H0 as [|? ? Hr H0']; subst.
    destruct (IH Hn' H0') as [IHle IHsole]. clear IH.
    cbv zeta in *. change (TemplateService.has_id id r) with (tr_id r =? id).
    destruct (tr_id r =? id) eqn:Hid.
    + apply Z.eqb_eq in Hid.
      assert (Hrest : map (fun r0 => if TemplateService.has_id id r0
                                     then TemplateService.apply_update data t r0 else r0) l
                      = l).
      { rewrite <- (map_id l) at 2. apply map_ext_in. intros x Hx.
        unfold TemplateService.has_id. destruct (tr_id x =? id) eqn:Hx'; [| reflexivity].
        apply Z.eqb_eq in Hx'. exfalso. apply Hnotin. apply in_map_iff.
        exists x. split; [congruence | exact Hx]. }
      rewrite Hrest.
      assert (Hc : count_default (TemplateService.apply_update data t r :: l) = 1%nat).
      { unfold count_default. simpl. rewrite Hd. simpl.
        apply count_default_zero in H0'. unfold count_default in H0'. now rewrite H0'. }
      split; [lia |]. intros _. split; [exact Hc | split].
      * exists (TemplateService.apply_update data t r). simpl. rewrite Hd. auto.
      * intros x [<- | Hx] Hne; [simpl in Hne; congruence |].
        rewrite Forall_forall in H0'. auto.
    + apply Z.eqb_neq in Hid.
      assert (Hc : forall l0, count_default (r :: l0) = count_default l0).
      { intro l0. unfold count_default. simpl. now rewrite Hr. }
      rewrite Hc. split; [exact IHle |].
      intros (x & [<- | Hx] & Hxid); [congruence |].
      destruct IHsole as (S1 & (row & Hin & Hrid & Hrd) & S3); [eauto |].
      split; [rewrite Hc; exact S1 | split].
      * exists row. simpl. auto.
      * intros y [<- | Hy] Hne; [exact Hr | auto].
Qed.

Lemma NoDup_map_filter (p : TemplateRow -> bool) l :
  NoDup (map tr_id l) -> NoDup (map tr_id (filter p l)).
Proof.
  induction l as [|r l IH]; simpl; intro H; [constructor |].
  inversion H as [|? ? Hnotin Hn]; subst.
  destruct (p r); simpl; [constructor |]; auto.
  intro Hin. apply Hnotin. apply in_map_iff in Hin. destruct Hin as (x & Hx & Hf).
  apply filter_In in Hf. apply in_map_iff. exists x. tauto.
Qed.

Lemma count_default_filter (p : TemplateRow -> bool) l :
  (count_default (filter p l) <= count_default l)%nat.
Proof.
  unfold count_default. induction l as [|r l IH]; simpl; [lia |].
  destruct (p r); simpl; destruct (tr_is_default r); simpl; lia.
Qed.

Lemma delete_row_ok id d t :
  template_inv d -> template_inv (snd (TemplateService.delete_row id d t)).
Proof.
  intros [[Hn Hs] Hc]. unfold TemplateService.delete_row.
  assert (H : template_inv
                (set_templates
                   (filter (fun r => negb (TemplateService.has_id id r)) (templates d))
                   (templates_seq d) d)).
  { split; [split |]; simpl.
    - now apply NoDup_map_filter.
    - apply Forall_forall. intros r Hr. apply filter_In in Hr.
      rewrite Forall_forall in Hs. apply Hs. tauto.
    - unfold at_most_one_default in *. simpl.
      pose proof (count_default_filter
                    (fun r => negb (TemplateService.has_id id r)) (templates d)). lia. }
  destruct (filter (TemplateService.has_id id) (templates d)); exact H.
Qed.

End TemplateTable.


(** ** The service operations *)

Section TemplateOperations.
Context {P : Platform}.

Lemma keeps_store_getTemplate {X} (g : Database -> X) id :
  keeps g (TemplateService.getTemplate id).
Proof. unfold TemplateService.getTemplate. keeps_tac. Qed.

Lemma keeps_getCount {X} (g : Database -> X) : keeps g TemplateService.getCount.
Proof. unfold TemplateService.getCount. keeps_tac. Qed.

Lemma keeps_shouldBeDefault {X} (g : Database -> X) :
  keeps g TemplateService.shouldBeDefault.
Proof.
  unfold TemplateService.shouldBeDefault, TemplateService.hasTemplates.
  pose proof (keeps_getCount g). keeps_tac.
Qed.

Lemma keeps_extractText {X} (g : Database -> X) buf :
  keeps g (TemplateService.extractText buf).
Proof. unfold TemplateService.extractText. keeps_tac. Qed.

Lemma keeps_writeFileSync {X} (g : Database -> X) path :
  keeps g (TemplateService.writeFileSync path).
Proof.
  unfold TemplateService.writeFileSync. keeps_tac. apply keeps_modify. reflexivity.
Qed.

Lemma keeps_existsSync {X} (g : Database -> X) path :
  keeps g (TemplateService.existsSync path).
Proof. unfold TemplateService.existsSync. keeps_tac. Qed.

Lemma keeps_unlinkSync {X} (g : Database -> X) path :
  keeps g (TemplateService.unlinkSync path).
Proof.
  unfold TemplateService.unlinkSync. keeps_tac. apply keeps_modify. reflexivity.
Qed.

Hint Resolve keeps_store_getTemplate keeps_getCount keeps_shouldBeDefault
     keeps_extractText keeps_writeFileSync keeps_existsSync keeps_unlinkSync : keeps.

Lemma maintains_insertTemplate data :
  maintains template_inv (TemplateService.insertTemplate data).
Proof.
  unfold TemplateService.insertTemplate.
  apply maintains_try_catch; [| intro; apply maintains_throw].
  destruct (ctd_isDefault data) eqn:Hd.
  - apply hoare_bind with (mid := fun _ => no_default).
    + apply hoare_db_exec; [| auto].
      intros d t [Hw _]. now apply unset_defaults_wf.
    + intros _. apply hoare_db_exec.
      * intros d t [Hw H0]. split; [now apply insert_row_wf |].
        unfold at_most_one_default. rewrite insert_row_count, H0, Hd. lia.
      * intros d [Hw H0]. split; [exact Hw | unfold at_most_one_default; lia].
  - apply maintains_bind; [apply maintains_ret | intros _].
    apply hoare_db_exec; [| auto].
    intros d t [Hw Hc]. split; [now apply insert_row_wf |].
    unfold at_most_one_default in *. rewrite insert_row_count, Hd. lia.
Qed.

Hint Resolve maintains_insertTemplate : maintains.

Lemma maintains_createTemplate dir file name :
  maintains template_inv (TemplateService.createTemplate dir file name).
Proof. unfold TemplateService.createTemplate. maintains_tac. Qed.

Lemma maintains_rethrow_not_found {A} I what e :
  maintains I (@TemplateService.rethrow_not_found A what e).
Proof. unfold TemplateService.rethrow_not_found. maintains_tac. Qed.

Lemma update_after_unset id data :
  upd_isDefault data = Some true ->
  hoare no_default (db_exec (TemplateService.update_row id data))
        (fun _ => template_inv) template_inv.
Proof.
  intro Hd. apply hoare_db_exec.
  - intros d t [Hw H0]. split; [now apply update_row_wf |].
    destruct Hw as [Hn _].
    exact (proj1 (update_row_sets id data t (templates d) Hd Hn H0)).
  - intros d [Hw H0]. split; [exact Hw | unfold at_most_one_default; lia].
Qed.

Lemma update_without_set id data :
  upd_isDefault data <> Some true ->
  maintains template_inv (db_exec (TemplateService.update_row id data)).
Proof.
  intro Hd. apply hoare_db_exec; [| auto].
  intros d t [Hw Hc]. split; [now apply update_row_wf |].
  unfold at_most_one_default in *. simpl.
  pose proof (update_row_count_le id data t (templates d) Hd). lia.
Qed.

Lemma maintains_updateTemplate id data :
  maintains template_inv (TemplateService.updateTemplate id data).
Proof.
  unfold TemplateService.updateTemplate.
  apply maintains_try_catch; [| intro; apply maintains_rethrow_not_found].
  apply maintains_bind; [apply hoare_keeps; auto with keeps | intros [t|]];
    [| apply maintains_throw].
  destruct (upd_isDefault data) as [[|]|] eqn:Hd.
  - apply hoare_bind with (mid := fun _ => no_default).
    + apply hoare_db_exec; [| auto]. intros d t0 [Hw _]. now apply unset_defaults_wf.
    + intros _.
      assert (H : hoare no_default
                    (bind (db_exec (TemplateService.update_row id data))
                          (fun _ => TemplateService.getTemplate id))
                    (fun _ => template_inv) template_inv).
      { apply hoare_bind with (mid := fun _ => template_inv).
        - now apply update_after_unset.
        - intros _. apply hoare_keeps. auto with keeps. }
      destruct (upd_name data); exact H.
  - apply maintains_bind; [apply maintains_ret | intros _].
    assert (H : maintains template_inv
                  (bind (db_exec (TemplateService.update_row id data))
                        (fun _ => TemplateService.getTemplate id))).
    { apply maintains_bind; [apply update_without_set; congruence | intros _].
      apply hoare_keeps. auto with keeps. }
    destruct (upd_name data); exact H.
  - apply maintains_bind; [apply maintains_ret | intros _].
    destruct (upd_name data); [| apply maintains_throw].
    apply maintains_bind; [apply update_without_set; congruence | intros _].
    apply hoare_keeps. auto with keeps.
Qed.

Lemma maintains_deleteTemplate id :
  maintains template_inv (TemplateService.deleteTemplate id).
Proof.
  unfold TemplateService.deleteTemplate.
  apply maintains_try_catch; [| intro; apply maintains_rethrow_not_found].
  apply maintains_bind; [apply hoare_keeps; auto with keeps | intros [t|]];
    [| apply maintains_throw].
  apply maintains_bind; [apply hoare_keeps; auto with keeps | intros present].
  apply maintains_bind;
    [destruct present; [apply hoare_keeps; auto with keeps | apply maintains_ret] | intros _].
  apply maintains_bind.
  - apply hoare_db_exec; [| auto]. intros d t0 H. now apply delete_row_ok.
  - intro changes. destruct (changes =? 0); [apply maintains_throw | apply maintains_ret].
Qed.

(** A [setAsDefault] that returns has made [id] the one default. *)
Lemma setAsDefault_sole id :
  hoare ids_wf (TemplateService.setAsDefault id)
        (fun _ d => sole_default id (templates d)) (fun _ => True).
Proof.
  unfold TemplateService.setAsDefault, TemplateService.updateTemplate. simpl.
  apply hoare_try_catch with (mid := fun _ => True); [| auto |].
  2:{ intro e. unfold TemplateService.rethrow_not_found.
      destruct (_ && _); apply hoare_throw; auto. }
  apply hoare_bind
    with (mid := fun a d => ids_wf d /\
                            (a <> None -> In id (map tr_id (templates d)))).
  - unfold TemplateService.getTemplate.
    apply hoare_try_catch with (mid := ids_wf); [| auto |].
    + apply hoare_bind
        with (mid := fun row d => ids_wf d /\
                                  row = find (TemplateService.has_id id) (templates d)).
      * apply hoare_db_query; auto.
      * intros [r|]; apply hoare_ret; intros d [Hw Hr]; (split; [exact Hw |]);
          [| congruence].
        intros _. symmetry in Hr. apply find_some in Hr. destruct Hr as [Hin Hid].
        apply in_map_iff. exists r. split; [| exact Hin].
        unfold TemplateService.has_id in Hid. now apply Z.eqb_eq.
    + intro e. apply hoare_ret. intros d Hw. split; [exact Hw | congruence].
  - intros [t|]; [| apply hoare_throw; auto].
    apply hoare_bind
      with (mid := fun _ d => no_default d /\ In id (map tr_id (templates d))).
    + apply hoare_db_exec; [| auto].
      intros d t0 [Hw Hin]. split; [now apply unset_defaults_wf |].
      rewrite unset_defaults_ids. apply Hin. discriminate.
    + intros _.
      apply hoare_bind with (mid := fun _ d => sole_default id (templates d)).
      * apply hoare_db_exec; [| auto].
        intros d t0 [[[Hn _] H0] Hin].
        apply (update_row_sets id {| upd_name := None; upd_isDefault := Some true |}
                 t0 (templates d) eq_refl Hn H0).
        apply in_map_iff in Hin. destruct Hin as (r & Hr & Hin). eauto.
      * intros _.
        apply hoare_weaken
          with (pre := fun d => sole_default id (templates d))
               (post := fun _ d => sole_default id (templates d))
               (fail := fun d => sole_default id (templates d)); auto.
        apply (hoare_keeps (fun d => sole_default id (templates d))).
        auto with keeps.
Qed.

(** C6.  The template table keeps its invariant (primary-key identifiers,
    at most one row with is-default set) through create, update,
    set-as-default and delete, however the operation ends; and a
    set-as-default call that returns leaves exactly one default row, the
    one named, every other row having its flag cleared. *)
Theorem template_default_invariant dir w :
  template_inv (db w) ->
  (forall file name,
      template_inv (db (snd (TemplateService.createTemplate dir file name w)))) /\
  (forall id data,
      template_inv (db (snd (TemplateService.updateTemplate id data w)))) /\
  (forall id, template_inv (db (snd (TemplateService.setAsDefault id w)))) /\
  (forall id, template_inv (db (snd (TemplateService.deleteTemplate id w)))) /\
  (forall id t w',
      TemplateService.setAsDefault id w = (Ok t, w') ->
      sole_default id (templates (db w'))).
Proof.
  intro H.
  assert (M : forall A (m : M A), maintains template_inv m -> template_inv (db (snd (m w)))).
  { intros A m Hm. destruct (m w) as [r w'] eqn:E. specialize (Hm _ _ _ E H).
    simpl. destruct r; exact Hm. }
  split; [| split; [| split; [| split]]].
  - intros. apply M, maintains_createTemplate.
  - intros. apply M, maintains_updateTemplate.
  - intros. apply M, maintains_updateTemplate.
  - intros. apply M, maintains_deleteTemplate.
  - intros id t w' E. exact (setAsDefault_sole id _ _ _ E (proj1 H)).
Qed.

End TemplateOperations.

(** ** Uploads *)

Section Uploads.
Context {P : Platform}.

Lemma writeFileSync_ok path w u w1 :
  TemplateService.writeFileSync path w = (Ok u, w1) ->
  db w1 = db w /\ faults w1 = tl (faults w).
Proof.
  unfold TemplateService.writeFileSync, bind, io_step, modify.
  destruct (faults w) as [|[e|] fs] eqn:Hf; intro H; inversion H; subst; simpl;
    rewrite ?Hf; auto.
Qed.

(** When its count query runs, [shouldBeDefault] answers whether the table
    is empty. *)
Lemma shouldBeDefault_counts w :
  nth 0 (faults w) None = None ->
  exists w1,
    TemplateService.shouldBeDefault w
      = (Ok (match templates (db w) with [] => true | _ => false end), w1) /\
    db w1 = db w /\ faults w1 = tl (faults w).
Proof.
  unfold TemplateService.shouldBeDefault, TemplateService.hasTemplates,
    TemplateService.getCount, try_catch, db_query, bind, io_step, get_world, ret.
  destruct (faults w) as [|[e|] fs] eqn:Hf; simpl; intro H; [| discriminate |];
    eexists;
    (split; [destruct (templates (db w)); reflexivity
            | split; [reflexivity | simpl; rewrite ?Hf; reflexivity]]).
Qed.

Lemma insertTemplate_ok data w id w' :
  TemplateService.insertTemplate data w = (Ok id, w') ->
  id = templates_seq (db w) + 1 /\
  templates (db w') =
    (if ctd_isDefault data
     then map (fun r => if tr_is_default r
                        then TemplateService.clear_default (now w) r else r)
              (templates (db w))
     else templates (db w)) ++
    [{| tr_id := id; tr_name := ctd_name data; tr_filename := ctd_filename data;
        tr_filepath := ctd_filepath data; tr_content := ctd_content data;
        tr_is_default := ctd_isDefault data;
        tr_created_at := now w; tr_updated_at := now w |}].
Proof.
  unfold TemplateService.insertTemplate, try_catch, db_exec, bind, io_step,
    get_world, modify, ret, throw.
  destruct w as [d dk t u fs jf em pu pc]; simpl.
  destruct (ctd_isDefault data); simpl.
  - destruct fs as [|[e|] [|[e'|] fs]]; simpl; intro H; inversion H; subst; simpl; auto.
  - destruct fs as [|[e|] fs]; simpl; intro H; inversion H; subst; simpl; auto.
Qed.

(** C10.  An upload that succeeds, and whose count query has run, appends
    one row to the template table and leaves every row that was there as it
    was; the new row is marked default exactly when the table was empty. *)
Theorem first_upload_becomes_default dir file name w t w' :
  TemplateService.createTemplate dir file name w = (Ok t, w') ->
  nth 1 (faults w) None = None ->
  exists row,
    templates (db w') = templates (db w) ++ [row] /\
    tr_id row = templates_seq (db w) + 1 /\
    (tr_is_default row = true <-> templates (db w) = []).
Proof.
  intros H Hcount. unfold TemplateService.createTemplate in H.
  apply try_catch_inv in H. destruct H as [(e & w1 & _ & H) | (H & _)].
  { destruct (_ && _); discriminate. }
  destruct file as [f|]; [| discriminate].
  destruct (buffer f) as [buf|]; [| discriminate].
  destruct (negb _); [discriminate |].
  destruct (_ <? _); [discriminate |].
  apply bind_inv in H. destruct H as [(text & w1 & H1 & H) | [(e & _ & ?) | (_ & ?)]];
    [| discriminate | discriminate].
  assert (w1 = w) as ->.
  { unfold TemplateService.extractText in H1. destruct (pdf_text buf); inversion H1; auto. }
  apply bind_inv in H. destruct H as [(w0 & w2 & H2 & H) | [(e & _ & ?) | (_ & ?)]];
    [| discriminate | discriminate].
  inversion H2; subst w0 w2. clear H2.
  apply bind_inv in H. destruct H as [(u & w2 & H2 & H) | [(e & _ & ?) | (_ & ?)]];
    [| discriminate | discriminate].
  destruct (writeFileSync_ok _ _ _ _ H2) as [Hd2 Hf2].
  destruct (shouldBeDefault_counts w2) as (w3 & H3 & Hd3 & _).
  { rewrite Hf2. destruct (faults w) as [|x fs]; [reflexivity | exact Hcount]. }
  rewrite (bind_ok _ _ _ _ _ H3) in H.
  apply bind_inv in H. destruct H as [(id & w4 & H4 & H) | [(e & _ & ?) | (_ & ?)]];
    [| discriminate | discriminate].
  destruct (insertTemplate_ok _ _ _ _ H4) as [Hid Ht]. simpl in Ht.
  pose proof (keeps_store_getTemplate (fun d => d) id _ _ _ H) as Hk.
  rewrite Hk, Ht, Hid, Hd3, Hd2.
  destruct (templates (db w)) as [|r0 l]; simpl; eexists;
    (split; [reflexivity | split; [reflexivity | simpl; split; congruence]]).
Qed.

End Uploads.

(** C10, as the specification states it, fails: when the count query of an
    upload throws, [getCount] answers 0, so an upload into a store that has
    a default template is marked default and the earlier default is
    cleared. *)
Lemma first_upload_becomes_default_counterexample :
  ~ @default_iff_store_empty Sample.platform "templates"
      (Some SampleTemplates.upload) None SampleTemplates.count_fails.
Proof.
  unfold default_iff_store_empty. intro H.
  destruct (@TemplateService.createTemplate Sample.platform "templates"
              (Some SampleTemplates.upload) None SampleTemplates.count_fails)
    as [r w'] eqn:E.
  assert (Hr : exists t, r = Ok t).
  { pose proof E as E'. vm_compute in E'. inversion E'. eauto. }
  destruct Hr as [t ->].
  assert (Hd : map tr_is_default (templates (db w')) = [false; true]).
  { replace w' with (snd (@TemplateService.createTemplate Sample.platform "templates"
                            (Some SampleTemplates.upload) None
                            SampleTemplates.count_fails))
      by (rewrite E; reflexivity).
    vm_compute. reflexivity. }
  destruct (H t w' eq_refl) as (row & Hrows & _).
  rewrite Hrows in Hd. simpl in Hd. discriminate Hd.
Qed.

(** * The ticket cache *)

Section TicketCache.
Context {P : Platform}.

(** With the key cached and the statement running, [saveTicket] returns. *)
Lemma saveTicket_runs ticket w :
  fault_free 1 (faults w) = true ->
  exists w',
    JiraTicketService.saveTicket ticket w = (Ok tt, w') /\
    db w' = snd (JiraTicketService.upsert ticket (db w) (now w)).
Proof.
  intro Hf.
  unfold JiraTicketService.saveTicket, try_catch, db_exec, bind, io_step,
    get_world, modify, ret.
  destruct (faults w) as [|[e|] fs]; simpl in *; [| discriminate |];
    destruct (JiraTicketService.upsert ticket (db w) (now w)) as [[] d];
    eexists; split; reflexivity.
Qed.

Lemma saveTicket_ok ticket w w' :
  JiraTicketService.saveTicket ticket w = (Ok tt, w') ->
  db w' = snd (JiraTicketService.upsert ticket (db w) (now w)).
Proof.
  unfold JiraTicketService.saveTicket, try_catch, db_exec, bind, io_step,
    get_world, modify, ret, throw.
  destruct (faults w) as [|[e|] fs]; simpl; [| discriminate |];
    destruct (JiraTicketService.upsert ticket (db w) (now w)) as [[] d];
    intro H; inversion H; subst; reflexivity.
Qed.

(** C7.  A save of a ticket whose key is already cached rewrites the row of
    that key in place: the row keeps its [id] and its key, takes every
    other column from the ticket and the current time as [fetched_at]; the
    other rows and the number of rows are unchanged. *)
Theorem refetch_overwrites_in_place ticket w w' :
  existsb (JiraTicketService.has_key (key ticket)) (jira_tickets (db w)) = true ->
  JiraTicketService.saveTicket ticket w = (Ok tt, w') ->
  List.length (jira_tickets (db w')) = List.length (jira_tickets (db w)) /\
  Forall2
    (fun old new =>
       if JiraTicketService.has_key (key ticket) old then
         jt_id new = jt_id old /\
         jt_ticket_key new = jt_ticket_key old /\
         jt_summary new = summary ticket /\
         jt_description new = description ticket /\
         jt_priority new = priority ticket /\
         jt_status new = status ticket /\
         jt_assignee new = assignee ticket /\
         jt_labels new = JSON_stringify_labels (labels ticket) /\
         jt_acceptance_criteria new = acceptanceCriteria ticket /\
         jt_attachments new = JSON_stringify_attachments (attachments ticket) /\
         jt_raw_data new = JSON_stringify_ticket ticket /\
         jt_fetched_at new = now w
       else new = old)
    (jira_tickets (db w)) (jira_tickets (db w')).
Proof.
  intros Hin Hrun. rewrite (saveTicket_ok _ _ _ Hrun).
  unfold JiraTicketService.upsert. rewrite Hin. simpl.
  split; [apply length_map |].
  clear. induction (jira_tickets (db w)) as [|r l IH]; simpl; constructor; [| exact IH].
  destruct (JiraTicketService.has_key (key ticket) r) eqn:Hk; [| reflexivity].
  simpl. unfold JiraTicketService.has_key in Hk. apply String.eqb_eq in Hk.
  repeat split; congruence.
Qed.

End TicketCache.

(** * The local provider's stream *)

Section SplitLines.

Lemma split_lines_app a b :
  Str.split_lines (a ++ b)%string =
  let '(la, ra) := Str.split_lines a in
  let '(lb, rb) := Str.split_lines (ra ++ b)%string in
  (la ++ lb, rb).
Proof.
  induction a as [|c a IH]; simpl.
  - destruct (Str.split_lines b); reflexivity.
  - rewrite IH. destruct (Str.split_lines a) as [la ra].
    destruct (Ascii.eqb c Str.newline) eqn:Hc.
    + destruct (Str.split_lines (ra ++ b)%string) as [lb rb]. reflexivity.
    + destruct la as [|l la']; simpl.
      * destruct (Str.split_lines (ra ++ b)%string) as [lb rb]. rewrite Hc.
        destruct lb; reflexivity.
      * destruct (Str.split_lines (ra ++ b)%string) as [lb rb]. reflexivity.
Qed.

(** What [split_lines] leaves pending holds no complete line. *)
Lemma split_lines_rest s :
  complete_lines (snd (Str.split_lines s)) = [].
Proof.
  unfold complete_lines. induction s as [|c s IH]; simpl; [reflexivity |].
  destruct (Str.split_lines s) as [ls rest]. simpl in IH.
  destruct (Ascii.eqb c Str.newline) eqn:Hc; simpl; [exact IH |].
  destruct ls as [|l ls']; simpl; [| exact IH].
  rewrite Hc. destruct (Str.split_lines rest) as [ls2 r2]. simpl in IH. now subst.
Qed.

Lemma split_lines_no_line s :
  complete_lines s = [] -> Str.split_lines s = ([], s).
Proof.
  unfold complete_lines. induction s as [|c s IH]; simpl; [reflexivity |].
  destruct (Str.split_lines s) as [ls rest].
  destruct (Ascii.eqb c Str.newline); simpl; [discriminate |].
  destruct ls; simpl; [| discriminate].
  intros _. simpl in IH. specialize (IH eq_refl). now inversion IH.
Qed.

Lemma complete_lines_app a b :
  complete_lines (a ++ b)%string =
  complete_lines a ++ complete_lines (snd (Str.split_lines a) ++ b)%string.
Proof.
  unfold complete_lines. rewrite split_lines_app.
  destruct (Str.split_lines a) as [la ra]. simpl.
  destruct (Str.split_lines (ra ++ b)%string). reflexivity.
Qed.

Lemma split_lines_app_rest a b :
  snd (Str.split_lines (a ++ b)%string) =
  snd (Str.split_lines (snd (Str.split_lines a) ++ b)%string).
Proof.
  rewrite split_lines_app. destruct (Str.split_lines a) as [la ra]. simpl.
  destruct (Str.split_lines (ra ++ b)%string). reflexivity.
Qed.

End SplitLines.

Section OllamaLines.
Context {P : Platform}.

Lemma upto_flag_app a b :
  upto_flag (a ++ b) = if existsb flagged a then upto_flag a else a ++ upto_flag b.
Proof.
  induction a as [|x a IH]; simpl; [reflexivity |].
  destruct (flagged x); simpl; [reflexivity | rewrite IH].
  destruct (existsb flagged a); reflexivity.
Qed.

Lemma upto_flag_first l1 ln l2 :
  existsb flagged l1 = false -> flagged ln = true ->
  upto_flag (l1 ++ ln :: l2) = l1 ++ [ln].
Proof.
  intros H1 Hn. rewrite upto_flag_app, H1. simpl. now rewrite Hn.
Qed.

Lemma upto_flag_none l : existsb flagged l = false -> upto_flag l = l.
Proof.
  induction l as [|x l IH]; simpl; [reflexivity |].
  destruct (flagged x); simpl; [discriminate | intro H; now rewrite IH].
Qed.

Lemma lines_text_app a b : lines_text (a ++ b) = (lines_text a ++ lines_text b)%string.
Proof.
  unfold lines_text. induction a as [|x a IH]; simpl; [reflexivity |].
  now rewrite IH, append_assoc.
Qed.

Lemma fragment_events_app a b full :
  fragment_events (a ++ b) full =
  fragment_events a full ++ fragment_events b (full ++ lines_text a)%string.
Proof.
  revert full. induction a as [|x a IH]; intro full; simpl.
  - unfold lines_text. simpl. now rewrite append_empty_r.
  - unfold lines_text, fragment_text. simpl. fold (lines_text a).
    destruct (fragment_of x) as [f|]; simpl.
    + destruct (Str.truthy (response f)) eqn:Ht.
      * simpl. now rewrite IH, append_assoc.
      * apply truthy_false in Ht. rewrite Ht. simpl. apply IH.
    + apply IH.
Qed.

(** The accumulated text is the text of the [content] events. *)
Lemma fragment_events_text lines full :
  content_text (fragment_events lines full) = lines_text lines.
Proof.
  revert full. induction lines as [|x l IH]; intro full; simpl; [reflexivity |].
  unfold lines_text, fragment_text. simpl. fold (lines_text l).
  destruct (fragment_of x) as [f|]; simpl.
  - destruct (Str.truthy (response f)) eqn:Ht.
    + rewrite content_text_cons. simpl. now rewrite IH.
    + apply truthy_false in Ht. rewrite Ht. simpl. apply IH.
  - apply IH.
Qed.

Lemma fragment_events_content lines full :
  Forall (fun e => is_terminal e = false) (fragment_events lines full).
Proof.
  revert full. induction lines as [|x l IH]; intro full; simpl; [constructor |].
  destruct (fragment_of x) as [f|]; [| apply IH].
  destruct (Str.truthy (response f)); [constructor; [reflexivity | apply IH] | apply IH].
Qed.

Lemma lines_text_cons x l :
  lines_text (x :: l) = (fragment_text x ++ lines_text l)%string.
Proof. reflexivity. Qed.

Lemma read_lines_cons x l full :
  OllamaProvider.read_lines (x :: l) full =
  match fragment_of x with
  | None => OllamaProvider.read_lines l full
  | Some data_ =>
      let full' :=
        if Str.truthy (response data_) then (full ++ response data_)%string
        else full in
      Gen.bind
        (if Str.truthy (response data_)
         then Gen.yield_
                (mkEvent content (response data_)
                   (Some (if done data_ then 100 # 1
                          else progress_estimate full' (95 # 1))))
         else Gen.ret tt)
        (fun _ =>
           if done data_
           then Gen.bind (Gen.yield_ (mkEvent complete full' (Some (100 # 1))))
                         (fun _ => Gen.ret (full', true))
           else OllamaProvider.read_lines l full')
  end.
Proof. unfold fragment_of. simpl. destruct (Str.blank x); reflexivity. Qed.

(** The inner loop: the lines are acted on up to the first flagged one, at
    which the generator yields [complete] and returns. *)
Lemma read_lines_spec lines : forall full,
  OllamaProvider.read_lines lines full =
  (fragment_events (upto_flag lines) full ++
     (if existsb flagged lines
      then [complete_event (full ++ lines_text (upto_flag lines))%string]
      else []),
   Returned ((full ++ lines_text (upto_flag lines))%string, existsb flagged lines)).
Proof.
  induction lines as [|x l IH]; intro full.
  - simpl. unfold lines_text. simpl. now rewrite append_empty_r.
  - rewrite read_lines_cons. cbn [upto_flag existsb].
    assert (Hfl : flagged x = match fragment_of x with
                              | Some f => done f | None => false end) by reflexivity.
    assert (Htx : fragment_text x = match fragment_of x with
                                    | Some f => response f | None => EmptyString end)
      by reflexivity.
    rewrite Hfl. destruct (fragment_of x) as [f|] eqn:Hf.
    + destruct (done f) eqn:Hd; cbn [orb].
      * cbn [fragment_events]. rewrite Hf, Hd, lines_text_cons, Htx.
        unfold lines_text at 1 2. cbn [map Str.concat fold_right].
        rewrite append_empty_r.
        destruct (Str.truthy (response f)) eqn:Ht; [reflexivity |].
        apply truthy_false in Ht. rewrite Ht, append_empty_r. reflexivity.
      * cbn [fragment_events]. rewrite Hf, Hd, lines_text_cons, Htx.
        destruct (Str.truthy (response f)) eqn:Ht.
        -- cbn zeta. rewrite IH. unfold Gen.bind, Gen.yield_. cbn [app].
           rewrite !append_assoc. reflexivity.
        -- cbn zeta. rewrite IH. apply truthy_false in Ht. rewrite Ht.
           reflexivity.
    + cbn [orb fragment_events]. rewrite Hf, lines_text_cons, Htx, IH. reflexivity.
Qed.

End OllamaLines.

Section OllamaChunks.
Context {P : Platform}.

(** The outer loop: the chunks are reassembled into lines, which are acted
    on up to the first flagged one; no chunk is taken after the one that
    completes that line. *)
Lemma read_chunks_spec cs : forall st,
  OllamaProvider.finished st = false ->
  complete_lines (OllamaProvider.pending st) = [] ->
  let L := complete_lines (OllamaProvider.pending st ++ Str.concat cs)%string in
  let text := (OllamaProvider.fullContent st ++ lines_text (upto_flag L))%string in
  exists st',
    OllamaProvider.read_chunks cs st =
      (fragment_events (upto_flag L) (OllamaProvider.fullContent st) ++
         (if existsb flagged L then [complete_event text] else []),
       Returned st') /\
    OllamaProvider.fullContent st' = text /\
    OllamaProvider.finished st' = existsb flagged L /\
    complete_lines (OllamaProvider.pending st') = [] /\
    (forall k,
        existsb flagged
          (complete_lines (OllamaProvider.pending st ++ Str.concat (firstn k cs))%string)
          = true ->
        (OllamaProvider.chunks_read st' <= OllamaProvider.chunks_read st + k)%nat).
Proof.
  induction cs as [|c cs IH]; intros st Hfin Hpend; cbv zeta.
  - simpl Str.concat. rewrite append_empty_r, Hpend. simpl.
    exists st. unfold lines_text; simpl. rewrite append_empty_r.
    repeat split; auto.
    intros k. rewrite firstn_nil. simpl. rewrite append_empty_r, Hpend. discriminate.
  - simpl Str.concat. rewrite <- append_assoc, complete_lines_app.
    cbn [OllamaProvider.read_chunks].
    pose proof (split_lines_rest (OllamaProvider.pending st ++ c)%string) as Hrest.
    assert (Hl : complete_lines (OllamaProvider.pending st ++ c)%string
                 = fst (Str.split_lines (OllamaProvider.pending st ++ c)%string))
      by reflexivity.
    destruct (Str.split_lines (OllamaProvider.pending st ++ c)%string)
      as [lines rest] eqn:Hs.
    cbn [fst snd] in *. rewrite Hl, read_lines_spec.
    rewrite upto_flag_app, existsb_app.
    destruct (existsb flagged lines) eqn:Hfl; cbn [orb Gen.bind fst snd].
    + eexists. split; [unfold Gen.ret; rewrite app_nil_r; reflexivity |].
      cbn. repeat split; auto.
      intros [|k] Hk.
      * simpl in Hk. rewrite append_empty_r, Hpend in Hk. discriminate.
      * lia.
    + rewrite (upto_flag_none _ Hfl) in *.
      set (st1 := {| OllamaProvider.fullContent :=
                       (OllamaProvider.fullContent st ++ lines_text lines)%string;
                     OllamaProvider.pending := rest;
                     OllamaProvider.finished := false;
                     OllamaProvider.chunks_read := S (OllamaProvider.chunks_read st) |}).
      destruct (IH st1 eq_refl Hrest) as (st' & Hrun & Hfull & Hfin' & Hpend' & Hk).
      cbn [OllamaProvider.fullContent OllamaProvider.pending st1] in *.
      exists st'. rewrite Hrun. split; [| split; [| split; [| split]]].
      * rewrite fragment_events_app, lines_text_app, !append_assoc, !app_nil_r, <- app_assoc.
        reflexivity.
      * rewrite Hfull, lines_text_app, append_assoc. reflexivity.
      * exact Hfin'.
      * exact Hpend'.
      * intros [|k] Hk'.
        -- simpl in Hk'. rewrite append_empty_r, Hpend in Hk'. discriminate.
        -- simpl firstn in Hk'. simpl Str.concat in Hk'.
           rewrite <- append_assoc, complete_lines_app, Hs, Hl in Hk'.
           cbn [fst snd] in Hk'.
           rewrite existsb_app, Hfl in Hk'. simpl in Hk'.
           specialize (Hk k Hk'). simpl in Hk. lia.
Qed.

Variable config : OllamaProviderConfig.

(** The stream of the provider for a response that delivers [cs]. *)
Lemma stream_body_spec cs ending :
  let L := complete_lines (Str.concat cs) in
  exists st,
    OllamaProvider.stream_body (inr {| chunks := cs; failure := ending |}) =
      (ollama_started :: fragment_events (upto_flag L) EmptyString ++
         (if existsb flagged L then [complete_event (lines_text (upto_flag L))]
          else match ending with
               | Some _ => []
               | None => [complete_event (lines_text L)]
               end),
       if existsb flagged L then Returned st
       else match ending with
            | Some e => Raised e
            | None => Returned st
            end) /\
    (forall k, existsb flagged (complete_lines (Str.concat (firstn k cs))) = true ->
               (OllamaProvider.chunks_read st <= k)%nat).
Proof.
  cbv zeta.
  destruct (read_chunks_spec cs OllamaProvider.start eq_refl eq_refl)
    as (st & Hrun & Hfull & Hfin & _ & Hk).
  simpl in Hrun, Hfull, Hfin, Hk.
  exists st. split; [| exact Hk].
  unfold OllamaProvider.stream_body, Gen.bind at 1, Gen.yield_.
  unfold Gen.bind at 1, Gen.ret at 1. cbn [chunks failure].
  unfold Gen.bind at 1. rewrite Hrun, Hfin.
  destruct (existsb flagged (complete_lines (Str.concat cs))) eqn:Hfl.
  - unfold Gen.ret. cbn. rewrite !app_nil_r. reflexivity.
  - rewrite (upto_flag_none _ Hfl) in *.
    destruct ending as [e|]; unfold Gen.throw, Gen.bind, Gen.yield_, Gen.ret; cbn.
    + rewrite !app_nil_r. reflexivity.
    + rewrite Hfull, !app_nil_r. reflexivity.
Qed.

Lemma generateTestPlan_returns api evs st context :
  OllamaProvider.stream_body api = (evs, Returned st) ->
  OllamaProvider.generateTestPlan config api context = (evs, Returned tt).
Proof.
  intro H. unfold OllamaProvider.generateTestPlan, Gen.try_catch, Gen.bind.
  rewrite H. unfold Gen.ret. now rewrite app_nil_r.
Qed.

End OllamaChunks.

Section OllamaStream.
Context {P : Platform}.

(** C8.  For a response of the local daemon that delivers the chunks [cs]:
    at the first line that parses to a fragment with the completion flag,
    the provider has emitted one [content] event per non-empty fragment up
    to that line, emits [complete] with the text accumulated so far and
    returns, whatever follows in the stream, and it takes no chunk after the
    one that completes that line; when the response closes and no line was
    flagged, it emits [complete] with the accumulated text all the same.  In
    that case the [try] block of [generate], looping over this generator,
    relays its events, returns normally and ends on a [complete] event of
    its own with that text, after the "Saving" event when the text is not
    empty; when the text is empty it writes no History row. *)
Theorem ollama_stream_end config context cs ending :
  let api : ollama_upstream := inr {| chunks := cs; failure := ending |} in
  let lines := complete_lines (Str.concat cs) in
  (forall l1 ln l2,
      lines = l1 ++ ln :: l2 -> existsb flagged l1 = false -> flagged ln = true ->
      OllamaProvider.generateTestPlan config api context =
        (ollama_started :: fragment_events (l1 ++ [ln]) EmptyString ++
           [complete_event (lines_text (l1 ++ [ln]))],
         Returned tt) /\
      content_text (fragment_events (l1 ++ [ln]) EmptyString) = lines_text (l1 ++ [ln])) /\
  (forall cs1 cs2,
      cs = cs1 ++ cs2 ->
      existsb flagged (complete_lines (Str.concat cs1)) = true ->
      (chunks_taken (OllamaProvider.stream_body api) <= List.length cs1)%nat) /\
  (existsb flagged lines = false -> ending = None ->
   OllamaProvider.generateTestPlan config api context =
     (ollama_started :: fragment_events lines EmptyString ++
        [complete_event (lines_text lines)],
      Returned tt) /\
   content_text (fragment_events lines EmptyString) = lines_text lines /\
   forall options ticket template w,
     exists w',
       stream_and_persist drain options ticket template
         (OllamaProvider.generateTestPlan config api context) w = (Ok tt, w') /\
       emitted w' =
         emitted w
         ++ (ollama_started :: fragment_events lines EmptyString
               ++ [complete_event (lines_text lines)])
         ++ (if Str.truthy (lines_text lines) then [saving_event] else [])
         ++ [complete_event (lines_text lines)] /\
       (lines_text lines = EmptyString ->
        test_plan_history (db w') = test_plan_history (db w))).
Proof.
  cbv zeta.
  destruct (stream_body_spec cs ending) as (st & Hbody & Hk). cbv zeta in Hbody.
  split; [| split].
  - intros l1 ln l2 Hl H1 Hn.
    assert (Hflag : existsb flagged (complete_lines (Str.concat cs)) = true).
    { rewrite Hl, existsb_app, H1. simpl. now rewrite Hn. }
    rewrite Hflag, Hl, (upto_flag_first _ _ _ H1 Hn) in Hbody.
    split; [| apply fragment_events_text].
    now apply (generateTestPlan_returns config _ _ st).
  - intros cs1 cs2 -> Hflag. unfold chunks_taken. rewrite Hbody.
    assert (Hall : existsb flagged (complete_lines (Str.concat (cs1 ++ cs2))) = true).
    { assert (Hc : Str.concat (cs1 ++ cs2)
                   = (Str.concat cs1 ++ Str.concat cs2)%string).
      { clear. induction cs1 as [|c l IH]; simpl; [reflexivity |].
        now rewrite IH, append_assoc. }
      rewrite Hc, complete_lines_app, existsb_app, Hflag. reflexivity. }
    rewrite Hall. cbn [snd]. apply Hk.
    rewrite firstn_app, firstn_all, Nat.sub_diag. simpl. now rewrite app_nil_r.
  - intros Hflag ->. rewrite Hflag in Hbody.
    assert (Hgen : forall cfg ctx,
               OllamaProvider.generateTestPlan cfg
                 (inr {| chunks := cs; failure := None |}) ctx =
               (ollama_started ::
                  fragment_events (complete_lines (Str.concat cs)) EmptyString ++
                  [complete_event (lines_text (complete_lines (Str.concat cs)))],
                Returned tt)).
    { intros cfg ctx. apply (generateTestPlan_returns cfg _ _ st).
      rewrite Hbody, (upto_flag_none _ Hflag). reflexivity. }
    split; [apply Hgen | split; [apply fragment_events_text |]].
    intros options ticket template w.
    rewrite stream_and_persist_drain, Hgen. cbn [fst snd].
    set (text := lines_text (complete_lines (Str.concat cs))) in *.
    set (evs := ollama_started :: _ ++ [complete_event text]).
    assert (Htext : content_text evs = text).
    { subst evs. rewrite content_text_cons.
      change (is_content ollama_started) with false. cbv iota.
      rewrite content_text_app, fragment_events_text.
      exact (append_empty_r _). }
    rewrite Htext.
    destruct (persist_and_complete_drain options ticket template text
                (relayed evs (set_provider_calls (S (provider_calls w)) w)))
      as (w' & Hrun & E' & _ & Hh').
    exists w'. split; [exact Hrun | split].
    + rewrite E'. unfold relayed, set_emitted, set_pulled, set_provider_calls.
      cbn [emitted]. rewrite <- !app_assoc. reflexivity.
    + intros Hempty. rewrite Hempty in Hh'. cbn [Str.truthy andb] in Hh'.
      rewrite Hh'. reflexivity.
Qed.

End OllamaStream.


(** * The provider classes of the repository *)

Section BuiltIn.
Context {P : Platform}.

(** The cloud provider's loop yields [content] events only, and accumulates
    their text. *)
Lemma groq_relay_spec cs : forall full n,
  exists evs n',
    GroqProvider.relay cs full n = (evs, Returned ((full ++ content_text evs)%string, n')) /\
    Forall (fun e => is_terminal e = false) evs.
Proof.
  induction cs as [|c cs IH]; intros full n; cbn [GroqProvider.relay].
  - exists [], n. unfold Gen.ret, content_text. simpl. rewrite append_empty_r. auto.
  - destruct (Str.truthy match c with Some s => s | None => EmptyString end) eqn:Ht;
      [| apply IH].
    set (text := match c with Some s => s | None => EmptyString end) in *.
    destruct (IH (full ++ text)%string (n + 1)) as (evs & n' & Hrun & Hevs).
    unfold Gen.bind, Gen.yield_. rewrite Hrun.
    set (ev := if (n + 1) mod 5 =? 0 then _ else _).
    assert (Hev : is_content ev = true /\ ev_data ev = text /\ is_terminal ev = false).
    { subst ev. destruct ((n + 1) mod 5 =? 0); repeat split. }
    destruct Hev as (Hc & Hd & Hn).
    exists (ev :: evs), n'. split.
    + cbn [app]. rewrite content_text_cons, Hc, Hd, append_assoc. reflexivity.
    + constructor; [exact Hn | exact Hevs].
Qed.

Lemma groq_handleError_status e :
  match GroqProvider.handleError e with
  | (evs, Raised e') => evs = [] /\ has_status e' = true /\ instanceof_Error e' = true
  | (evs, Returned _) => evs = []
  end.
Proof.
  unfold GroqProvider.handleError.
  destruct e as [m s c | [s|] m | c s m | m |]; simpl; auto.
  - destruct (Str.includes "timeout" m); simpl; auto.
  - destruct s as [|p|p]; simpl; auto.
    destruct (Pos.eq_dec p 401) as [-> | N1]; [simpl; auto |].
    destruct (Pos.eq_dec p 429) as [-> | N2]; [simpl; auto |].
    assert (H : match Z.pos p with
                | 401 => @Gen.throw unit (Errors.Unauthorized "Invalid Groq API key")
                | 429 => Gen.throw (Errors.TooManyRequests
                           "Groq rate limit exceeded. Please try again later.")
                | _ => if 500 <=? Z.pos p
                       then Gen.throw (Errors.BadGateway
                              "Groq service error. Please try again later.")
                       else Gen.throw (Errors.BadGateway m)
                end
                = if 500 <=? Z.pos p
                  then Gen.throw (Errors.BadGateway
                         "Groq service error. Please try again later.")
                  else Gen.throw (Errors.BadGateway m)).
    { do 9 (destruct p as [p|p|]; try reflexivity); congruence. }
    rewrite H. destruct (500 <=? Z.pos p); simpl; auto.
  - destruct (Str.includes "timeout" m); simpl; auto.
  - destruct (Str.includes "timeout" m); simpl; auto.
Qed.

(** How the stream of a provider of the repository ends: on [complete] carrying the
    text of its [content] events, or on [error], the events before being
    none of the two; or by an exception that carries a [status]. *)
Lemma built_in_stream_end g o p config context :
  match provider_class g o p config context with
  | (evs, Returned _) =>
      exists pre t,
        evs = pre ++ [t] /\ Forall (fun e => is_terminal e = false) pre /\
        (t = complete_event (content_text pre) \/ is_error t = true)
  | (evs, Raised e) =>
      Forall (fun e => is_terminal e = false) evs /\
      has_status e = true /\ instanceof_Error e = true
  end.
Proof.
  destruct p; unfold provider_class.
  - unfold GroqProvider.generateTestPlan.
    assert (Hcatch : forall pre e,
               Forall (fun e => is_terminal e = false) pre ->
               match Gen.try_catch (pre, @Raised unit e)
                       (fun e => Gen.bind (GroqProvider.handleError e)
                                   (fun _ => Gen.yield_ (error_event e "Unknown error")))
               with
               | (evs, Returned _) =>
                   exists pre t,
                     evs = pre ++ [t] /\ Forall (fun e => is_terminal e = false) pre /\
                     (t = complete_event (content_text pre) \/ is_error t = true)
               | (evs, Raised e) =>
                   Forall (fun e => is_terminal e = false) evs /\
                   has_status e = true /\ instanceof_Error e = true
               end).
    { intros pre e Hpre. unfold Gen.try_catch, Gen.bind.
      pose proof (groq_handleError_status e) as He.
      destruct (GroqProvider.handleError e) as [evs [u|e']].
      - subst evs. unfold Gen.yield_. cbn [app].
        exists pre, (error_event e "Unknown error"). auto.
      - destruct He as (-> & Hs & Hi). rewrite app_nil_r. auto. }
    destruct g as [e | [cs ending]].
    + apply (Hcatch [groq_started] e). repeat constructor.
    + unfold Gen.bind at 1, Gen.yield_. unfold Gen.bind at 1, Gen.ret at 1.
      cbn [chunks failure].
      destruct (groq_relay_spec cs EmptyString 0) as (evs & n' & Hrun & Hevs).
      unfold Gen.bind at 1. rewrite Hrun.
      destruct ending as [e|]; unfold Gen.bind, Gen.throw, Gen.ret, Gen.yield_; cbn.
      * rewrite app_nil_r. apply (Hcatch (groq_started :: evs) e).
        constructor; [reflexivity | exact Hevs].
      * exists (groq_started :: evs), (complete_event (content_text evs)).
        split; [reflexivity | split; [constructor; [reflexivity | exact Hevs] | left]].
        rewrite content_text_cons. reflexivity.
  - destruct o as [e | [cs ending]].
    + assert (H : forall e0 : exn,
                 match @OllamaProvider.handleError
                         {| oc_baseUrl := lc_ollama_baseUrl config;
                            oc_model := lc_ollama_model config |} unit e0
                 with
                 | (evs, Raised e') => evs = [] /\ has_status e' = true
                                       /\ instanceof_Error e' = true
                 | (_, Returned _) => False
                 end).
      { intro e0. unfold OllamaProvider.handleError.
        destruct e0 as [m s c | s m | [c|] [s|] m | m |]; simpl; auto;
          repeat match goal with
                 | |- context [if ?b then _ else _] => destruct b; simpl; auto
                 end. }
      unfold OllamaProvider.generateTestPlan, OllamaProvider.stream_body,
        Gen.try_catch, Gen.bind, Gen.yield_, Gen.throw. cbn.
      specialize (H e). destruct (OllamaProvider.handleError _ e) as [evs [u|e']];
        [contradiction |].
      destruct H as (-> & Hs & Hi). repeat constructor; auto.
    + destruct (stream_body_spec cs ending) as (st & Hbody & _). cbv zeta in Hbody.
      set (L := complete_lines (Str.concat cs)) in *.
      assert (Hpre : forall lines,
                 Forall (fun e => is_terminal e = false)
                        (ollama_started :: fragment_events lines EmptyString)).
      { intro lines. constructor; [reflexivity | apply fragment_events_content]. }
      assert (Htext : forall lines,
                 content_text (ollama_started :: fragment_events lines EmptyString)
                 = lines_text lines).
      { intro lines. rewrite content_text_cons.
        change (is_content ollama_started) with false. cbv iota.
        apply fragment_events_text. }
      destruct (existsb flagged L) eqn:Hfl.
      * rewrite (generateTestPlan_returns _ _ _ st _ Hbody).
        exists (ollama_started :: fragment_events (upto_flag L) EmptyString),
               (complete_event (lines_text (upto_flag L))).
        split; [reflexivity | split; [apply Hpre | left; now rewrite Htext]].
      * destruct ending as [e|].
        -- assert (H : exists e', @OllamaProvider.handleError
                         {| oc_baseUrl := lc_ollama_baseUrl config;
                            oc_model := lc_ollama_model config |} unit e
                         = ([], Raised e') /\ has_status e' = true
                           /\ instanceof_Error e' = true).
           { unfold OllamaProvider.handleError.
             destruct e as [m s c | s m | [c|] [s|] m | m |]; cbv zeta; cbv iota;
               repeat match goal with
                      | |- context [if ?b then _ else _] => destruct b
                      end;
               eexists; (split; [reflexivity | split; reflexivity]). }
           destruct H as (e' & He' & Hs & Hi).
           unfold OllamaProvider.generateTestPlan, Gen.try_catch.
           unfold Gen.bind at 1. rewrite Hbody.
           unfold Gen.bind. rewrite He'. rewrite !app_nil_r.
           split; [apply Hpre | auto].
        -- rewrite (generateTestPlan_returns _ _ _ st _ Hbody).
           exists (ollama_started :: fragment_events (upto_flag L) EmptyString),
                  (complete_event (lines_text L)).
           split; [reflexivity | split; [apply Hpre | left]].
           rewrite Htext, (upto_flag_none _ Hfl). reflexivity.
Qed.




End BuiltIn.

(** * The streaming route's consumer

    [routes/testplan.ts] leaves its [for await] loop at the first [complete]
    or [error] event.  A run that gets a provider of the repository is
    closed at the provider's own terminal event, before step 5; a run that
    gets none ends in the [catch] clause.  Neither reaches the persistence
    step. *)

Section StreamingConsumer.
Context {P : Platform}.

Lemma keeps_yield {X} (g : Database -> X) stop e : keeps g (yield_ stop e).
Proof.
  intros w r w'. unfold yield_. destruct (stop e); intro H; inversion H; reflexivity.
Qed.

Lemma keeps_relay {X} (g : Database -> X) stop events :
  forall full, keeps g (TestPlanService.relay stop events full).
Proof.
  induction events as [|e l IH]; intro full; cbn [TestPlanService.relay].
  - apply keeps_ret.
  - apply keeps_bind; [apply keeps_modify; reflexivity | intros _].
    apply keeps_bind; [apply keeps_yield | intros _]. apply IH.
Qed.

Lemma keeps_for_await {X} (g : Database -> X) stop gen :
  keeps g (TestPlanService.for_await stop gen).
Proof.
  unfold TestPlanService.for_await.
  apply keeps_bind; [apply keeps_modify; reflexivity | intros _].
  apply keeps_bind; [apply keeps_relay | intro].
  destruct (snd gen); [apply keeps_ret | apply keeps_throw].
Qed.

Lemma history_resolve_and_stream impl stop options :
  keeps test_plan_history (TestPlanService.resolve_and_stream impl stop options).
Proof.
  unfold TestPlanService.resolve_and_stream.
  pose proof history_getTicket. pose proof history_getTemplate.
  pose proof history_getTemperature. pose proof history_createLLMProvider.
  pose proof (fun e => keeps_yield test_plan_history stop e).
  pose proof (fun gen => keeps_for_await test_plan_history stop gen).
  keeps_tac.
Qed.

(** A consumer that stops at an event of the stream closes the loop. *)
Lemma relay_stops stop events :
  (exists t, In t events /\ stop t = true) ->
  forall full w r w', TestPlanService.relay stop events full w = (r, w') -> r = Stopped.
Proof.
  induction events as [|e l IH]; intros (t & Hin & Ht) full w r w' H;
    [destruct Hin |].
  cbn [TestPlanService.relay] in H. unfold bind at 1, modify at 1 in H.
  unfold bind at 1, yield_ at 1 in H.
  destruct (stop e) eqn:He; [now inversion H |].
  destruct Hin as [-> | Hin]; [congruence |].
  eapply IH; eauto.
Qed.

Ltac returned H a w Ha :=
  apply bind_inv in H;
  destruct H as [(a & w & Ha & H) | [(? & _ & ?) | (_ & ?)]];
  [| discriminate | discriminate].

Lemma streaming_never_completes_stream g o impl options w x w' :
  repository_scope g o impl ->
  TestPlanService.resolve_and_stream impl until_terminal options w
    = (Ok x, w') -> False.
Proof.
  unfold TestPlanService.resolve_and_stream. intros Hscope H.
  returned H u0 w0 Hy0. returned H t wa Ht.
  destruct t as [ticket|]; [| discriminate].
  returned H u1 w1 Hy1. returned H u2 w2 Hy2. returned H tpl wb Htp.
  returned H u3 w3 Hy3. returned H temp wc Htm. returned H u4 w4 Hy4.
  returned H llm wd Hl. returned H full we Hf.
  unfold createLLMProvider in Hl. returned Hl config wx Hc.
  destruct (Hscope (provider options)) as [Hsc | Hsc]; rewrite Hsc in Hl;
    [discriminate Hl |].
  inversion Hl; subst llm.
  unfold TestPlanService.for_await in Hf.
  returned Hf u5 w5 Hm. returned Hf full' w6 Hr.
  pose proof (built_in_stream_end g o (provider options) config
                {| ctx_ticket := ticket; ctx_template := rt_content tpl;
                   ctx_temperature := temp |}) as Hend.
  destruct (provider_class g o (provider options) config _) as [evs [u|e]];
    cbn [fst snd] in *; [| discriminate].
  destruct Hend as (pre & t & -> & _ & Ht').
  assert (Hs : Ok full' = Stopped); [| discriminate].
  eapply (relay_stops until_terminal); [| exact Hr].
  exists t. split; [apply in_or_app; right; left; reflexivity |].
  unfold until_terminal. destruct Ht' as [-> | Ht']; [reflexivity |].
  unfold is_error, is_terminal in *. destruct (ev_type t); simpl in *; congruence.
Qed.

(** With each class name unbound or bound to the repository's class, a run
    consumed as the streaming route does writes no History row; it is
    closed at a terminal event or ends by an exception. *)
Lemma streaming_consumer_never_persists g o impl options w :
  repository_scope g o impl ->
  let '(r, w') := TestPlanService.generate impl until_terminal options w in
  test_plan_history (db w') = test_plan_history (db w) /\
  (r = Stopped \/ exists e, r = Throw e).
Proof.
  intro Hscope.
  destruct (TestPlanService.generate _ until_terminal options w) as [r w'] eqn:H.
  unfold TestPlanService.generate in H.
  apply try_catch_inv in H. destruct H as [(e & w1 & H1 & H2) | (H1 & N)].
  - apply bind_inv in H1.
    destruct H1 as [(x & w2 & Hx & _) | [(e' & Hx & _) | (_ & ?)]];
      [exfalso; eapply streaming_never_completes_stream; eauto | | discriminate].
    pose proof (history_resolve_and_stream _ _ _ _ _ _ Hx) as Hh.
    unfold TestPlanService.on_error in H2.
    destruct (instanceof_Error e && has_status e).
    + inversion H2; subst. split; [exact Hh | eauto].
    + unfold yield_ in H2. simpl in H2. inversion H2; subst. simpl.
      split; [exact Hh | auto].
  - apply bind_inv in H1.
    destruct H1 as [(x & w2 & Hx & _) | [(e' & _ & ->) | (Hx & ->)]];
      [exfalso; eapply streaming_never_completes_stream; eauto
      | now destruct (N e') |].
    split; [exact (history_resolve_and_stream _ _ _ _ _ _ Hx) | auto].
Qed.

End StreamingConsumer.

(** * The rest of the services *)

(** ** What a statement leaves behind *)

Section Statements.
Context {A : Type}.

Lemma io_step_inv w r w' :
  io_step w = (r, w') ->
  db w' = db w /\ disk w' = disk w /\ now w' = now w /\ uuid w' = uuid w /\
  faults w' = tl (faults w) /\
  match r with
  | Ok _ => hd None (faults w) = None
  | Throw e => hd None (faults w) = Some e
  | Stopped => False
  end.
Proof.
  unfold io_step. destruct (faults w) as [|[e|] fs] eqn:Hf;
    intro H; inversion H; subst; simpl; rewrite ?Hf; repeat split; reflexivity.
Qed.

Lemma db_query_inv (q : Database -> A) w r w' :
  db_query q w = (r, w') ->
  db w' = db w /\ disk w' = disk w /\ now w' = now w /\ uuid w' = uuid w /\
  faults w' = tl (faults w) /\
  match r with
  | Ok a => a = q (db w) /\ hd None (faults w) = None
  | Throw e => hd None (faults w) = Some e
  | Stopped => False
  end.
Proof.
  unfold db_query, bind, get_world, ret.
  destruct (io_step w) as [[[]|e|] w1] eqn:Hs; intro H; inversion H; subst;
    apply io_step_inv in Hs; destruct Hs as (Hd & Hk & Hn & Hu & Hf & Hr);
    repeat split; auto; congruence.
Qed.

Lemma db_exec_inv (f : Database -> Z -> A * Database) w r w' :
  db_exec f w = (r, w') ->
  disk w' = disk w /\ now w' = now w /\ uuid w' = uuid w /\
  faults w' = tl (faults w) /\
  match r with
  | Ok a => a = fst (f (db w) (now w)) /\ db w' = snd (f (db w) (now w)) /\
            hd None (faults w) = None
  | Throw e => db w' = db w /\ hd None (faults w) = Some e
  | Stopped => False
  end.
Proof.
  unfold db_exec, bind, get_world, modify, ret.
  destruct (io_step w) as [[[]|e|] w1] eqn:Hs;
    apply io_step_inv in Hs; destruct Hs as (Hd & Hk & Hn & Hu & Hf & Hr).
  - rewrite Hd, Hn. destruct (f (db w) (now w)) as [a d]. intro H.
    inversion H; subst. simpl. repeat split; auto.
  - intro H. inversion H; subst. repeat split; auto.
  - destruct Hr.
Qed.

End Statements.

(** ** Uploads: what is rejected, what is stored *)

Section UploadChecks.
Context {P : Platform}.

Lemma sanitize_char_safe c : safe_char (TemplateService.sanitize_char c) = true.
Proof.
  destruct c as [[] [] [] [] [] [] [] []]; reflexivity.
Qed.

Lemma sanitize_char_fixed c :
  safe_char c = true -> TemplateService.sanitize_char c = c.
Proof.
  destruct c as [[] [] [] [] [] [] [] []]; simpl; intro H;
    try reflexivity; discriminate.
Qed.

Lemma prefix_single a c s :
  String.prefix (String a EmptyString) (String c s) = Ascii.eqb a c.
Proof.
  cbn [String.prefix]. destruct (Ascii.ascii_dec a c) as [-> | N].
  - rewrite Ascii.eqb_refl. destruct s; reflexivity.
  - destruct (Ascii.eqb_spec a c); congruence.
Qed.

(** X1.  The name a template file is stored under holds only lower-case
    letters, digits, dots, underscores and hyphens, whatever the uploaded
    file was called (so no path separator survives), and sanitising a
    sanitised name changes nothing. *)
Theorem sanitizeFilename_safe s :
  all_chars safe_char (TemplateService.sanitizeFilename s) = true /\
  TemplateService.sanitizeFilename (TemplateService.sanitizeFilename s)
    = TemplateService.sanitizeFilename s /\
  Str.includes "/" (TemplateService.sanitizeFilename s) = false.
Proof.
  induction s as [|c s (IH1 & IH2 & IH3)]; [repeat split |].
  cbn [TemplateService.sanitizeFilename all_chars].
  rewrite sanitize_char_safe, IH1, IH2.
  rewrite (sanitize_char_fixed _ (sanitize_char_safe c)).
  repeat split.
  cbn [Str.includes]. rewrite prefix_single, IH3.
  destruct c as [[] [] [] [] [] [] [] []]; reflexivity.
Qed.

(** X2.  An upload that fails a check (no file or no buffer, a media type
    other than PDF, more than 5 MB, text that cannot be extracted) is
    refused with a BadRequest error (status 400) before anything is written:
    database, disk and fault oracle are as before. *)
Theorem rejected_upload_writes_nothing dir file name w :
  upload_accepted file = false ->
  exists m,
    TemplateService.createTemplate dir file name w
      = (Throw (Errors.BadRequest m), w) /\
    In m ["No file uploaded"; "File must be a PDF"; "File size exceeds 5MB limit";
          "Invalid or corrupted PDF file"].
Proof.
  unfold upload_accepted, TemplateService.createTemplate, try_catch, throw.
  destruct file as [f|]; [| intros _; eexists; split; [reflexivity | simpl; auto]].
  destruct (buffer f) as [buf|]; [| intros _; eexists; split; [reflexivity | simpl; auto]].
  destruct (String.eqb (mimetype f) "application/pdf"); simpl;
    [| intros _; eexists; split; [reflexivity | simpl; auto]].
  rewrite Z.leb_antisym.
  destruct (5 * 1024 * 1024 <? file_size f) eqn:Hs; simpl.
  - change (5242880 <? file_size f) with (5 * 1024 * 1024 <? file_size f).
    rewrite Hs. intros _. eexists; split; [reflexivity | simpl; auto].
  - change (5242880 <? file_size f) with (5 * 1024 * 1024 <? file_size f).
    rewrite Hs. unfold bind, TemplateService.extractText, throw.
    destruct (pdf_text buf); [discriminate |]. intros _. simpl.
    eexists; split; [reflexivity | simpl; auto 6].
Qed.

(** X3.  Once the checks have passed and the file is on disk, the only way
    an upload fails is the error "Failed to save template to database"
    (status 500); the file written for it stays on disk, and no template row
    is added or removed. *)
Theorem failed_insert_leaves_file dir f name w e w' :
  upload_accepted (Some f) = true ->
  nth 0 (faults w) None = None ->
  TemplateService.createTemplate dir (Some f) name w = (Throw e, w') ->
  e = Errors.Internal "Failed to save template to database" /\
  disk w' = stored_path dir f w :: disk w /\
  map tr_id (templates (db w')) = map tr_id (templates (db w)).
Proof.
  unfold upload_accepted, TemplateService.createTemplate, stored_path.
  destruct (buffer f) as [buf|]; [| discriminate].
  destruct (String.eqb (mimetype f) "application/pdf"); [| discriminate]. simpl.
  rewrite Z.leb_antisym.
  change (5242880 <? file_size f) with (5 * 1024 * 1024 <? file_size f).
  destruct (5 * 1024 * 1024 <? file_size f); [discriminate |]. simpl.
  destruct (pdf_text buf) as [text|] eqn:Hp; [| discriminate]. intros _.
  unfold TemplateService.extractText, TemplateService.writeFileSync,
    TemplateService.shouldBeDefault, TemplateService.hasTemplates,
    TemplateService.getCount, TemplateService.insertTemplate,
    TemplateService.getTemplate, try_catch, db_query, db_exec, bind, io_step,
    get_world, modify, ret, throw.
  rewrite Hp.
  destruct w as [d dk t u fs jf em pu pc]. cbn [faults uuid disk db].
  assert (Hids : forall l : list TemplateRow,
             map tr_id (map (fun r => if tr_is_default r
                                      then TemplateService.clear_default t r else r) l)
             = map tr_id l).
  { intro l. rewrite map_map. apply map_ext. intro r.
    destruct (tr_is_default r); reflexivity. }
  destruct fs as [|[e0|] fs]; cbn [nth]; [| discriminate |]; intros _;
    [| destruct fs as [|[e1|] fs]];
    simpl; destruct (0 <? Z.of_nat (List.length (templates d))); simpl;
    try (destruct fs as [|[e2|] [|[e3|] [|[e4|] fs]]]; simpl);
    repeat match goal with
           | |- context [find ?p ?l] => destruct (find p l)
           end;
    intro H; inversion H; subst; simpl; rewrite ?Hids; repeat split; reflexivity.
Qed.

End UploadChecks.

(** ** Removing and updating templates *)

Section TemplateRemoval.

Lemma store_getTemplate_inv id w r w' :
  TemplateService.getTemplate id w = (r, w') ->
  db w' = db w /\ disk w' = disk w /\ now w' = now w /\ uuid w' = uuid w /\
  faults w' = tl (faults w) /\
  r = Ok match hd None (faults w) with
         | None => option_map TemplateService.rowToTemplate
                     (find (TemplateService.has_id id) (templates (db w)))
         | Some _ => None
         end.
Proof.
  unfold TemplateService.getTemplate, try_catch, db_query, bind, io_step,
    get_world, ret.
  destruct (faults w) as [|[e|] fs] eqn:Hf; simpl;
    try destruct (find _ _); simpl;
    intro H; inversion H; subst; simpl; rewrite ?Hf; repeat split; reflexivity.
Qed.

Lemma unlinkSync_inv path w r w' :
  TemplateService.unlinkSync path w = (r, w') ->
  db w' = db w /\ now w' = now w /\ faults w' = tl (faults w) /\
  match r with
  | Ok _ => disk w' = filter (fun p => negb (String.eqb path p)) (disk w) /\
            hd None (faults w) = None
  | Throw e => disk w' = disk w /\ hd None (faults w) = Some e
  | Stopped => False
  end.
Proof.
  unfold TemplateService.unlinkSync, bind, io_step, modify.
  destruct (faults w) as [|[e|] fs] eqn:Hf; simpl;
    intro H; inversion H; subst; simpl; rewrite ?Hf; repeat split; reflexivity.
Qed.

Lemma find_filter_out {A} (p : A -> bool) (l : list A) :
  find p (filter (fun x => negb (p x)) l) = None.
Proof.
  induction l as [|x l IH]; [reflexivity |]. simpl.
  destruct (p x) eqn:E; simpl; [exact IH | now rewrite E].
Qed.

Lemma existsb_filter_out {A} (p : A -> bool) (l : list A) :
  existsb p (filter (fun x => negb (p x)) l) = false.
Proof.
  induction l as [|x l IH]; [reflexivity |]. simpl.
  destruct (p x) eqn:E; simpl; [exact IH | now rewrite E, IH].
Qed.

Lemma find_some_filter {A} (p : A -> bool) (l : list A) x :
  find p l = Some x -> filter p l <> [].
Proof.
  intros H E. apply find_some in H. destruct H as [Hin Hp].
  assert (Hf : In x (filter p l)) by (apply filter_In; auto).
  rewrite E in Hf. destruct Hf.
Qed.

Lemma orphan_unlinks id h :
  h_template_id (TemplateService.orphan id h) <> Some id.
Proof.
  unfold TemplateService.orphan. destruct (h_template_id h) as [i|] eqn:E.
  - destruct (i =? id) eqn:Ei; simpl; [discriminate |].
    rewrite E. intro H. inversion H; subst. rewrite Z.eqb_refl in Ei.
    discriminate.
  - rewrite E. discriminate.
Qed.

Lemma delete_row_found id d t row :
  find (TemplateService.has_id id) (templates d) = Some row ->
  (fst (TemplateService.delete_row id d t) =? 0) = false /\
  templates (snd (TemplateService.delete_row id d t))
    = filter (fun r => negb (TemplateService.has_id id r)) (templates d) /\
  test_plan_history (snd (TemplateService.delete_row id d t))
    = map (TemplateService.orphan id) (test_plan_history d) /\
  jira_tickets (snd (TemplateService.delete_row id d t)) = jira_tickets d.
Proof.
  intro H. apply find_some_filter in H. unfold TemplateService.delete_row.
  destruct (filter (TemplateService.has_id id) (templates d)) as [|x l];
    [congruence |]. simpl. repeat split.
Qed.

Lemma delete_row_missing id d t :
  find (TemplateService.has_id id) (templates d) = None ->
  fst (TemplateService.delete_row id d t) = 0.
Proof.
  intro H. unfold TemplateService.delete_row.
  destruct (filter (TemplateService.has_id id) (templates d)) as [|x l] eqn:E;
    [reflexivity |].
  assert (Hin : In x (filter (TemplateService.has_id id) (templates d)))
    by (rewrite E; now left).
  apply filter_In in Hin. destruct Hin as [Hin Hp].
  pose proof (find_none _ _ H _ Hin). congruence.
Qed.

(** X4.  A [deleteTemplate] that returns has removed the row of that
    identifier and no other, and its file is not on disk; no History row is
    deleted, but those that referred to the template no longer do (their
    [template_id] is NULL), and the ticket cache is untouched. *)
Theorem deleteTemplate_removes id w w' :
  TemplateService.deleteTemplate id w = (Ok tt, w') ->
  exists row,
    find (TemplateService.has_id id) (templates (db w)) = Some row /\
    templates (db w') =
      filter (fun r => negb (TemplateService.has_id id r)) (templates (db w)) /\
    find (TemplateService.has_id id) (templates (db w')) = None /\
    existsb (String.eqb (tr_filepath row)) (disk w') = false /\
    test_plan_history (db w') =
      map (TemplateService.orphan id) (test_plan_history (db w)) /\
    Forall (fun h => h_template_id h <> Some id) (test_plan_history (db w')) /\
    jira_tickets (db w') = jira_tickets (db w).
Proof.
  unfold TemplateService.deleteTemplate. intro H.
  apply try_catch_inv in H. destruct H as [(e & w1 & _ & Hh) | (H & _)].
  { unfold TemplateService.rethrow_not_found, throw in Hh.
    destruct (_ && _); discriminate. }
  apply bind_inv in H. destruct H as [(a & w1 & Hg & H) | [(e & _ & ?) | (_ & ?)]];
    [| discriminate | discriminate].
  apply store_getTemplate_inv in Hg. destruct Hg as (Hd1 & Hk1 & Hn1 & _ & Hf1 & Ha).
  inversion Ha as [Ha']; clear Ha.
  destruct (hd None (faults w)); [subst a; discriminate |].
  destruct (find (TemplateService.has_id id) (templates (db w))) as [row|] eqn:Hrow;
    [| subst a; discriminate].
  subst a. simpl in H. exists row. split; [reflexivity |].
  apply bind_inv in H. destruct H as [(present & w2 & Hx & H) | [(e & Hx & _) | (Hx & _)]];
    [| discriminate | discriminate].
  unfold TemplateService.existsSync, bind, get_world, ret in Hx.
  inversion Hx; subst present w2; clear Hx.
  apply bind_inv in H. destruct H as [(u0 & w3 & Hu & H) | [(e & _ & ?) | (_ & ?)]];
    [| discriminate | discriminate].
  apply bind_inv in H. destruct H as [(changes & w4 & He & H) | [(e & _ & ?) | (_ & ?)]];
    [| discriminate | discriminate].
  apply db_exec_inv in He. destruct He as (Hk4 & Hn4 & _ & _ & -> & Hd4 & _).
  assert (Hd3 : db w3 = db w /\
                existsb (String.eqb (tr_filepath row)) (disk w3) = false).
  { destruct (existsb (String.eqb (tr_filepath row)) (disk w1)) eqn:Hp.
    - apply unlinkSync_inv in Hu. destruct Hu as (Hd3 & _ & _ & Hk3 & _).
      split; [congruence |]. rewrite Hk3. apply existsb_filter_out.
    - inversion Hu; subst. auto. }
  destruct Hd3 as [Hd3 Hk3]. rewrite Hd3 in *.
  destruct (delete_row_found id (db w) (now w3) row Hrow) as (Hc & Ht & Hh & Hj).
  rewrite Hc in H. inversion H; subst w'.
  rewrite Hd4, Ht, Hh, Hj, Hk4. repeat split; auto.
  - apply find_filter_out.
  - apply Forall_forall. intros h Hin. apply in_map_iff in Hin.
    destruct Hin as (h0 & <- & _). apply orphan_unlinks.
Qed.

(** X5.  For an identifier that is not in the table, [updateTemplate],
    [setAsDefault] and [deleteTemplate] throw the NotFound error for the
    template (status 404) and leave database and disk as they were. *)
Theorem unknown_template_is_not_found id data w :
  find (TemplateService.has_id id) (templates (db w)) = None ->
  (let '(r, w') := TemplateService.updateTemplate id data w in
   r = Throw (Errors.NotFound "Template") /\ db w' = db w /\ disk w' = disk w) /\
  (let '(r, w') := TemplateService.setAsDefault id w in
   r = Throw (Errors.NotFound "Template") /\ db w' = db w /\ disk w' = disk w) /\
  (let '(r, w') := TemplateService.deleteTemplate id w in
   r = Throw (Errors.NotFound "Template") /\ db w' = db w /\ disk w' = disk w).
Proof.
  intro Hnone.
  assert (Hg : exists w1, TemplateService.getTemplate id w = (Ok None, w1) /\
                          db w1 = db w /\ disk w1 = disk w).
  { destruct (TemplateService.getTemplate id w) as [r w1] eqn:Hg.
    apply store_getTemplate_inv in Hg. destruct Hg as (Hd & Hk & _ & _ & _ & ->).
    exists w1. rewrite Hnone. destruct (hd None (faults w)); auto. }
  destruct Hg as (w1 & Hg & Hd & Hk).
  assert (Hu : forall data,
             TemplateService.updateTemplate id data w
             = (Throw (Errors.NotFound "Template"), w1)).
  { intro data'. unfold TemplateService.updateTemplate, try_catch.
    rewrite (bind_ok _ _ _ _ _ Hg). reflexivity. }
  split; [| split].
  - rewrite Hu. auto.
  - unfold TemplateService.setAsDefault. rewrite Hu. auto.
  - unfold TemplateService.deleteTemplate, try_catch.
    rewrite (bind_ok _ _ _ _ _ Hg). simpl. auto.
Qed.

(** X6.  [deleteTemplate] removes the file before the row.  When the file
    was on disk, the lookup and the unlink succeed and the DELETE statement
    fails, the call throws, the row is still in the table and its file is
    gone. *)
Theorem failed_delete_loses_file id w row e :
  find (TemplateService.has_id id) (templates (db w)) = Some row ->
  existsb (String.eqb (tr_filepath row)) (disk w) = true ->
  fault_free 2 (faults w) = true ->
  nth 2 (faults w) None = Some e ->
  let '(r, w') := TemplateService.deleteTemplate id w in
  (exists e', r = Throw e') /\
  templates (db w') = templates (db w) /\
  existsb (String.eqb (tr_filepath row)) (disk w') = false.
Proof.
  intros Hrow Hx Hff Hn.
  destruct (faults w) as [|[e0|] [|[e1|] [|[e2|] fs]]] eqn:Hf; try discriminate.
  simpl in Hn. inversion Hn; subst e2. clear Hn Hff.
  unfold TemplateService.deleteTemplate, TemplateService.getTemplate,
    TemplateService.existsSync, TemplateService.unlinkSync,
    TemplateService.rethrow_not_found, try_catch, db_query, db_exec, bind,
    io_step, get_world, modify, ret, throw.
  rewrite Hf. simpl. rewrite Hrow. simpl. rewrite Hx. simpl.
  destruct (instanceof_Error e && Str.includes "not found" (message_of e)); simpl;
    (split; [eauto | split; [reflexivity | apply existsb_filter_out]]).
Qed.

End TemplateRemoval.

(** ** The ticket cache *)

Section TicketCacheOps.
Context {P : Platform}.

Lemma find_map_replace {A} (p : A -> bool) (f : A -> A) (l : list A) :
  (forall x, p x = true -> p (f x) = true) ->
  existsb p l = true ->
  exists x, find p l = Some x /\
            find p (map (fun r => if p r then f r else r) l) = Some (f x).
Proof.
  intros Hp. induction l as [|a l IH]; simpl; [discriminate |].
  destruct (p a) eqn:Ea; simpl.
  - intros _. exists a. rewrite (Hp _ Ea). auto.
  - rewrite Ea. exact IH.
Qed.

Lemma find_app_new {A} (p : A -> bool) (l : list A) x :
  existsb p l = false -> p x = true -> find p (l ++ [x]) = Some x.
Proof.
  induction l as [|a l IH]; simpl; intros He Hx; [now rewrite Hx |].
  apply orb_false_iff in He. destruct He as [Ha He]. rewrite Ha. auto.
Qed.

(** The row a successful [saveTicket] leaves under the ticket's key. *)
Lemma saveTicket_row ticket w w' :
  JiraTicketService.saveTicket ticket w = (Ok tt, w') ->
  exists id,
    find (JiraTicketService.has_key (key ticket)) (jira_tickets (db w'))
      = Some (JiraTicketService.row_of id ticket (now w)) /\
    faults w' = tl (faults w).
Proof.
  intro H. pose proof (saveTicket_ok _ _ _ H) as Hd.
  assert (Hf : faults w' = tl (faults w)).
  { revert H. unfold JiraTicketService.saveTicket, try_catch, db_exec, bind,
      io_step, get_world, modify, ret, throw.
    destruct (faults w) as [|[e|] fs] eqn:Hf; simpl; [| discriminate |];
      destruct (JiraTicketService.upsert ticket (db w) (now w)) as [[] d];
      intro H; inversion H; subst; simpl; rewrite ?Hf; reflexivity. }
  rewrite Hd. unfold JiraTicketService.upsert.
  assert (Hk : forall id, JiraTicketService.has_key (key ticket)
                            (JiraTicketService.row_of id ticket (now w)) = true).
  { intro id. unfold JiraTicketService.has_key. simpl. apply String.eqb_refl. }
  destruct (existsb _ (jira_tickets (db w))) eqn:He; simpl.
  - destruct (find_map_replace (JiraTicketService.has_key (key ticket))
                (fun r => JiraTicketService.row_of (jt_id r) ticket (now w))
                (jira_tickets (db w)) (fun x _ => Hk (jt_id x)) He) as (x & _ & Hx).
    exists (jt_id x). auto.
  - exists (jira_tickets_seq (db w) + 1). split; [| exact Hf].
    apply find_app_new; auto.
Qed.

(** X7.  A ticket that [saveTicket] has stored is what [getTicket] returns
    for its key, provided the labels and the attachments survive
    [JSON.stringify] followed by [JSON.parse] and the lookup runs. *)
Theorem saved_ticket_is_read_back ticket w w1 :
  JiraTicketService.saveTicket ticket w = (Ok tt, w1) ->
  JSON_parse_labels (Str.or_else (JSON_stringify_labels (labels ticket)) "[]")
    = Some (labels ticket) ->
  JSON_parse_attachments
    (Str.or_else (JSON_stringify_attachments (attachments ticket)) "[]")
    = Some (attachments ticket) ->
  hd None (faults w1) = None ->
  exists w2, JiraTicketService.getTicket (key ticket) w1 = (Ok (Some ticket), w2).
Proof.
  intros Hs Hl Ha Hf. destruct (saveTicket_row _ _ _ Hs) as (id & Hrow & _).
  unfold JiraTicketService.getTicket, JiraTicketService.rowToResponse,
    try_catch, db_query, bind, io_step, get_world, ret.
  destruct (faults w1) as [|[e|] fs]; simpl in *; try discriminate;
    rewrite Hrow; simpl; rewrite Hl, Ha; destruct ticket; simpl; eauto.
Qed.

Lemma find_existsb {A} (p : A -> bool) (l : list A) :
  existsb p l = match find p l with Some _ => true | None => false end.
Proof.
  induction l as [|a l IH]; simpl; [reflexivity |].
  destruct (p a); simpl; auto.
Qed.

(** X8.  After a successful [saveTicket], [getCount] (when its query runs)
    reports one ticket more than were cached if the key was new, and the
    same number if the key was cached already. *)
Theorem saveTicket_counts ticket w w1 :
  JiraTicketService.saveTicket ticket w = (Ok tt, w1) ->
  hd None (faults w1) = None ->
  exists w2,
    JiraTicketService.getCount w1
    = (Ok (Z.of_nat (List.length (jira_tickets (db w)))
           + if existsb (JiraTicketService.has_key (key ticket)) (jira_tickets (db w))
             then 0 else 1), w2).
Proof.
  intros Hs Hf. pose proof (saveTicket_ok _ _ _ Hs) as Hd.
  unfold JiraTicketService.getCount, try_catch, db_query, bind, io_step,
    get_world, ret.
  assert (Hlen : Z.of_nat (List.length (jira_tickets (db w1)))
                 = Z.of_nat (List.length (jira_tickets (db w)))
                   + if existsb (JiraTicketService.has_key (key ticket))
                          (jira_tickets (db w))
                     then 0 else 1).
  { rewrite Hd. unfold JiraTicketService.upsert.
    destruct (existsb _ (jira_tickets (db w))); simpl.
    - rewrite length_map. lia.
    - rewrite length_app. simpl. lia. }
  destruct (faults w1) as [|[e|] fs]; simpl in *; try discriminate;
    rewrite Hlen; eauto.
Qed.

Lemma cache_getTicket_inv k w r w' :
  JiraTicketService.getTicket k w = (r, w') ->
  db w' = db w /\ jira_fetch w' = jira_fetch w /\ now w' = now w /\
  exists o, r = Ok o /\
    match o with
    | Some t => key t = k /\
                existsb (JiraTicketService.has_key k) (jira_tickets (db w)) = true
    | None => True
    end.
Proof.
  unfold JiraTicketService.getTicket, JiraTicketService.rowToResponse,
    try_catch, db_query, bind, io_step, get_world, ret, throw.
  rewrite find_existsb.
  destruct (faults w) as [|[e|] fs]; simpl;
    try (intro H; inversion H; subst; simpl; repeat split; eexists; split;
         [reflexivity | exact I]);
    (destruct (find (JiraTicketService.has_key k) (jira_tickets (db w)))
       as [row|] eqn:Hrow; simpl;
     [ apply find_some in Hrow; destruct Hrow as [_ Hk];
       unfold JiraTicketService.has_key in Hk; apply String.eqb_eq in Hk;
       destruct (JSON_parse_labels _); simpl;
       [destruct (JSON_parse_attachments _); simpl |]
     | ]);
    intro H; inversion H; subst; simpl; repeat split;
    eexists; (split; [reflexivity | simpl; auto]).
Qed.

(** X9.  A ticket that the orchestrator's [getTicket] hands to a run is in
    the cache afterwards, under its own key: it was read from the cache
    (and the database is as before), or it came from the tracker and was
    saved. *)
Theorem resolved_ticket_is_cached tid w ticket w' :
  TestPlanService.getTicket tid w = (Ok (Some ticket), w') ->
  existsb (JiraTicketService.has_key (key ticket)) (jira_tickets (db w')) = true /\
  ((db w' = db w /\ key ticket = tid) \/ jira_fetch w tid = inr ticket).
Proof.
  unfold TestPlanService.getTicket. intro H.
  apply bind_inv in H. destruct H as [(c & w1 & Hc & H) | [(e & _ & ?) | (_ & ?)]];
    [| discriminate | discriminate].
  apply cache_getTicket_inv in Hc. destruct Hc as (Hd1 & Hj1 & _ & o & Ho & Hm).
  inversion Ho; subst o; clear Ho.
  destruct c as [t|].
  - inversion H; subst. destruct Hm as [Hk He]. rewrite Hd1. subst tid. auto.
  - apply bind_inv in H. destruct H as [(cfg & w2 & Hg & H) | [(e & _ & ?) | (_ & ?)]];
      [| discriminate | discriminate].
    destruct (silent_getJiraConfig _ _ _ Hg) as [(_ & _ & _ & Hj2 & _) _].
    destruct (_ || _); [discriminate |].
    apply bind_inv in H. destruct H as [(w0 & w3 & Hw & H) | [(e & _ & ?) | (_ & ?)]];
      [| discriminate | discriminate].
    inversion Hw; subst w0 w3; clear Hw.
    destruct (jira_fetch w2 tid) as [e|t] eqn:Hf; [discriminate |].
    apply bind_inv in H. destruct H as [([] & w4 & Hs & H) | [(e & _ & ?) | (_ & ?)]];
      [| discriminate | discriminate].
    inversion H; subst. destruct (saveTicket_row _ _ _ Hs) as (id & Hrow & _).
    rewrite find_existsb, Hrow. split; [reflexivity | right]. congruence.
Qed.

Lemma unlink_keeps ids h :
  h_id (JiraTickets.unlink ids h) = h_id h /\
  h_ticket_key (JiraTickets.unlink ids h) = h_ticket_key h /\
  h_template_id (JiraTickets.unlink ids h) = h_template_id h /\
  h_llm_provider (JiraTickets.unlink ids h) = h_llm_provider h /\
  h_generated_content (JiraTickets.unlink ids h) = h_generated_content h /\
  h_created_at (JiraTickets.unlink ids h) = h_created_at h.
Proof.
  unfold JiraTickets.unlink. destruct (h_ticket_id h) as [i|]; [| repeat split].
  destruct (existsb (Z.eqb i) ids); repeat split.
Qed.

(** X10.  [deleteTicket] on a cached key removes the rows of that key and
    no other row; afterwards [getTicket] finds nothing under the key.  No
    History row is deleted or altered, except that [ticket_id] becomes NULL.
    On a key that is not cached it throws the NotFound error for the ticket
    and changes nothing. *)
Theorem deleteTicket_removes k w :
  let '(r, w') := JiraTickets.deleteTicket k w in
  match r with
  | Ok _ =>
      existsb (JiraTicketService.has_key k) (jira_tickets (db w)) = true /\
      jira_tickets (db w') =
        filter (fun r => negb (JiraTicketService.has_key k r)) (jira_tickets (db w)) /\
      fst (JiraTicketService.getTicket k w') = Ok None /\
      Forall2 (fun h h' =>
                 h_id h' = h_id h /\ h_ticket_key h' = h_ticket_key h /\
                 h_template_id h' = h_template_id h /\
                 h_llm_provider h' = h_llm_provider h /\
                 h_generated_content h' = h_generated_content h /\
                 h_created_at h' = h_created_at h)
              (test_plan_history (db w)) (test_plan_history (db w')) /\
      templates (db w') = templates (db w)
  | Throw e =>
      db w' = db w /\
      (hd None (faults w) = None ->
       e = Errors.NotFound "Ticket" /\
       existsb (JiraTicketService.has_key k) (jira_tickets (db w)) = false)
  | Stopped => False
  end.
Proof.
  destruct (JiraTickets.deleteTicket k w) as [r w'] eqn:H.
  unfold JiraTickets.deleteTicket in H.
  set (gone := filter (JiraTicketService.has_key k) (jira_tickets (db w))).
  assert (Hgone : existsb (JiraTicketService.has_key k) (jira_tickets (db w))
                  = negb (Z.of_nat (List.length gone) =? 0)).
  { subst gone. induction (jira_tickets (db w)) as [|a l IH]; [reflexivity |].
    simpl. destruct (JiraTicketService.has_key k a); simpl; [reflexivity | exact IH]. }
  apply try_catch_inv in H. destruct H as [(e & w1 & H & Hh) | (H & N)].
  - assert (Hr : exists e', r = Throw e' /\ w' = w1 /\
                   (message_of e = "Ticket not found" -> instanceof_Error e = true ->
                    e' = e)).
    { unfold rethrow_or_internal, throw in Hh.
      destruct (instanceof_Error e) eqn:Hi; simpl in Hh.
      - destruct (Str.includes "not found" (message_of e)) eqn:Hm;
          inversion Hh; subst; eexists; repeat split; auto.
        intros Hmsg _. rewrite Hmsg in Hm. discriminate.
      - inversion Hh; subst. eexists; repeat split. discriminate. }
    destruct Hr as (e' & -> & -> & He').
    apply bind_inv in H. destruct H as [(c & w2 & Hx & H) | [(e0 & Hx & He0) | (_ & ?)]];
      [| | discriminate].
    + apply db_exec_inv in Hx. destruct Hx as (_ & _ & _ & _ & -> & Hd & _).
      simpl in H. fold gone in H.
      destruct (Z.of_nat (List.length gone) =? 0) eqn:Hz; [| discriminate].
      inversion H; subst e w1. clear H.
      assert (Hnil : gone = []).
      { apply Z.eqb_eq in Hz. destruct gone; [reflexivity | simpl in Hz; lia]. }
      assert (Hsame : snd (JiraTickets.delete_rows k (db w) (now w)) = db w).
      { unfold JiraTickets.delete_rows. fold gone. rewrite Hnil. simpl.
        assert (Hf : filter (fun r => negb (JiraTicketService.has_key k r))
                       (jira_tickets (db w)) = jira_tickets (db w)).
        { subst gone. clear - Hnil.
          induction (jira_tickets (db w)) as [|a l IH]; [reflexivity |].
          simpl in *. destruct (JiraTicketService.has_key k a); [discriminate |].
          simpl. f_equal. auto. }
        rewrite Hf.
        assert (Hu : map (JiraTickets.unlink []) (test_plan_history (db w))
                     = test_plan_history (db w)).
        { clear. induction (test_plan_history (db w)) as [|h l IH]; [reflexivity |].
          simpl. rewrite IH. f_equal. unfold JiraTickets.unlink.
          destruct (h_ticket_id h); reflexivity. }
        rewrite Hu. destruct (db w); reflexivity. }
      split; [congruence |]. intros _. split; [apply He'; reflexivity |].
      rewrite Hgone. reflexivity.
    + apply db_exec_inv in Hx. destruct Hx as (_ & _ & _ & _ & Hd & Hf).
      split; [exact Hd |]. intro Hn. congruence.
  - apply bind_inv in H. destruct H as [(c & w2 & Hx & H) | [(e0 & _ & ->) | (Hx & ->)]];
      [| now destruct (N e0) |].
    + apply db_exec_inv in Hx. destruct Hx as (_ & _ & _ & _ & -> & Hd & _).
      simpl in H. fold gone in H.
      destruct (Z.of_nat (List.length gone) =? 0) eqn:Hz;
        [inversion H; subst; now destruct (N (Errors.NotFound "Ticket")) |].
      inversion H; subst.
      rewrite Hd. unfold JiraTickets.delete_rows. fold gone. simpl.
      split; [rewrite Hgone; reflexivity |]. split; [reflexivity |].
      split.
      * destruct (JiraTicketService.getTicket k w') as [r1 w1] eqn:Hg.
        apply cache_getTicket_inv in Hg. destruct Hg as (_ & _ & _ & o & -> & Ho).
        destruct o as [t|]; [| reflexivity]. destruct Ho as [_ Ho].
        rewrite Hd in Ho. unfold JiraTickets.delete_rows in Ho. simpl in Ho.
        rewrite existsb_filter_out in Ho. discriminate.
      * split; [| reflexivity].
        clear. induction (test_plan_history (db w)) as [|h l IH]; simpl; constructor;
          [| exact IH].
        pose proof (unlink_keeps (map jt_id gone) h). tauto.
    + apply db_exec_inv in Hx. destruct Hx as (_ & _ & _ & _ & []).
Qed.

End TicketCacheOps.

(** ** How the providers fail *)

Section ProviderFailures.
Context {P : Platform}.

Lemma groq_handleError_cases e :
  if groq_classified e
  then exists e', GroqProvider.handleError e = ([], Raised e') /\
                  In (status_of e') [Some 401; Some 429; Some 502]
  else GroqProvider.handleError e = ([], Returned tt).
Proof.
  unfold GroqProvider.handleError, groq_classified.
  destruct e as [m s c | [s|] m | c s m | m |]; simpl;
    try (destruct (Str.includes "timeout" m); simpl; [eexists; split; [reflexivity |] | reflexivity];
         simpl; auto);
    try reflexivity.
  - destruct s as [|p|p]; simpl; try (eexists; split; [reflexivity | simpl; auto]).
    destruct (Pos.eq_dec p 401) as [-> | N1]; [eexists; split; [reflexivity | simpl; auto] |].
    destruct (Pos.eq_dec p 429) as [-> | N2]; [eexists; split; [reflexivity | simpl; auto] |].
    assert (H : match Z.pos p with
                | 401 => @Gen.throw unit (Errors.Unauthorized "Invalid Groq API key")
                | 429 => Gen.throw (Errors.TooManyRequests
                           "Groq rate limit exceeded. Please try again later.")
                | _ => if 500 <=? Z.pos p
                       then Gen.throw (Errors.BadGateway
                              "Groq service error. Please try again later.")
                       else Gen.throw (Errors.BadGateway m)
                end
                = if 500 <=? Z.pos p
                  then Gen.throw (Errors.BadGateway
                         "Groq service error. Please try again later.")
                  else Gen.throw (Errors.BadGateway m)).
    { do 9 (destruct p as [p|p|]; try reflexivity); congruence. }
    rewrite H. destruct (500 <=? Z.pos p); eexists; (split; [reflexivity | simpl; auto]).
  - eexists; split; [reflexivity | simpl; auto].
Qed.

(** X11.  When the cloud API fails, at the call or in mid-stream, the
    provider has emitted no terminal event before the failure.  A
    [Groq.APIError], or an [Error] whose message mentions a timeout, then
    leaves the generator as an [ApiError] of status 401, 429 or 502 and no
    [error] event is emitted; any other failure is reported by one [error]
    event, the last event of the stream, and the generator returns. *)
Theorem groq_failure_outcome g e context :
  upstream_error g = Some e ->
  let '(evs, c) := GroqProvider.generateTestPlan g context in
  exists pre,
    Forall (fun ev => is_terminal ev = false) pre /\
    if groq_classified e
    then evs = pre /\
         exists e', c = Raised e' /\ In (status_of e') [Some 401; Some 429; Some 502]
    else evs = pre ++ [error_event e "Unknown error"] /\ c = Returned tt.
Proof.
  intro Hg.
  assert (Hcatch : forall pre,
             Forall (fun ev => is_terminal ev = false) pre ->
             let '(evs, c) :=
               Gen.try_catch (pre, @Raised unit e)
                 (fun e => Gen.bind (GroqProvider.handleError e)
                             (fun _ => Gen.yield_ (error_event e "Unknown error"))) in
             exists pre,
               Forall (fun ev => is_terminal ev = false) pre /\
               if groq_classified e
               then evs = pre /\
                    exists e', c = Raised e' /\
                               In (status_of e') [Some 401; Some 429; Some 502]
               else evs = pre ++ [error_event e "Unknown error"] /\ c = Returned tt).
  { intros pre Hpre. unfold Gen.try_catch, Gen.bind.
    pose proof (groq_handleError_cases e) as He.
    destruct (groq_classified e).
    - destruct He as (e' & -> & Hs). exists pre. rewrite app_nil_r. eauto.
    - rewrite He. unfold Gen.yield_. exists pre. auto. }
  unfold GroqProvider.generateTestPlan.
  destruct g as [e0 | [cs ending]]; simpl in Hg; inversion Hg; subst.
  - apply (Hcatch [groq_started]). repeat constructor.
  - unfold Gen.bind at 1, Gen.yield_. unfold Gen.bind at 1, Gen.ret at 1.
    cbn [chunks failure].
    destruct (groq_relay_spec cs EmptyString 0) as (evs & n' & Hrun & Hevs).
    unfold Gen.bind at 1. rewrite Hrun.
    unfold Gen.bind, Gen.throw, Gen.ret, Gen.yield_; cbn.
    rewrite app_nil_r. apply (Hcatch (groq_started :: evs)).
    constructor; [reflexivity | exact Hevs].
Qed.

Lemma ollama_handleError_throws config e :
  exists e', @OllamaProvider.handleError config unit e = ([], Raised e') /\
             In (status_of e') [Some 404; Some 502].
Proof.
  unfold OllamaProvider.handleError.
  destruct e as [m s c | s m | [c|] [s|] m | m |]; cbv zeta; cbv iota;
    repeat match goal with
           | |- context [if ?b then _ else _] => destruct b
           end;
    eexists; (split; [reflexivity | simpl; auto]).
Qed.

(** X12.  The local provider never emits an [error] event: the [yield]
    in its [catch] clause is unreachable, because its [handleError] always
    throws.  Its stream either ends on [complete], carrying the text of the
    [content] events before it, and the generator returns; or the generator
    throws an [ApiError] of status 404 or 502. *)
Theorem ollama_never_emits_error config api context :
  let '(evs, c) := OllamaProvider.generateTestPlan config api context in
  Forall (fun ev => is_error ev = false) evs /\
  match c with
  | Returned _ =>
      exists pre, evs = pre ++ [complete_event (content_text pre)] /\
                  Forall (fun ev => is_terminal ev = false) pre
  | Raised e => In (status_of e) [Some 404; Some 502]
  end.
Proof.
  assert (Hne : forall l, Forall (fun ev => is_terminal ev = false) l ->
                          Forall (fun ev => is_error ev = false) l).
  { intros l Hl. eapply Forall_impl; [| exact Hl]. intros ev Hev.
    unfold is_terminal, is_error in *. destruct (ev_type ev); simpl in *; congruence. }
  assert (Hpre : forall lines,
             Forall (fun e => is_terminal e = false)
                    (ollama_started :: fragment_events lines EmptyString)).
  { intro lines. constructor; [reflexivity | apply fragment_events_content]. }
  assert (Htext : forall lines,
             content_text (ollama_started :: fragment_events lines EmptyString)
             = lines_text lines).
  { intro lines. rewrite content_text_cons.
    change (is_content ollama_started) with false. cbv iota.
    apply fragment_events_text. }
  destruct api as [e | [cs ending]].
  - destruct (ollama_handleError_throws config e) as (e' & He' & Hs).
    unfold OllamaProvider.generateTestPlan, OllamaProvider.stream_body,
      Gen.try_catch, Gen.bind, Gen.yield_, Gen.throw. cbn.
    rewrite He'. split; [repeat constructor | exact Hs].
  - destruct (stream_body_spec cs ending) as (st & Hbody & _). cbv zeta in Hbody.
    set (L := complete_lines (Str.concat cs)) in *.
    destruct (existsb flagged L) eqn:Hfl.
    + rewrite (generateTestPlan_returns config _ _ st _ Hbody). split.
      * rewrite app_comm_cons. apply Forall_app.
        split; [apply Hne, Hpre | repeat constructor].
      * exists (ollama_started :: fragment_events (upto_flag L) EmptyString).
        rewrite Htext. split; [reflexivity | apply Hpre].
    + destruct ending as [e|].
      * destruct (ollama_handleError_throws config e) as (e' & He' & Hs).
        unfold OllamaProvider.generateTestPlan, Gen.try_catch.
        unfold Gen.bind at 1. rewrite Hbody.
        unfold Gen.bind. rewrite He'. rewrite !app_nil_r.
        split; [apply Hne, Hpre | exact Hs].
      * rewrite (generateTestPlan_returns config _ _ st _ Hbody). split.
        -- rewrite app_comm_cons. apply Forall_app.
           split; [apply Hne, Hpre | repeat constructor].
        -- exists (ollama_started :: fragment_events (upto_flag L) EmptyString).
           rewrite Htext, (upto_flag_none _ Hfl). split; [reflexivity | apply Hpre].
Qed.

End ProviderFailures.

(** ** Which failures a run reports as an event *)

Section Throws.
Context {A B : Type}.
Variable Q : exn -> Prop.

Lemma throws_ret (a : A) : throws_only Q (ret a).
Proof. intros w e w' H. discriminate. Qed.

Lemma throws_throw (e : exn) : Q e -> throws_only Q (@throw A e).
Proof. intros He w e' w' H. inversion H; subst. exact He. Qed.

Lemma throws_get_world : throws_only Q get_world.
Proof. intros w e w' H. discriminate. Qed.

Lemma throws_modify f : throws_only Q (modify f).
Proof. intros w e w' H. discriminate. Qed.

Lemma throws_bind (m : M A) (k : A -> M B) :
  throws_only Q m -> (forall a, throws_only Q (k a)) -> throws_only Q (bind m k).
Proof.
  intros Hm Hk w e w' H. apply bind_inv in H.
  destruct H as [(a & w1 & _ & H) | [(e' & H & He) | (_ & ?)]]; [| | discriminate].
  - exact (Hk _ _ _ _ H).
  - inversion He; subst. exact (Hm _ _ _ H).
Qed.

Lemma throws_try_catch (m : M A) (h : exn -> M A) :
  (forall e, throws_only Q (h e)) -> throws_only Q (try_catch m h).
Proof.
  intros Hh w e w' H. apply try_catch_inv in H.
  destruct H as [(e0 & w1 & _ & H) | (_ & N)]; [exact (Hh _ _ _ _ H) | now destruct (N e)].
Qed.

End Throws.

Ltac throws_tac :=
  repeat first
    [ apply throws_ret | apply throws_get_world | apply throws_modify
    | apply throws_throw; reflexivity
    | apply throws_try_catch; intro
    | apply throws_bind; [| intro]
    | match goal with
      | |- throws_only _ (match ?x with _ => _ end) => destruct x
      | |- throws_only _ (if ?x then _ else _) => destruct x
      end ].

Section ReportedFailures.
Context {P : Platform}.

Lemma throws_cache_getTicket k :
  throws_only with_status (JiraTicketService.getTicket k).
Proof. unfold JiraTicketService.getTicket. throws_tac. Qed.

Lemma throws_saveTicket t : throws_only with_status (JiraTicketService.saveTicket t).
Proof. unfold JiraTicketService.saveTicket. throws_tac. Qed.

Lemma throws_getSettings : throws_only with_status SettingsService.getSettings.
Proof. unfold SettingsService.getSettings. throws_tac. Qed.

Lemma throws_getJiraConfig : throws_only with_status SettingsService.getJiraConfig.
Proof.
  unfold SettingsService.getJiraConfig.
  apply throws_bind; [apply throws_getSettings | intro; apply throws_ret].
Qed.

Lemma throws_getLLMConfig : throws_only with_status SettingsService.getLLMConfig.
Proof.
  unfold SettingsService.getLLMConfig.
  apply throws_bind; [apply throws_getSettings | intro; apply throws_ret].
Qed.

Lemma throws_getTemplate tpl : throws_only with_status (TestPlanService.getTemplate tpl).
Proof.
  unfold TestPlanService.getTemplate, TemplateService.getTemplate,
    TemplateService.getDefaultTemplate.
  throws_tac.
Qed.

Lemma throws_getTemperature p : throws_only with_status (TestPlanService.getTemperature p).
Proof.
  unfold TestPlanService.getTemperature.
  apply throws_bind; [apply throws_getLLMConfig | intro; destruct p; apply throws_ret].
Qed.

Lemma throws_yield Q e : throws_only Q (yield_ drain e).
Proof. intros w e0 w' H. discriminate. Qed.

Lemma throws_relay Q events : forall full,
  throws_only Q (TestPlanService.relay drain events full).
Proof.
  induction events as [|ev events IH]; intro full; cbn [TestPlanService.relay].
  - apply throws_ret.
  - apply throws_bind; [apply throws_modify | intros _].
    apply throws_bind; [apply throws_yield | intros _]. apply IH.
Qed.

(** Steps 2 to 4 in the scope of the factory's module: they end in an
    exception, which carries a [status] unless it is the [ReferenceError]
    of the factory, thrown after the four progress events of these steps. *)
Lemma index_scope_after_ticket options ticket w r w' :
  (yield_ drain (mkEvent progress ("Ticket found: " ++ summary ticket) (Some (15 # 1))) ;;
   yield_ drain (mkEvent progress "Loading template..." (Some (20 # 1))) ;;
   template <- TestPlanService.getTemplate (templateId options) ;;
   yield_ drain (mkEvent progress "Template loaded" (Some (25 # 1))) ;;
   temperature <- TestPlanService.getTemperature (provider options) ;;
   yield_ drain (mkEvent progress
                   ("Generating with " ++ provider_string (provider options) ++ "...")
                   (Some (30 # 1))) ;;
   llmProvider <- createLLMProvider index_scope (provider options) ;;
   fullContent <- TestPlanService.for_await drain
                    (llmProvider {| ctx_ticket := ticket;
                                    ctx_template := rt_content template;
                                    ctx_temperature := temperature |}) ;;
   ret (ticket, template, fullContent)) w = (r, w') ->
  exists e,
    r = Throw e /\
    (with_status e \/
     (e = JsError (class_name (provider options) ++ " is not defined") /\
      emitted w' = emitted w ++ skipn 1 (stage_events ticket options))).
Proof.
  rewrite !bind_yield_drain. intro H.
  apply bind_inv in H.
  destruct H as [(template & wb & Htp & H) | [(e & Htp & ->) | (Htp & ->)]].
  2:{ exists e. split; [reflexivity | left]. exact (throws_getTemplate _ _ _ _ Htp). }
  2:{ destruct (silent_getTemplate _ _ _ _ Htp) as [_ N]. congruence. }
  destruct (silent_getTemplate _ _ _ _ Htp) as [(Fe1 & _) _].
  rewrite bind_yield_drain in H. apply bind_inv in H.
  destruct H as [(temperature & wc & Htm & H) | [(e & Htm & ->) | (Htm & ->)]].
  2:{ exists e. split; [reflexivity | left]. exact (throws_getTemperature _ _ _ _ Htm). }
  2:{ destruct (silent_getTemperature _ _ _ _ Htm) as [_ N]. congruence. }
  destruct (silent_getTemperature _ _ _ _ Htm) as [(Fe2 & _) _].
  rewrite bind_yield_drain in H. apply bind_inv in H.
  destruct H as [(llm & wd & Hl & H) | [(e & Hl & ->) | (Hl & ->)]].
  3:{ destruct (silent_createLLMProvider _ _ _ _ _ Hl) as [_ N]. congruence. }
  - exfalso. unfold createLLMProvider in Hl. apply bind_inv in Hl.
    destruct Hl as [(cfg & wx & _ & Hl) | [(e & _ & ?) | (_ & ?)]]; discriminate.
  - exists e. split; [reflexivity |].
    unfold createLLMProvider in Hl. apply bind_inv in Hl.
    destruct Hl as [(cfg & wx & Hc & Hl) | [(e' & Hc & He) | (_ & ?)]];
      [| left; inversion He; subst; exact (throws_getLLMConfig _ _ _ Hc) | discriminate].
    destruct (silent_getLLMConfig _ _ _ Hc) as [(Fe3 & _) _].
    cbn [index_scope] in Hl. inversion Hl; subst e wx. right. split; [reflexivity |].
    rewrite Fe3. simpl. rewrite Fe2. simpl. rewrite Fe1. simpl.
    rewrite <- !app_assoc. reflexivity.
Qed.

Lemma orchestrator_getTicket_throws tid w e w' :
  TestPlanService.getTicket tid w = (Throw e, w') ->
  with_status e \/ jira_fetch w tid = inl e.
Proof.
  unfold TestPlanService.getTicket. intro H.
  apply bind_inv in H. destruct H as [(c & w1 & Hc & H) | [(e' & Hc & He) | (_ & ?)]];
    [| left; inversion He; subst; exact (throws_cache_getTicket _ _ _ _ Hc) | discriminate].
  destruct (silent_cache_getTicket _ _ _ _ Hc) as [(_ & _ & _ & Hj1 & _) _].
  destruct c as [t|]; [discriminate |].
  apply bind_inv in H. destruct H as [(cfg & w2 & Hg & H) | [(e' & Hg & He) | (_ & ?)]];
    [| left; inversion He; subst; exact (throws_getJiraConfig _ _ _ Hg) | discriminate].
  destruct (silent_getJiraConfig _ _ _ Hg) as [(_ & _ & _ & Hj2 & _) _].
  destruct (_ || _); [left; inversion H; subst; reflexivity |].
  apply bind_inv in H. destruct H as [(w0 & w3 & Hw & H) | [(e' & ? & _) | (_ & ?)]];
    [| discriminate | discriminate].
  inversion Hw; subst w0 w3; clear Hw.
  destruct (jira_fetch w2 tid) as [e0|t] eqn:Hf.
  - inversion H; subst. right. congruence.
  - left. revert H.
    apply throws_bind; [apply throws_saveTicket | intro; apply throws_ret].
Qed.

(** X13.  A run of [generate] that returns has failed, in one of two
    ways.  Either the fetch from the tracker failed with an error that
    carries no [status]: the run then holds the first progress event and an
    [error] event with the message of that error.  Or the run came to the
    provider factory, whose [new] throws a [ReferenceError] because the
    class name is not bound in its module: the run then holds the five
    progress events of steps 1 to 4 and an [error] event saying that the
    class "is not defined".  Every other failure is thrown.  In no case is
    a provider called or a History row written. *)
Theorem returned_run_has_failed options w w' :
  TestPlanService.generate index_scope drain options w = (Ok tt, w') ->
  provider_calls w' = provider_calls w /\
  test_plan_history (db w') = test_plan_history (db w) /\
  ((exists e,
       jira_fetch w (ticketId options) = inl e /\
       ~ with_status e /\
       emitted w' = emitted w ++ [fetching_event; error_event e "Generation failed"]) \/
   (exists ticket,
       emitted w' =
         emitted w ++ stage_events ticket options
         ++ [mkEvent error (class_name (provider options) ++ " is not defined") None])).
Proof.
  intros H.
  pose proof (index_scope_never_completes options w) as Hn. rewrite H in Hn.
  destruct Hn as (Hh & _ & Hc & _). split; [exact Hc | split; [exact Hh |]].
  rewrite generate_drain_cases in H.
  destruct (TestPlanService.resolve_and_stream index_scope drain options w)
    as [r1 w1] eqn:H1.
  destruct (index_scope_resolve _ _ _ _ H1) as (e & own & -> & _).
  rewrite on_error_drain in H.
  destruct (instanceof_Error e && has_status e) eqn:Hs; [discriminate |].
  inversion H; subst w'. clear H. simpl.
  assert (Hns : ~ with_status e) by (unfold with_status; congruence).
  unfold TestPlanService.resolve_and_stream in H1. rewrite bind_yield_drain in H1.
  apply bind_inv in H1.
  destruct H1 as [(tk & wa & Hg & H1) | [(e' & Hg & He) | (_ & ?)]]; [| | discriminate].
  - destruct (silent_getTicket _ _ _ _ Hg) as [(Fe & _) _]. simpl in Fe.
    destruct tk as [ticket|]; [| exfalso; apply Hns; inversion H1; subst; reflexivity].
    right. exists ticket.
    destruct (index_scope_after_ticket options ticket _ _ _ H1) as (e0 & He0 & Hcase).
    inversion He0; subst e0. destruct Hcase as [Hst | (-> & E)]; [tauto |].
    rewrite E, Fe. unfold stage_events, error_event. simpl.
    rewrite <- !app_assoc. reflexivity.
  - inversion He; subst e'. clear He. left.
    destruct (silent_getTicket _ _ _ _ Hg) as [(Fe & _) _].
    apply orchestrator_getTicket_throws in Hg. destruct Hg as [Hg | Hg]; [tauto |].
    simpl in Hg, Fe. exists e. split; [exact Hg | split; [exact Hns |]].
    rewrite Fe, <- app_assoc. reflexivity.
Qed.

End ReportedFailures.

(** ** The generation routes *)

Section GenerationRoutes.
Context {P : Platform}.

Lemma received_app w w' evs :
  emitted w' = emitted w ++ evs -> Routes.received w w' = evs.
Proof.
  intro E. unfold Routes.received. rewrite E, skipn_app, skipn_all, Nat.sub_diag.
  reflexivity.
Qed.

(** X14.  Whatever the provider does, a valid request to the streaming
    route is answered by a stream that ends with exactly one terminal event
    ([complete] or [error]) followed by [done]: the events before are not
    terminal, and the route never fails. *)
Theorem stream_reply_has_one_terminal impl options w :
  let '(rep, w') := Routes.generate impl true options w in
  exists pre t,
    rep = replied (map sse_event pre ++ [sse_event t; sse_done]) /\
    is_terminal t = true /\
    Forall (fun e => is_terminal e = false) pre.
Proof.
  unfold Routes.generate. cbn [negb].
  destruct (TestPlanService.generate impl until_terminal options w) as [r w'] eqn:H.
  destruct (disciplined_generate impl until_terminal options _ _ _ H) as (evs & E & V).
  rewrite (received_app _ _ _ E).
  destruct r as [[]|e|]; simpl in V.
  - exfalso. destruct (generate_returns_on_terminal impl _ _ _ _ H) as (pre & t & E' & Ht).
    rewrite E in E'. apply app_inv_head in E'. subst evs.
    apply Forall_app in V. destruct V as [_ V]. inversion V; subst.
    unfold until_terminal in *. congruence.
  - exists evs, (error_event e "Generation failed"). repeat split; auto.
  - destruct V as (pre & t & -> & Ht & Hpre). exists pre, t.
    rewrite map_app, <- app_assoc. repeat split; auto.
Qed.

Lemma index_scope_is_repository_scope g o : repository_scope g o index_scope.
Proof. intro p. left. reflexivity. Qed.

Lemma built_in_is_repository_scope g o : repository_scope g o (built_in g o).
Proof. intro p. right. reflexivity. Qed.

(** X15.  The streaming route never writes a History row.  In the scope
    of the factory's module no provider is built and the run ends in the
    [catch] clause of [generate]; with the two classes of the repository
    bound, the route leaves the generator at the provider's own terminal
    event, before the persistence step. *)
Theorem stream_route_saves_nothing g o valid options w :
  (let '(rep, w') := Routes.generate index_scope valid options w in
   test_plan_history (db w') = test_plan_history (db w)) /\
  (let '(rep, w') := Routes.generate (built_in g o) valid options w in
   test_plan_history (db w') = test_plan_history (db w)).
Proof.
  assert (H : forall impl, repository_scope g o impl ->
              let '(rep, w') := Routes.generate impl valid options w in
              test_plan_history (db w') = test_plan_history (db w)).
  { intros impl Hscope.
    unfold Routes.generate. destruct valid; cbn [negb]; [| reflexivity].
    pose proof (streaming_consumer_never_persists g o impl options w Hscope) as H.
    destruct (TestPlanService.generate impl until_terminal options w) as [r w'].
    destruct H as [H _]. destruct r; exact H. }
  split; apply H;
    [apply index_scope_is_repository_scope | apply built_in_is_repository_scope].
Qed.

End GenerationRoutes.

Section SyncRoute.
Context {P : Platform}.

Lemma collect_error events : forall c e,
  snd (Routes.collect events c e) =
  match last_error events with Some m => Some m | None => e end.
Proof.
  induction events as [|ev rest IH]; intros c e; [reflexivity |].
  cbn [Routes.collect last_error]. unfold is_error.
  destruct (ev_type ev); rewrite IH; simpl; destruct (last_error rest); reflexivity.
Qed.

Lemma collect_progress own : forall c e,
  Forall (fun ev => is_progress ev = true) own ->
  Routes.collect own c e = (c, e).
Proof.
  induction own as [|ev rest IH]; intros c e H; [reflexivity |].
  inversion H as [|x l Hev Hrest]; subst. cbn [Routes.collect].
  unfold is_progress in Hev. destruct (ev_type ev); try discriminate Hev.
  apply IH. exact Hrest.
Qed.

Lemma collect_app a b : forall c e,
  Routes.collect (a ++ b) c e =
  let '(c', e') := Routes.collect a c e in Routes.collect b c' e'.
Proof.
  induction a as [|ev a IH]; intros c e; [reflexivity |].
  cbn [app Routes.collect]. destruct (ev_type ev); apply IH.
Qed.

(** X16.  The sync route never delivers a test plan.  A valid request
    fails: with the error [generate] throws, which carries a [status], or
    with a BadGateway error (status 502) that carries the message of the
    [error] event the run ended on.  The one exception is an [error] event
    with an empty message, which the route does not take for an error: it
    then replies with an empty content.  No provider is called and no
    History row is written. *)
Theorem sync_route_never_delivers options w :
  let '(rep, w') := Routes.generate_sync index_scope true options w in
  provider_calls w' = provider_calls w /\
  test_plan_history (db w') = test_plan_history (db w) /\
  match rep with
  | replied text =>
      text = EmptyString /\
      exists pre, Routes.received w w' = pre ++ [mkEvent error EmptyString None]
  | failed e =>
      (TestPlanService.generate index_scope drain options w = (Throw e, w') /\
       with_status e) \/
      (exists pre m,
          Routes.received w w' = pre ++ [mkEvent error m None] /\
          Str.truthy m = true /\ e = Errors.BadGateway m)
  end.
Proof.
  unfold Routes.generate_sync. cbn [negb].
  destruct (index_scope_generate options w)
    as (e & own & w1 & E & Hown & _ & Hc & Hh & ->).
  destruct (instanceof_Error e && has_status e) eqn:Hs.
  - split; [exact Hc | split; [exact Hh |]]. left. split; [reflexivity | exact Hs].
  - assert (R : Routes.received w (yielded [error_event e "Generation failed"] w1)
                = own ++ [error_event e "Generation failed"]).
    { apply received_app. simpl. rewrite E, <- app_assoc. reflexivity. }
    rewrite R, collect_app, (collect_progress own _ _ Hown).
    unfold error_event. cbn [Routes.collect ev_type ev_data].
    set (m := if instanceof_Error e then message_of e else "Generation failed").
    destruct (Str.truthy m) eqn:Hm; (split; [exact Hc | split; [exact Hh |]]).
    + right. exists own, m. split; [exact R | split; [exact Hm | reflexivity]].
    + apply truthy_false in Hm. split; [reflexivity |].
      exists own. rewrite <- Hm. exact R.
Qed.

End SyncRoute.

(** ** The history *)

Section HistoryOps.
Context {P : Platform}.

Lemma insert_desc_length {A} (key id : A -> Z) r l :
  List.length (insert_desc key id r l) = S (List.length l).
Proof.
  induction l as [|x l IH]; simpl; [reflexivity |].
  destruct (comes_before key id r x); simpl; auto.
Qed.

Lemma insert_desc_in {A} (key id : A -> Z) r l x :
  In x (insert_desc key id r l) <-> x = r \/ In x l.
Proof.
  induction l as [|y l IH]; simpl; [intuition |].
  destruct (comes_before key id r y); simpl; [intuition | rewrite IH; intuition].
Qed.

Lemma order_desc_spec {A} (key id : A -> Z) l :
  List.length (order_desc key id l) = List.length l /\
  forall x, In x (order_desc key id l) <-> In x l.
Proof.
  unfold order_desc.
  assert (H : forall acc,
             List.length (fold_left (fun acc r => insert_desc key id r acc) l acc)
             = (List.length l + List.length acc)%nat /\
             forall x, In x (fold_left (fun acc r => insert_desc key id r acc) l acc)
                       <-> In x l \/ In x acc).
  { induction l as [|r l IH]; intro acc; simpl; [intuition |].
    destruct (IH (insert_desc key id r acc)) as [Hl Hi]. split.
    - rewrite Hl, insert_desc_length. lia.
    - intro x. rewrite Hi, insert_desc_in. intuition. }
  destruct (H []) as [Hl Hi]. split; [rewrite Hl; simpl; lia |].
  intro x. rewrite Hi. simpl. intuition.
Qed.

(** X18.  The history route does not check what its pagination validator
    found: a [limit] parameter that parses to a negative number reaches the
    query as it is, and the reply lists every row of the History table. *)
Theorem negative_limit_lists_everything parseInt s n w :
  parseInt s = Some n -> n < 0 ->
  hd None (faults w) = None ->
  exists l w',
    Routes.history parseInt (Some s) w = (replied l, w') /\
    List.length l = List.length (test_plan_history (db w)) /\
    forall h, In h (test_plan_history (db w)) -> In (History.item (db w) h) l.
Proof.
  intros Hp Hn Hf. unfold Routes.history, Routes.limit_of. rewrite Hp.
  assert (Hz : (n =? 0) = false) by (apply Z.eqb_neq; lia). rewrite Hz.
  unfold History.getHistory, try_catch, db_query, bind, io_step, get_world, ret,
    sql_limit.
  assert (Hlt : (n <? 0) = true) by (apply Z.ltb_lt; lia).
  destruct (order_desc_spec h_created_at h_id (test_plan_history (db w))) as [Hl Hi].
  destruct (faults w) as [|[e|] fs]; simpl in *; try discriminate; rewrite Hlt;
    eexists; eexists; (split; [reflexivity |]);
    (split; [rewrite length_map; exact Hl |]);
    intros h Hh; apply in_map, Hi, Hh.
Qed.

Lemma find_fresh_id id l (row : HistoryRow) :
  Forall (fun h => h_id h < id) l -> h_id row = id ->
  find (fun h => h_id h =? id) (l ++ [row]) = Some row.
Proof.
  intros Hl Hr. induction Hl as [|h l Hh _ IH]; simpl.
  - rewrite Hr, Z.eqb_refl. reflexivity.
  - assert (E : (h_id h =? id) = false) by (apply Z.eqb_neq; lia). now rewrite E.
Qed.

(** X19.  A test plan that [saveToHistory] has stored (it answers the new
    row's identifier, never 0) is what [getTestPlan] returns for that
    identifier: same content, ticket key, template and provider. *)
Theorem saved_plan_is_read_back data w id w1 :
  history_wf (db w) ->
  TestPlanService.saveToHistory data w = (Ok id, w1) ->
  id <> 0 ->
  hd None (faults w1) = None ->
  exists item w2,
    History.getTestPlan id w1 = (Ok (Some item), w2) /\
    tp_id item = id /\
    tp_generatedContent item = hd_content data /\
    tp_ticketKey item = hd_ticketKey data /\
    tp_templateId item = Some (hd_templateId data) /\
    tp_llmProvider item = hd_provider data /\
    history_wf (db w1).
Proof.
  intros [Hs Hwf] H Hid Hf.
  assert (Hrow : id = test_plan_history_seq (db w) + 1 /\
                 test_plan_history_seq (db w1) = id /\
                 test_plan_history (db w1)
                 = test_plan_history (db w) ++ [history_row data (db w) (now w)]).
  { revert H. unfold TestPlanService.saveToHistory, try_catch, db_query, db_exec_fk,
      bind, io_step, get_world, modify, ret, throw, history_row, ticket_row_id.
    destruct w as [d dk t u fs jf em pu pc]; simpl.
    destruct (TestPlanService.template_exists (hd_templateId data) d) eqn:Hfk;
      destruct fs as [|[e|] [|[e'|] fs]]; simpl; rewrite ?Hfk; simpl;
      intro H; inversion H; subst; simpl; try congruence; auto. }
  destruct Hrow as (Hnew & Hseq & Hhist).
  assert (Hfind : find (fun h => h_id h =? id) (test_plan_history (db w1))
                  = Some (history_row data (db w) (now w))).
  { rewrite Hhist. apply find_fresh_id; [| simpl; lia].
    eapply Forall_impl; [| exact Hwf]. simpl. intros h Hh. lia. }
  unfold History.getTestPlan, try_catch, db_query, bind, io_step, get_world, ret.
  destruct (faults w1) as [|[e|] fs]; simpl in *; try discriminate;
    rewrite Hfind; simpl;
    eexists; eexists; (split; [reflexivity |]); repeat split; simpl; auto;
    try lia;
    rewrite ?Hseq, ?Hhist; try lia;
    (apply Forall_app; split;
     [eapply Forall_impl; [| exact Hwf]; simpl; intros h Hh; lia
     | repeat constructor; simpl; lia]).
Qed.

Lemma filter_none_same {A} (p : A -> bool) (l : list A) :
  existsb p l = false -> filter (fun x => negb (p x)) l = l.
Proof.
  induction l as [|a l IH]; simpl; [reflexivity |].
  destruct (p a); simpl; [discriminate |]. intro H. f_equal. auto.
Qed.

Lemma existsb_length {A} (p : A -> bool) (l : list A) :
  (Z.of_nat (List.length (filter p l)) =? 0) = negb (existsb p l).
Proof.
  induction l as [|a l IH]; simpl; [reflexivity |].
  destruct (p a); simpl; [reflexivity | exact IH].
Qed.

(** X20.  [deleteTestPlan] removes the History row of the given identifier
    and nothing else, after which [getTestPlan] finds nothing under it; for
    an identifier that is not in the table it throws the NotFound error
    (status 404) and changes nothing.  Tickets and templates are never
    touched. *)
Theorem deleteTestPlan_removes id w :
  let '(r, w') := History.deleteTestPlan id w in
  jira_tickets (db w') = jira_tickets (db w) /\
  templates (db w') = templates (db w) /\
  match r with
  | Ok _ =>
      existsb (fun h => h_id h =? id) (test_plan_history (db w)) = true /\
      test_plan_history (db w') =
        filter (fun h => negb (h_id h =? id)) (test_plan_history (db w)) /\
      fst (History.getTestPlan id w') = Ok None
  | Throw e =>
      test_plan_history (db w') = test_plan_history (db w) /\
      (hd None (faults w) = None ->
       e = Errors.NotFound "Test plan" /\
       existsb (fun h => h_id h =? id) (test_plan_history (db w)) = false)
  | Stopped => False
  end.
Proof.
  unfold History.deleteTestPlan, History.delete_row, rethrow_or_internal,
    try_catch, db_exec, bind, io_step, get_world, modify, ret, throw.
  destruct w as [d dk t u fs jf em pu pc]. cbn [faults db now].
  pose proof (existsb_length (fun h => h_id h =? id) (test_plan_history d)) as Hlen.
  assert (Hget : forall w', test_plan_history (db w')
                            = filter (fun h => negb (h_id h =? id)) (test_plan_history d) ->
                            fst (History.getTestPlan id w') = Ok None).
  { intros w' Hw'. unfold History.getTestPlan, try_catch, db_query, bind, io_step,
      get_world, ret.
    destruct (faults w') as [|[e|] fs'] eqn:Hf'; simpl; rewrite ?Hw';
      rewrite ?(find_filter_out (fun h => h_id h =? id)); reflexivity. }
  destruct fs as [|[e|] fs]; simpl.
  - rewrite Hlen.
    destruct (existsb (fun h => h_id h =? id) (test_plan_history d)) eqn:He; simpl.
    + repeat split;
        first [ rewrite (find_filter_out (fun h => h_id h =? id)); reflexivity
              | apply Hget; reflexivity ].
    + rewrite (filter_none_same _ _ He). repeat split.
  - destruct (instanceof_Error e && Str.includes "not found" (message_of e)); simpl;
      repeat split; discriminate.
  - rewrite Hlen.
    destruct (existsb (fun h => h_id h =? id) (test_plan_history d)) eqn:He; simpl.
    + repeat split;
        first [ rewrite (find_filter_out (fun h => h_id h =? id)); reflexivity
              | apply Hget; reflexivity ].
    + rewrite (filter_none_same _ _ He). repeat split.
Qed.

End HistoryOps.

(** ** Settings *)

Section SettingsOps.
Context {P : Platform}.
Variable encrypt : string -> option string.

Lemma or_else_empty s : Str.or_else s EmptyString = s.
Proof. destruct s; reflexivity. Qed.

Lemma or_else_idem s d : Str.or_else (Str.or_else s d) d = Str.or_else s d.
Proof. destruct s; [destruct d |]; reflexivity. Qed.

(** The row a successful [saveJiraSettings] leaves. *)
Lemma saveJiraSettings_ok data w w1 :
  SettingsWrites.saveJiraSettings encrypt data w = (Ok tt, w1) ->
  exists c,
    encrypt (jsr_apiToken data) = Some c /\
    db w1 = snd (SettingsWrites.update_jira (jsr_baseUrl data) (jsr_username data) c
                   (db w) (now w)).
Proof.
  unfold SettingsWrites.saveJiraSettings. intro H.
  apply try_catch_inv in H. destruct H as [(e & w2 & _ & H) | (H & _)]; [discriminate |].
  destruct (encrypt (jsr_apiToken data)) as [c|]; [| discriminate].
  exists c. split; [reflexivity |].
  apply db_exec_inv in H. tauto.
Qed.

(** X21.  Saving the JIRA settings always marks the connection as not
    tested: after a successful [saveJiraSettings] on a database that has its
    settings row, [getJiraConfig] reports [isConnected = false] together
    with the base URL and the user name just saved, and the token is the
    decryption of what [encrypt] made of it.  On a database without the
    settings row the save succeeds and stores nothing. *)
Theorem saveJiraSettings_disconnects data w w1 :
  SettingsWrites.saveJiraSettings encrypt data w = (Ok tt, w1) ->
  hd None (faults w1) = None ->
  match settings (db w) with
  | Some _ =>
      exists cfg w2 c,
        SettingsService.getJiraConfig w1 = (Ok cfg, w2) /\
        jc_isConnected cfg = false /\
        jc_baseUrl cfg = jsr_baseUrl data /\
        jc_username cfg = jsr_username data /\
        encrypt (jsr_apiToken data) = Some c /\
        jc_apiToken cfg = decryptField (Some c)
  | None => db w1 = db w
  end.
Proof.
  intros H Hf. destruct (saveJiraSettings_ok _ _ _ H) as (c & Hc & Hd).
  unfold SettingsWrites.update_jira in Hd.
  destruct (settings (db w)) as [row|] eqn:Hrow; [| exact Hd].
  unfold SettingsService.getJiraConfig, SettingsService.getSettings,
    try_catch, db_query, bind, io_step, get_world, ret.
  destruct (faults w1) as [|[e|] fs]; simpl in *; try discriminate;
    rewrite Hd; simpl;
    eexists; eexists; exists c; (split; [reflexivity |]); simpl;
    rewrite !or_else_empty; repeat split; auto.
Qed.

(** The row a successful [saveLLMSettings] leaves. *)
Lemma saveLLMSettings_ok data w w1 :
  SettingsWrites.saveLLMSettings encrypt data w = (Ok tt, w1) ->
  exists key,
    db w1 = snd (SettingsWrites.update_llm data key (db w) (now w)) /\
    faults w1 = tl (faults w) /\
    match key with
    | Some c => exists k, lsr_groqApiKey data = Some k /\ Str.truthy k = true /\
                          encrypt k = Some c
    | None => True
    end.
Proof.
  unfold SettingsWrites.saveLLMSettings. intro H.
  apply try_catch_inv in H. destruct H as [(e & w2 & _ & H) | (H & _)]; [discriminate |].
  apply bind_inv in H. destruct H as [(key & w2 & Hk & H) | [(e & _ & ?) | (_ & ?)]];
    [| discriminate | discriminate].
  assert (Hw : w2 = w /\
               match key with
               | Some c => exists k, lsr_groqApiKey data = Some k /\
                                     Str.truthy k = true /\ encrypt k = Some c
               | None => True
               end).
  { destruct (lsr_groqApiKey data) as [k|]; [| inversion Hk; subst; auto].
    destruct (Str.truthy k) eqn:Ht; [| inversion Hk; subst; auto].
    destruct (encrypt k) as [c|] eqn:Hc; inversion Hk; subst. eauto. }
  destruct Hw as [-> Hkey]. exists key.
  apply db_exec_inv in H. destruct H as (_ & _ & _ & Hf & _ & Hd & _). auto.
Qed.

(** X22.  Saving the LLM settings never erases the stored Groq API key:
    the key column changes only when a non-empty key is given, and then to
    the encryption of that key.  The provider is always overwritten, every
    other LLM column keeps its value when the request omits it, and the
    JIRA columns are never touched. *)
Theorem saveLLMSettings_keeps_key data w w1 row :
  settings (db w) = Some row ->
  SettingsWrites.saveLLMSettings encrypt data w = (Ok tt, w1) ->
  exists row',
    settings (db w1) = Some row' /\
    s_llm_provider row' = Some (provider_string (lsr_provider data)) /\
    (s_groq_api_key row' = s_groq_api_key row \/
     exists k c, lsr_groqApiKey data = Some k /\ Str.truthy k = true /\
                 encrypt k = Some c /\ s_groq_api_key row' = Some c) /\
    (lsr_groqModel data = None -> s_groq_model row' = s_groq_model row) /\
    (lsr_groqTemperature data = None ->
     s_groq_temperature row' = s_groq_temperature row) /\
    (lsr_ollamaBaseUrl data = None -> s_ollama_base_url row' = s_ollama_base_url row) /\
    (lsr_ollamaModel data = None -> s_ollama_model row' = s_ollama_model row) /\
    s_jira_base_url row' = s_jira_base_url row /\
    s_jira_username row' = s_jira_username row /\
    s_jira_api_token row' = s_jira_api_token row /\
    s_jira_connected row' = s_jira_connected row.
Proof.
  intros Hrow H. destruct (saveLLMSettings_ok _ _ _ H) as (key & Hd & _ & Hkey).
  unfold SettingsWrites.update_llm in Hd. rewrite Hrow in Hd.
  eexists. split; [rewrite Hd; reflexivity |]. simpl.
  split; [reflexivity |]. split.
  - destruct key as [c|]; [right | left; reflexivity].
    destruct Hkey as (k & Hk & Ht & Hc). exists k, c. auto.
  - repeat split; try (intros ->; reflexivity).
Qed.

(** X23.  A Groq temperature of 0 cannot be used: [saveLLMSettings]
    stores it, but the configuration reads a stored 0 as 0.7
    ([groq_temperature || 0.7]), so that is the temperature the next run
    with the cloud provider gets. *)
Theorem zero_temperature_reads_as_default data w w1 q :
  SettingsWrites.saveLLMSettings encrypt data w = (Ok tt, w1) ->
  lsr_groqTemperature data = Some q -> Qeq_bool q 0 = true ->
  settings (db w) <> None ->
  hd None (faults w1) = None ->
  (exists row, settings (db w1) = Some row /\ s_groq_temperature row = Some q) /\
  exists w2, TestPlanService.getTemperature groq w1 = (Ok (7 # 10), w2).
Proof.
  intros H Hq Hz Hrow Hf. destruct (saveLLMSettings_ok _ _ _ H) as (key & Hd & _ & _).
  unfold SettingsWrites.update_llm in Hd.
  destruct (settings (db w)) as [row|]; [| congruence]. simpl in Hd.
  split; [eexists; split; [rewrite Hd; reflexivity | simpl; now rewrite Hq] |].
  unfold TestPlanService.getTemperature, SettingsService.getLLMConfig,
    SettingsService.getSettings, try_catch, db_query, bind, io_step, get_world, ret.
  destruct (faults w1) as [|[e|] fs]; simpl in *; try discriminate;
    rewrite Hd; simpl; rewrite Hq; simpl;
    unfold SettingsService.num_or; rewrite Hz; eauto.
Qed.

End SettingsOps.

(** ** Updates and the default template *)

Section TemplateUpdates.
Context {P : Platform}.

(** X24.  An update that names no field does not reach the database and
    never succeeds; for a template that exists the BadRequest error raised
    for it is replaced, by the [catch] clause of [updateTemplate], with the
    internal error "Failed to update template" (status 500). *)
Theorem update_without_fields_is_internal id w row :
  find (TemplateService.has_id id) (templates (db w)) = Some row ->
  hd None (faults w) = None ->
  exists w',
    TemplateService.updateTemplate id {| upd_name := None; upd_isDefault := None |} w
      = (Throw (Errors.Internal "Failed to update template"), w') /\
    db w' = db w.
Proof.
  intros Hrow Hf.
  unfold TemplateService.updateTemplate, TemplateService.getTemplate,
    TemplateService.rethrow_not_found, try_catch, db_query, bind, io_step,
    get_world, ret, throw.
  destruct (faults w) as [|[e|] fs]; simpl in *; try discriminate;
    rewrite Hrow; simpl; eauto.
Qed.

Lemma insert_sorted_in r l x :
  In x (TemplateService.insert_sorted r l) <-> x = r \/ In x l.
Proof.
  induction l as [|y l IH]; simpl; [intuition |].
  destruct (TemplateService.before y r); simpl; [rewrite IH; intuition |].
  destruct (TemplateService.before r y); simpl; [intuition | rewrite IH; intuition].
Qed.

Lemma insert_sorted_count r l :
  count_default (TemplateService.insert_sorted r l) = count_default (r :: l).
Proof.
  unfold count_default. induction l as [|y l IH]; simpl; [reflexivity |].
  destruct (TemplateService.before y r); simpl.
  - destruct (tr_is_default y); simpl; rewrite IH; simpl;
      destruct (tr_is_default r); reflexivity.
  - destruct (TemplateService.before r y); simpl; [reflexivity |].
    destruct (tr_is_default y); simpl; rewrite IH; simpl;
      destruct (tr_is_default r); reflexivity.
Qed.

(** In a listing with at most one default row, a default row stands first. *)
Lemma insert_sorted_default_first r l :
  (count_default (r :: l) <= 1)%nat ->
  Forall (fun x => tr_is_default x = false) (tl l) ->
  Forall (fun x => tr_is_default x = false) (tl (TemplateService.insert_sorted r l)).
Proof.
  intros Hc Htl. destruct l as [|y l]; simpl; [constructor |].
  simpl in Htl. unfold TemplateService.before.
  assert (Hrest : tr_is_default r = true \/ tr_is_default y = true ->
                  Forall (fun x => tr_is_default x = false) l) by (intros _; exact Htl).
  unfold count_default in Hc. simpl in Hc.
  destruct (tr_is_default r) eqn:Hr, (tr_is_default y) eqn:Hy; simpl in *; try lia.
  - constructor; assumption.
  - assert (Hin : forall x, In x (TemplateService.insert_sorted r l) ->
                            tr_is_default x = false).
    { intros x Hx. apply insert_sorted_in in Hx. destruct Hx as [-> | Hx]; [exact Hr |].
      rewrite Forall_forall in Htl. auto. }
    apply Forall_forall. exact Hin.
  - assert (Hin : forall x, In x (TemplateService.insert_sorted r l) ->
                            tr_is_default x = false).
    { intros x Hx. apply insert_sorted_in in Hx. destruct Hx as [-> | Hx]; [exact Hr |].
      rewrite Forall_forall in Htl. auto. }
    destruct (tr_created_at r <? tr_created_at y); simpl;
      [apply Forall_forall; exact Hin |].
    destruct (tr_created_at y <? tr_created_at r); simpl;
      [constructor; assumption | apply Forall_forall; exact Hin].
Qed.

Lemma order_rows_spec l :
  (count_default l <= 1)%nat ->
  Forall (fun x => tr_is_default x = false) (tl (TemplateService.order_rows l)) /\
  forall x, In x (TemplateService.order_rows l) <-> In x l.
Proof.
  unfold TemplateService.order_rows. intro Hc.
  assert (H : forall acc,
             (count_default l + count_default acc <= 1)%nat ->
             Forall (fun x => tr_is_default x = false) (tl acc) ->
             Forall (fun x => tr_is_default x = false)
                    (tl (fold_left (fun acc r => TemplateService.insert_sorted r acc) l acc))
             /\ forall x, In x (fold_left (fun acc r => TemplateService.insert_sorted r acc)
                                           l acc)
                           <-> In x l \/ In x acc).
  { clear Hc. induction l as [|r l IH]; intros acc Hc Htl; simpl; [intuition |].
    assert (Hc' : (count_default l + count_default (TemplateService.insert_sorted r acc)
                   <= 1)%nat).
    { rewrite insert_sorted_count. unfold count_default in *. simpl in *.
      destruct (tr_is_default r); simpl in *; lia. }
    assert (Htl' : Forall (fun x => tr_is_default x = false)
                     (tl (TemplateService.insert_sorted r acc))).
    { apply insert_sorted_default_first; [| exact Htl].
      unfold count_default in *. simpl in *.
      destruct (tr_is_default r); simpl in *; lia. }
    destruct (IH _ Hc' Htl') as [H1 H2]. split; [exact H1 |].
    intro x. rewrite H2, insert_sorted_in. intuition. }
  destruct (H []) as [H1 H2]; [simpl; unfold count_default at 2; simpl; lia | constructor |].
  split; [exact H1 |]. intro x. rewrite H2. simpl. intuition.
Qed.

Lemma default_heads_listing l r :
  (count_default l <= 1)%nat ->
  find tr_is_default l = Some r ->
  hd_error (TemplateService.order_rows l) = Some r.
Proof.
  intros Hc Hf. destruct (order_rows_spec l Hc) as [Htl Hin].
  apply find_some in Hf. destruct Hf as [Hr Hd].
  apply Hin in Hr.
  destruct (TemplateService.order_rows l) as [|y rest]; [destruct Hr |].
  simpl in *. destruct Hr as [-> | Hr]; [reflexivity |].
  rewrite Forall_forall in Htl. rewrite (Htl _ Hr) in Hd. discriminate.
Qed.

(** X25.  While at most one template is marked default, the default
    template is the first entry of the listing: what [getDefaultTemplate]
    returns is the head of what [getAllTemplates] returns from the same
    database (nothing for an empty store), whether a row is marked default
    or the fallback to the first template applies. *)
Theorem default_template_heads_the_listing w :
  at_most_one_default (db w) ->
  fault_free 2 (faults w) = true ->
  exists all w1 w2,
    TemplateService.getAllTemplates w = (Ok all, w1) /\
    TemplateService.getDefaultTemplate w = (Ok (hd_error all), w2).
Proof.
  unfold at_most_one_default. intros Hc Hf.
  unfold TemplateService.getDefaultTemplate, TemplateService.getAllTemplates,
    try_catch, db_query, bind, io_step, get_world, ret.
  destruct w as [d dk t u fs jf em pu pc]; simpl in *.
  destruct (find tr_is_default (templates d)) as [r|] eqn:Hfind.
  - pose proof (default_heads_listing _ _ Hc Hfind) as Hhd.
    destruct fs as [|[e|] fs]; simpl in *; try discriminate;
      rewrite ?Hfind; simpl;
      eexists; eexists; eexists; (split; [reflexivity |]);
      destruct (TemplateService.order_rows (templates d)); inversion Hhd; subst;
      reflexivity.
  - destruct fs as [|[e|] [|[e'|] fs]]; simpl in *; try discriminate;
      rewrite ?Hfind; simpl;
      eexists; eexists; eexists; (split; reflexivity).
Qed.

End TemplateUpdates.

Section TrackerFailures.
Context {P : Platform}.
Variable impl : Scope.

Lemma handleError_status error e :
  JiraClient.handleError error = Some e ->
  with_status e /\
  In (status_of e) [Some 401; Some 403; Some 404; Some 429; Some 502].
Proof.
  unfold JiraClient.handleError.
  destruct (ax_response error) as [[status msgs]|].
  - repeat match goal with
           | |- context [if ?b then _ else _] => destruct b
           end; intro H; injection H as <-; (split; [reflexivity | simpl; auto 6]).
  - destruct (ax_code error) as [code|]; [| discriminate].
    repeat match goal with
           | |- context [if ?b then _ else _] => destruct b
           end; intro H; try discriminate H; injection H as <-; (split; [reflexivity | simpl; auto 6]).
Qed.

Lemma handleError_none failure :
  JiraClient.handleError failure = None -> ax_response failure = None.
Proof.
  unfold JiraClient.handleError.
  destruct (ax_response failure) as [[status msgs]|]; [| reflexivity].
  repeat match goal with
         | |- context [if ?b then _ else _] => destruct b
         end; discriminate.
Qed.

Lemma getTicket_asks_tracker tid w row :
  find (JiraTicketService.has_key tid) (jira_tickets (db w)) = None ->
  settings (db w) = Some row ->
  Str.truthy (SettingsService.text_or (s_jira_base_url row) EmptyString) = true ->
  Str.truthy (decryptField (s_jira_api_token row)) = true ->
  fault_free 2 (faults w) = true ->
  TestPlanService.getTicket tid w =
  match jira_fetch w tid with
  | inl e => throw e
  | inr t => JiraTicketService.saveTicket t ;; ret (Some t)
  end (set_faults (skipn 2 (faults w)) w).
Proof.
  intros Hc Hs Hb Ht Hf.
  unfold TestPlanService.getTicket, JiraTicketService.getTicket,
    SettingsService.getJiraConfig, SettingsService.getSettings,
    try_catch, bind, db_query, io_step, get_world, ret, throw.
  destruct w as [d dk nw uu fs jf em pl pc]. simpl in *.
  destruct fs as [|[e0|] [|[e1|] fs]]; try discriminate; simpl;
    rewrite ?Hc; simpl; rewrite Hs; simpl;
    unfold Str.or_else; rewrite Hb, Ht; simpl; rewrite Hb, Ht; simpl;
    reflexivity.
Qed.

Lemma getTicket_rejected tid w row e :
  find (JiraTicketService.has_key tid) (jira_tickets (db w)) = None ->
  settings (db w) = Some row ->
  Str.truthy (SettingsService.text_or (s_jira_base_url row) EmptyString) = true ->
  Str.truthy (decryptField (s_jira_api_token row)) = true ->
  fault_free 2 (faults w) = true ->
  jira_fetch w tid = inl e ->
  exists w', TestPlanService.getTicket tid w = (Throw e, w') /\
             db w' = db w /\ frame w w'.
Proof.
  intros Hc Hs Hb Ht Hf Hj.
  rewrite (getTicket_asks_tracker tid w row Hc Hs Hb Ht Hf), Hj.
  eexists. split; [reflexivity | split; [reflexivity | repeat split]].
Qed.

(** X26.  A run whose ticket is not cached asks the tracker (JIRA being
    configured).  When that request fails, the client's interceptor turns
    every answer of the server, and a refused or timed-out connection, into
    an [ApiError] of status 401, 403, 404, 429 or 502, which [generate]
    throws to its caller after the first progress event; any other failure
    (no response, another code) stays the axios error, and [generate]
    reports its message in an [error] event and returns.  Either way the
    database is untouched and no provider is called. *)
Theorem tracker_failure_outcome options w row failure :
  find (JiraTicketService.has_key (ticketId options)) (jira_tickets (db w)) = None ->
  settings (db w) = Some row ->
  Str.truthy (SettingsService.text_or (s_jira_base_url row) EmptyString) = true ->
  Str.truthy (decryptField (s_jira_api_token row)) = true ->
  fault_free 2 (faults w) = true ->
  jira_fetch w (ticketId options) = inl (JiraClient.rejection failure) ->
  exists w',
    db w' = db w /\ provider_calls w' = provider_calls w /\
    match JiraClient.handleError failure with
    | Some e =>
        TestPlanService.generate impl drain options w = (Throw e, w') /\
        In (status_of e) [Some 401; Some 403; Some 404; Some 429; Some 502] /\
        emitted w' = emitted w ++ [fetching_event]
    | None =>
        TestPlanService.generate impl drain options w = (Ok tt, w') /\
        emitted w' =
          emitted w ++ [fetching_event; mkEvent error (ax_message failure) None]
    end.
Proof.
  intros Hc Hs Hb Ht Hf Hj.
  destruct (getTicket_rejected (ticketId options) (yielded [fetching_event] w) row
              (JiraClient.rejection failure) Hc Hs Hb Ht Hf Hj)
    as (w1 & Hg & Hd & (Hem & _ & Hpc & _)).
  assert (Hr : TestPlanService.resolve_and_stream impl drain options w
               = (Throw (JiraClient.rejection failure), w1)).
  { unfold TestPlanService.resolve_and_stream. rewrite bind_yield_drain.
    apply bind_throw. exact Hg. }
  rewrite generate_drain_cases, Hr, on_error_drain.
  unfold JiraClient.rejection.
  destruct (JiraClient.handleError failure) as [e|] eqn:He.
  - destruct (handleError_status _ _ He) as [Hw Hin]. unfold with_status in Hw.
    rewrite Hw. exists w1. repeat split; assumption.
  - simpl. rewrite (handleError_none _ He). simpl.
    eexists. split; [| split; [| split; [reflexivity |]]].
    + exact Hd.
    + exact Hpc.
    + simpl. rewrite Hem. simpl. rewrite <- app_assoc. reflexivity.
Qed.

Lemma fault_free_skip fs :
  fault_free 3 fs = true -> fault_free 2 fs = true /\ fault_free 1 (skipn 2 fs) = true.
Proof.
  destruct fs as [|[e0|] [|[e1|] [|[e2|] fs]]]; simpl; intro H;
    try discriminate; split; reflexivity.
Qed.

(** X27.  The ticket route and the orchestrator do not agree on when JIRA
    counts as configured.  With a base URL and a token but no user name, and
    a ticket that is not cached, [GET /ticket/:ticketId] refuses with a
    BadRequest error (status 400) and leaves the database as it was, while
    the orchestrator's [getTicket] sends the request to the tracker and
    hands the tracker's ticket to the run. *)
Theorem username_is_required_by_the_route_only tid w row ticket :
  find (JiraTicketService.has_key tid) (jira_tickets (db w)) = None ->
  settings (db w) = Some row ->
  Str.truthy (SettingsService.text_or (s_jira_base_url row) EmptyString) = true ->
  Str.truthy (SettingsService.text_or (s_jira_username row) EmptyString) = false ->
  Str.truthy (decryptField (s_jira_api_token row)) = true ->
  fault_free 3 (faults w) = true ->
  jira_fetch w tid = inr ticket ->
  (exists w1,
     JiraRoutes.ticket true tid w
       = (Throw (Errors.BadRequest
            "JIRA credentials not configured. Please configure in settings first."),
          w1) /\
     db w1 = db w) /\
  (exists w2, TestPlanService.getTicket tid w = (Ok (Some ticket), w2)).
Proof.
  intros Hc Hs Hb Hu Ht Hf Hj. destruct (fault_free_skip _ Hf) as [Hf2 Hf1]. split.
  - clear Hj.
    unfold JiraRoutes.ticket, JiraRoutes.fetch_and_cache, JiraRoutes.getJiraClient,
      JiraTicketService.getTicket,
      SettingsService.getJiraConfig, SettingsService.getSettings,
      try_catch, bind, db_query, io_step, get_world, ret, throw.
    destruct w as [d dk nw uu fs jf em pl pc]. simpl in *.
    destruct fs as [|[e0|] [|[e1|] fs]]; try discriminate; simpl;
      rewrite ?Hc; simpl; rewrite Hs; simpl;
      unfold Str.or_else; rewrite Hb, Hu; simpl; rewrite Hb, Ht; simpl;
      eexists; split; reflexivity.
  - rewrite (getTicket_asks_tracker tid w row Hc Hs Hb Ht Hf2), Hj.
    destruct (saveTicket_runs ticket (set_faults (skipn 2 (faults w)) w))
      as (w2 & Hrun & _); [destruct w; exact Hf1 |].
    exists w2. unfold bind. rewrite Hrun. reflexivity.
Qed.

End TrackerFailures.
(** * Witnesses *)

Lemma template_default_invariant_witness :
  sole_default 2
    (templates (db (snd (TemplateService.setAsDefault 2
                           SampleTemplates.two_templates)))).
Proof.
  destruct (@template_default_invariant Sample.platform "templates"
              SampleTemplates.two_templates) as (_ & _ & _ & _ & H).
  - split; [split |].
    + simpl. repeat constructor; simpl; intuition discriminate.
    + simpl. repeat constructor; simpl; lia.
    + unfold at_most_one_default, count_default. simpl. lia.
  - destruct (TemplateService.setAsDefault 2
                SampleTemplates.two_templates) as [r w'] eqn:E.
    assert (Hr : exists t, r = Ok t).
    { pose proof E as E'. vm_compute in E'. inversion E'. eauto. }
    destruct Hr as [t ->]. exact (H 2 _ _ E).
Defined.

Lemma first_upload_becomes_default_witness :
  let '(_, w') := @TemplateService.createTemplate Sample.platform "templates"
                    (Some SampleTemplates.upload) None SampleStores.no_template in
  exists row, templates (db w') = [row] /\ tr_is_default row = true.
Proof.
  destruct (@TemplateService.createTemplate Sample.platform "templates"
              (Some SampleTemplates.upload) None SampleStores.no_template)
    as [r w'] eqn:E.
  assert (Hr : exists t, r = Ok t).
  { pose proof E as E'. vm_compute in E'. inversion E'. eauto. }
  destruct Hr as [t ->].
  destruct (@first_upload_becomes_default Sample.platform _ _ _ _ _ _ E eq_refl)
    as (row & Ht & _ & Hd).
  exists row. split; [exact Ht | apply Hd; reflexivity].
Defined.

Lemma refetch_overwrites_in_place_witness :
  exists w',
    @JiraTicketService.saveTicket Sample.platform Sample.ticket_refetched Sample.ready
      = (Ok tt, w') /\
    List.length (jira_tickets (db w')) = 1%nat /\
    map jt_summary (jira_tickets (db w')) = ["Login v2"%string] /\
    map jt_id (jira_tickets (db w')) = [1].
Proof.
  destruct (@saveTicket_runs Sample.platform Sample.ticket_refetched Sample.ready
              eq_refl) as (w' & Hrun & _).
  destruct (@refetch_overwrites_in_place Sample.platform Sample.ticket_refetched
              Sample.ready w' eq_refl Hrun) as (Hlen & Hrows).
  exists w'. split; [exact Hrun | split; [exact Hlen |]].
  simpl in Hrows. inversion Hrows as [|old new l l' Hrow Hrest]; subst.
  inversion Hrest; subst. simpl in Hrow.
  destruct Hrow as (Hid & _ & Hsum & _). simpl. split; congruence.
Defined.

Lemma ollama_stream_end_witness :
  (exists evs,
      @OllamaProvider.generateTestPlan Sample.platform
        {| oc_baseUrl := "http://localhost:11434"; oc_model := "llama3" |}
        Sample.ollama_hello
        {| ctx_ticket := Sample.ticket; ctx_template := "1. Scope";
           ctx_temperature := 7 # 10 |}
      = (evs ++ [complete_event "Hello world"], Returned tt)) /\
  (exists w',
      @stream_and_persist Sample.platform drain (Sample.options ollama) Sample.ticket
        {| rt_id := 1; rt_content := "1. Scope"; rt_name := "Plan" |}
        (@OllamaProvider.generateTestPlan Sample.platform
           {| oc_baseUrl := "http://localhost:11434"; oc_model := "llama3" |}
           Sample.ollama_silent
           {| ctx_ticket := Sample.ticket; ctx_template := "1. Scope";
              ctx_temperature := 7 # 10 |})
        Sample.ready = (Ok tt, w') /\
      emitted w' = [ollama_started; complete_event EmptyString;
                    complete_event EmptyString] /\
      test_plan_history (db w') = []).
Proof.
  split.
  - destruct (@ollama_stream_end Sample.platform
                {| oc_baseUrl := "http://localhost:11434"; oc_model := "llama3" |}
                {| ctx_ticket := Sample.ticket; ctx_template := "1. Scope";
                   ctx_temperature := 7 # 10 |}
                (chunks match Sample.ollama_hello with
                        | inr s => s
                        | inl _ => {| chunks := []; failure := None |}
                        end)
                None) as (Ha & _ & _).
    destruct (Ha ["+Hello"; "+ world"]%string "!"%string ["+more"; "+tail"]%string
                 eq_refl eq_refl eq_refl) as [H _].
    exists (ollama_started ::
              @fragment_events Sample.platform ["+Hello"; "+ world"; "!"]%string
                EmptyString).
    exact H.
  - destruct (@ollama_stream_end Sample.platform
                {| oc_baseUrl := "http://localhost:11434"; oc_model := "llama3" |}
                {| ctx_ticket := Sample.ticket; ctx_template := "1. Scope";
                   ctx_temperature := 7 # 10 |}
                [] None) as (_ & _ & Hc).
    destruct (Hc eq_refl eq_refl) as (_ & _ & Hrun).
    destruct (Hrun (Sample.options ollama) Sample.ticket
                {| rt_id := 1; rt_content := "1. Scope"; rt_name := "Plan" |}
                Sample.ready) as (w' & Hr & He & Hh).
    exists w'. split; [exact Hr | split; [exact He | exact (Hh eq_refl)]].
Defined.

(** * Worked examples for the rest of the services *)

Ltac run_is E r v :=
  assert (r = v) by (pose proof E as E'; vm_compute in E'; inversion E'; reflexivity);
  subst r.

Lemma rejected_upload_writes_nothing_witness :
  exists m,
    @TemplateService.createTemplate Sample.platform "templates"
      (Some SampleUploads.text_file) None Sample.ready
      = (Throw (Errors.BadRequest m), Sample.ready) /\
    In m ["No file uploaded"; "File must be a PDF"; "File size exceeds 5MB limit";
          "Invalid or corrupted PDF file"]%string.
Proof.
  apply (@rejected_upload_writes_nothing Sample.platform). reflexivity.
Defined.

Lemma failed_insert_leaves_file_witness :
  let w' := snd (@TemplateService.createTemplate Sample.platform "templates"
                   (Some SampleTemplates.upload) None SampleUploads.insert_fails) in
  disk w' = ["templates/0a1b2c3d_test_plan.pdf"]%string /\
  map tr_id (templates (db w')) = [1].
Proof.
  cbv zeta.
  destruct (@TemplateService.createTemplate Sample.platform "templates"
              (Some SampleTemplates.upload) None SampleUploads.insert_fails)
    as [r w'] eqn:E.
  assert (Hr : exists e, r = Throw e).
  { pose proof E as E'. vm_compute in E'. inversion E'. eauto. }
  destruct Hr as [e ->].
  assert (Ha : @upload_accepted Sample.platform (Some SampleTemplates.upload) = true)
    by reflexivity.
  destruct (@failed_insert_leaves_file Sample.platform "templates"
              SampleTemplates.upload None SampleUploads.insert_fails e w'
              Ha eq_refl E)
    as (_ & Hd & Ht).
  simpl snd. split; [exact Hd | exact Ht].
Defined.

Lemma deleteTemplate_removes_witness :
  exists w',
    TemplateService.deleteTemplate 1 Sample.ready = (Ok tt, w') /\
    templates (db w') = [] /\
    jira_tickets (db w') = [Sample.ticket_row].
Proof.
  destruct (TemplateService.deleteTemplate 1 Sample.ready)
    as [r w'] eqn:E.
  run_is E r (@Ok unit tt).
  destruct (deleteTemplate_removes 1 Sample.ready w' E)
    as (row & _ & Ht & _ & _ & _ & _ & Hj).
  exists w'. split; [reflexivity | split; [exact Ht | exact Hj]].
Defined.

Lemma unknown_template_is_not_found_witness :
  fst (TemplateService.deleteTemplate 7 Sample.ready)
    = Throw (Errors.NotFound "Template") /\
  fst (TemplateService.setAsDefault 7 Sample.ready)
    = Throw (Errors.NotFound "Template").
Proof.
  destruct (unknown_template_is_not_found 7
              {| upd_name := Some "Renamed"%string; upd_isDefault := None |}
              Sample.ready eq_refl) as (_ & Hs & Hd).
  destruct (TemplateService.deleteTemplate 7 Sample.ready).
  destruct (TemplateService.setAsDefault 7 Sample.ready).
  split; [apply Hd | apply Hs].
Defined.

Lemma failed_delete_loses_file_witness :
  let w' := snd (TemplateService.deleteTemplate 1
                   SampleUploads.delete_fails) in
  map tr_id (templates (db w')) = [1] /\
  existsb (String.eqb "templates/plan.pdf") (disk w') = false.
Proof.
  cbv zeta.
  pose proof (failed_delete_loses_file 1 SampleUploads.delete_fails
                (Sample.template_row 1 true 50)
                (JsError "SQLITE_BUSY: database is locked")
                eq_refl eq_refl eq_refl eq_refl) as H.
  destruct (TemplateService.deleteTemplate 1
              SampleUploads.delete_fails) as [r w'].
  destruct H as (_ & Ht & Hf). simpl snd. rewrite Ht. split; [reflexivity | exact Hf].
Defined.

Lemma saved_ticket_is_read_back_witness :
  exists w1 w2,
    @JiraTicketService.saveTicket Sample.platform Sample.ticket SampleStores.no_template
      = (Ok tt, w1) /\
    @JiraTicketService.getTicket Sample.platform "ABC-1" w1
      = (Ok (Some Sample.ticket), w2).
Proof.
  destruct (@JiraTicketService.saveTicket Sample.platform Sample.ticket
              SampleStores.no_template) as [r w1] eqn:E.
  run_is E r (@Ok unit tt).
  assert (Hf : hd None (faults w1) = None).
  { replace w1 with (snd (@JiraTicketService.saveTicket Sample.platform Sample.ticket
                            SampleStores.no_template)) by (rewrite E; reflexivity).
    reflexivity. }
  destruct (@saved_ticket_is_read_back Sample.platform Sample.ticket
              SampleStores.no_template w1 E eq_refl eq_refl Hf) as [w2 H].
  exists w1, w2. split; [reflexivity | exact H].
Defined.

Lemma saveTicket_counts_witness :
  exists w1 w2,
    @JiraTicketService.saveTicket Sample.platform Sample.ticket_refetched Sample.ready
      = (Ok tt, w1) /\
    JiraTicketService.getCount w1 = (Ok 1, w2).
Proof.
  destruct (@JiraTicketService.saveTicket Sample.platform Sample.ticket_refetched
              Sample.ready) as [r w1] eqn:E.
  run_is E r (@Ok unit tt).
  assert (Hf : hd None (faults w1) = None).
  { replace w1 with (snd (@JiraTicketService.saveTicket Sample.platform
                            Sample.ticket_refetched Sample.ready))
      by (rewrite E; reflexivity).
    reflexivity. }
  destruct (@saveTicket_counts Sample.platform Sample.ticket_refetched
              Sample.ready w1 E Hf) as [w2 H].
  exists w1, w2. split; [reflexivity | exact H].
Defined.

Lemma resolved_ticket_is_cached_witness :
  exists t w',
    @TestPlanService.getTicket Sample.platform "ABC-1" Sample.ready
      = (Ok (Some t), w') /\
    existsb (JiraTicketService.has_key (key t)) (jira_tickets (db w')) = true.
Proof.
  destruct (@TestPlanService.getTicket Sample.platform "ABC-1" Sample.ready)
    as [r w'] eqn:E.
  run_is E r (Ok (Some Sample.ticket)).
  destruct (@resolved_ticket_is_cached Sample.platform "ABC-1" Sample.ready
              Sample.ticket w' E) as [H _].
  exists Sample.ticket, w'. split; [reflexivity | exact H].
Defined.

Lemma groq_failure_outcome_witness :
  exists pre e',
    GroqProvider.generateTestPlan Sample.groq_unauthorized
      {| ctx_ticket := Sample.ticket; ctx_template := "1. Scope";
         ctx_temperature := 7 # 10 |}
    = (pre, Raised e') /\
    In (status_of e') [Some 401; Some 429; Some 502].
Proof.
  pose proof (groq_failure_outcome Sample.groq_unauthorized
                (GroqAPIError (Some 401) "Invalid API Key")
                {| ctx_ticket := Sample.ticket; ctx_template := "1. Scope";
                   ctx_temperature := 7 # 10 |} eq_refl) as H.
  destruct (GroqProvider.generateTestPlan Sample.groq_unauthorized _) as [evs c].
  destruct H as (pre & _ & H). simpl in H. destruct H as (-> & e' & -> & Hin).
  exists pre, e'. split; [reflexivity | exact Hin].
Defined.

Lemma returned_run_has_failed_witness :
  exists w',
    @TestPlanService.generate Sample.platform index_scope drain
      (Sample.options groq) Sample.ready = (Ok tt, w') /\
    emitted w' =
      stage_events Sample.ticket (Sample.options groq)
      ++ [mkEvent error "GroqProvider is not defined" None] /\
    test_plan_history (db w') = [].
Proof.
  destruct (@TestPlanService.generate Sample.platform index_scope drain
              (Sample.options groq) Sample.ready) as [r w'] eqn:E.
  run_is E r (@Ok unit tt).
  destruct (@returned_run_has_failed Sample.platform (Sample.options groq)
              Sample.ready w' E) as (_ & Hh & _).
  exists w'. split; [reflexivity | split; [| exact Hh]].
  replace w' with (snd (@TestPlanService.generate Sample.platform index_scope drain
                          (Sample.options groq) Sample.ready))
    by (rewrite E; reflexivity).
  vm_compute. reflexivity.
Defined.

Lemma negative_limit_lists_everything_witness :
  exists l w',
    Routes.history SampleFailures.parseInt (Some "-1"%string)
      (snd (TestPlanService.saveToHistory SampleFailures.history_data Sample.ready))
      = (replied l, w') /\
    List.length l = 1%nat.
Proof.
  destruct (negative_limit_lists_everything SampleFailures.parseInt "-1"%string (-1)
              (snd (TestPlanService.saveToHistory SampleFailures.history_data
                      Sample.ready))
              eq_refl eq_refl eq_refl) as (l & w' & Hrun & Hlen & _).
  exists l, w'. split; [exact Hrun | exact Hlen].
Defined.

Lemma saved_plan_is_read_back_witness :
  exists w1 item w2,
    TestPlanService.saveToHistory SampleFailures.history_data Sample.ready
      = (Ok 1, w1) /\
    History.getTestPlan 1 w1 = (Ok (Some item), w2) /\
    tp_generatedContent item = "# Plan"%string.
Proof.
  destruct (TestPlanService.saveToHistory SampleFailures.history_data Sample.ready)
    as [r w1] eqn:E.
  run_is E r (Ok 1).
  assert (Hf : hd None (faults w1) = None).
  { replace w1 with (snd (TestPlanService.saveToHistory SampleFailures.history_data
                            Sample.ready)) by (rewrite E; reflexivity).
    reflexivity. }
  assert (Hwf : history_wf (db Sample.ready)).
  { unfold history_wf. simpl. repeat split; try constructor; lia. }
  destruct (saved_plan_is_read_back SampleFailures.history_data Sample.ready 1 w1
              Hwf E ltac:(discriminate) Hf) as (item & w2 & Hg & _ & Hc & _).
  exists w1, item, w2. split; [reflexivity | split; [exact Hg | exact Hc]].
Defined.

Lemma saveJiraSettings_disconnects_witness :
  exists w1 cfg w2,
    SettingsWrites.saveJiraSettings SampleSettings.encrypt SampleSettings.jira_request
      SampleSettings.configured = (Ok tt, w1) /\
    @SettingsService.getJiraConfig Sample.platform w1 = (Ok cfg, w2) /\
    jc_isConnected cfg = false /\
    jc_apiToken cfg = "enc:secret"%string.
Proof.
  destruct (SettingsWrites.saveJiraSettings SampleSettings.encrypt
              SampleSettings.jira_request SampleSettings.configured)
    as [r w1] eqn:E.
  run_is E r (@Ok unit tt).
  assert (Hf : hd None (faults w1) = None).
  { replace w1 with (snd (SettingsWrites.saveJiraSettings SampleSettings.encrypt
                            SampleSettings.jira_request SampleSettings.configured))
      by (rewrite E; reflexivity).
    reflexivity. }
  pose proof (@saveJiraSettings_disconnects Sample.platform SampleSettings.encrypt
                SampleSettings.jira_request SampleSettings.configured w1 E Hf) as H.
  simpl in H. destruct H as (cfg & w2 & c & Hg & Hc & _ & _ & Henc & Htok).
  exists w1, cfg, w2. split; [reflexivity | split; [exact Hg | split; [exact Hc |]]].
  rewrite Htok. injection Henc as <-. reflexivity.
Defined.

Lemma saveLLMSettings_keeps_key_witness :
  exists w1 row',
    SettingsWrites.saveLLMSettings SampleSettings.encrypt SampleSettings.llm_request
      SampleSettings.configured = (Ok tt, w1) /\
    settings (db w1) = Some row' /\
    s_groq_api_key row' = Some "key"%string /\
    s_groq_model row' = Some "llama3-70b-8192"%string.
Proof.
  destruct (SettingsWrites.saveLLMSettings SampleSettings.encrypt
              SampleSettings.llm_request SampleSettings.configured)
    as [r w1] eqn:E.
  run_is E r (@Ok unit tt).
  destruct (saveLLMSettings_keeps_key SampleSettings.encrypt SampleSettings.llm_request
              SampleSettings.configured w1 SampleSettings.row eq_refl E)
    as (row' & Hs & _ & Hk & Hm & _).
  exists w1, row'. split; [reflexivity | split; [exact Hs | split]].
  - destruct Hk as [Hk | (k & c & Hk & Ht & _)].
    + exact Hk.
    + simpl in Hk. injection Hk as <-. discriminate Ht.
  - apply Hm. reflexivity.
Defined.

Lemma zero_temperature_reads_as_default_witness :
  exists w1 w2,
    SettingsWrites.saveLLMSettings SampleSettings.encrypt SampleSettings.llm_request
      SampleSettings.configured = (Ok tt, w1) /\
    @TestPlanService.getTemperature Sample.platform groq w1 = (Ok (7 # 10), w2).
Proof.
  destruct (SettingsWrites.saveLLMSettings SampleSettings.encrypt
              SampleSettings.llm_request SampleSettings.configured)
    as [r w1] eqn:E.
  run_is E r (@Ok unit tt).
  assert (Hf : hd None (faults w1) = None).
  { replace w1 with (snd (SettingsWrites.saveLLMSettings SampleSettings.encrypt
                            SampleSettings.llm_request SampleSettings.configured))
      by (rewrite E; reflexivity).
    reflexivity. }
  destruct (@zero_temperature_reads_as_default Sample.platform SampleSettings.encrypt
              SampleSettings.llm_request SampleSettings.configured w1 (0 # 1)
              E eq_refl eq_refl ltac:(discriminate) Hf) as (_ & w2 & H).
  exists w1, w2. split; [reflexivity | exact H].
Defined.

Lemma update_without_fields_is_internal_witness :
  exists w',
    TemplateService.updateTemplate 1 {| upd_name := None; upd_isDefault := None |}
      Sample.ready
      = (Throw (Errors.Internal "Failed to update template"), w') /\
    db w' = db Sample.ready.
Proof.
  apply (update_without_fields_is_internal 1 Sample.ready
           (Sample.template_row 1 true 50)); reflexivity.
Defined.

Lemma default_template_heads_the_listing_witness :
  exists all w1 w2,
    TemplateService.getAllTemplates SampleTemplates.two_templates = (Ok all, w1) /\
    TemplateService.getDefaultTemplate SampleTemplates.two_templates
      = (Ok (hd_error all), w2).
Proof.
  apply (default_template_heads_the_listing SampleTemplates.two_templates).
  - unfold at_most_one_default, count_default. simpl. lia.
  - reflexivity.
Defined.

Lemma tracker_failure_outcome_witness :
  exists w',
    @TestPlanService.generate Sample.platform index_scope
      drain SampleSettings.uncached
      (SampleTracker.answering SampleSettings.row
         (inl (JiraClient.rejection SampleTracker.teapot)))
    = (Throw (Errors.BadGateway "Field is invalid"), w') /\
    emitted w' = [fetching_event].
Proof.
  destruct (@tracker_failure_outcome Sample.platform index_scope
              SampleSettings.uncached
              (SampleTracker.answering SampleSettings.row
                 (inl (JiraClient.rejection SampleTracker.teapot)))
              SampleSettings.row SampleTracker.teapot
              eq_refl eq_refl eq_refl eq_refl eq_refl eq_refl)
    as (w' & _ & _ & H).
  simpl in H. destruct H as (Hrun & _ & Hem).
  exists w'. split; [exact Hrun | exact Hem].
Defined.

Lemma username_is_required_by_the_route_only_witness :
  (exists w1,
     @JiraRoutes.ticket Sample.platform true "XYZ-9"
       (SampleTracker.answering SampleTracker.no_user_name
          (inr SampleTracker.other_ticket))
     = (Throw (Errors.BadRequest
          "JIRA credentials not configured. Please configure in settings first."),
        w1)) /\
  (exists w2,
     @TestPlanService.getTicket Sample.platform "XYZ-9"
       (SampleTracker.answering SampleTracker.no_user_name
          (inr SampleTracker.other_ticket))
     = (Ok (Some SampleTracker.other_ticket), w2)).
Proof.
  destruct (@username_is_required_by_the_route_only Sample.platform "XYZ-9"
              (SampleTracker.answering SampleTracker.no_user_name
                 (inr SampleTracker.other_ticket))
              SampleTracker.no_user_name SampleTracker.other_ticket
              eq_refl eq_refl eq_refl eq_refl eq_refl eq_refl eq_refl)
    as [(w1 & H1 & _) H2].
  split; [exists w1; exact H1 | exact H2].
Defined.
